(** * Case-study platform (V1 - nouga-main): a shallow embedding

    The development follows the server side of the application:

    - [src/db/schema.ts] and the SQL migrations: the five tables and the
      declared foreign keys ([ON DELETE cascade] / [ON DELETE no action]);
    - [src/app/api/webhooks/marker/route.ts]: the extraction webhook;
    - [src/actions/create-case-study.ts]: file ingestion;
    - [src/actions/case-study.ts]: the case-study server actions;
    - the summarisation action ([createOnePager]) and [createUserProfile].

    JavaScript exceptions are modelled by a state-and-error monad in which a
    throw keeps the state reached so far: every database statement is its own
    implicit transaction, and nothing in the code opens a longer one.
    External collaborators (Clerk, the Marker API, Supabase storage, Gemini,
    plain HTTP downloads) are oracles gathered in a [World] record.

    The timestamp columns [created_at] and [updated_at] are not carried
    (every [UPDATE] rewrites [updated_at]; no statement of this development
    speaks of it). A table is the list of its rows. For [case_study_files],
    read without [ORDER BY], it is the order in which a scan returns them:
    an inserted row comes last, and so does the new version of a row that an
    [UPDATE] rewrites. [case_studies] is only read by primary key or ordered
    by [created_at], and is kept in the order of creation. *)

From Stdlib Require Import String Ascii List NArith Bool Lia Permutation.
From Stdlib Require Import DecimalString DecimalN.
Import ListNotations.
Local Open Scope string_scope.
Set Warnings "-register-all".

(* ===================================================================== *)
(** ** JavaScript values and control *)
(* ===================================================================== *)

Module Js.

(** The outcome of evaluating an expression: a value, or a thrown
    [Error] carrying its [message]. *)
Inductive JsResult (A : Type) : Type :=
| Returns (a : A)
| Throws (message : string).
Arguments Returns {A} a.
Arguments Throws {A} message.

(** [s.includes(sub)] *)
Fixpoint includes (s sub : string) : bool :=
  if String.prefix sub s then true
  else match s with
       | EmptyString => false
       | String _ rest => includes rest sub
       end.

(** Truthiness of a value that is [undefined], [null] or a string. *)
Definition truthy (v : option string) : bool :=
  match v with
  | Some s => negb (s =? "")
  | None => false
  end.

(** A property of a JSON payload: the key may be missing (reading it gives
    [undefined]), hold [null], or hold a value. *)
Inductive Field (A : Type) : Type :=
| Missing
| Null
| Present (a : A).
Arguments Missing {A}.
Arguments Null {A}.
Arguments Present {A} a.

(** The value read from the property, [undefined] and [null] alike. *)
Definition field_value {A} (f : Field A) : option A :=
  match f with
  | Present a => Some a
  | _ => None
  end.

(** [a || b] on such values. *)
Definition or_else (v : option string) (dflt : string) : string :=
  if truthy v then match v with Some s => s | None => dflt end else dflt.

(** [a !== b] between a body field and an environment variable. *)
Definition strict_neq (a b : option string) : bool :=
  match a, b with
  | Some x, Some y => negb (x =? y)
  | None, None => false
  | _, _ => true
  end.

(** [url.split('/').pop()]: the text after the last slash. *)
Fixpoint split_pop (acc s : string) : string :=
  match s with
  | EmptyString => acc
  | String c rest =>
      if Ascii.eqb c "/"%char then split_pop "" rest
      else split_pop (acc ++ String c "") rest
  end.

(** JSON data kept as a tree (the [jsonb] column, [Record<string, any>]). *)
Inductive Json : Type :=
| JNull
| JBool (b : bool)
| JNum (n : N)
| JStr (s : string)
| JArr (items : list Json)
| JObj (fields : list (string * Json)).

(** State-and-error monad: a throw returns the state at the throw. *)
Definition M (S A : Type) : Type := S -> JsResult A * S.

Definition ret {S A} (a : A) : M S A := fun s => (Returns a, s).

Definition throw {S A} (message : string) : M S A :=
  fun s => (Throws message, s).

Definition bind {S A B} (m : M S A) (k : A -> M S B) : M S B :=
  fun s =>
    match m s with
    | (Returns a, s') => k a s'
    | (Throws e, s') => (Throws e, s')
    end.

(** [try { m } catch (error) { handler(error.message) }] *)
Definition try_catch {S A} (m : M S A) (handler : string -> M S A) : M S A :=
  fun s =>
    match m s with
    | (Returns a, s') => (Returns a, s')
    | (Throws e, s') => handler e s'
    end.

(** [for (const x of xs) { body(x) }] *)
Fixpoint for_of {S A} (xs : list A) (body : A -> M S unit) : M S unit :=
  match xs with
  | [] => ret tt
  | x :: rest => bind (body x) (fun _ => for_of rest body)
  end.

End Js.
Import Js.

Declare Scope js_scope.
Delimit Scope js_scope with js.
Notation "x <- m ;; k" := (bind m (fun x => k))
  (at level 100, m at next level, right associativity) : js_scope.
Notation "m ;;; k" := (bind m (fun _ => k))
  (at level 100, right associativity) : js_scope.
Local Open Scope js_scope.

(* ===================================================================== *)
(** ** Persistence layer: [src/db/schema.ts] and the migrations *)
(* ===================================================================== *)

Module Schema.

(** [uuid('id').primaryKey().defaultRandom()]: the random generator is
    modelled as a supply of fresh names, the counter [uuid_seed]. *)
Definition Uuid := N.

Definition show_uuid (u : Uuid) : string :=
  NilEmpty.string_of_uint (N.to_uint u).

(** The key a text stands for, where an action hands the text of a route
    parameter to a statement: Postgres casts it to [uuid] and rejects a
    text that is not one ("invalid input syntax for type uuid"). The texts
    of keys are those [show_uuid] writes, up to leading zeros. *)
Definition parse_uuid (text : string) : option Uuid :=
  if text =? "" then None
  else option_map N.of_uint (NilEmpty.uint_of_string text).

Definition invalid_uuid (text : string) : string :=
  "invalid input syntax for type uuid: " ++ text.

Record User := mkUser {
  u_id : string;
  u_name : string;
  u_email : string }.

Record CaseStudy := mkCaseStudy {
  cs_id : Uuid;
  cs_user_id : string;
  cs_title : string;
  cs_description : option string;
  cs_client : option string;
  cs_industry : option string }.

(** [status] is a [text] column; the enum ['processing' | 'complete'] only
    exists in the TypeScript types. *)
Record CaseStudyFile := mkFile {
  f_id : Uuid;
  f_case_study_id : Uuid;
  f_request_id : string;
  f_file_url : string;
  f_markdown : option string;
  f_metadata : option Json;
  f_status : string;
  f_error : option string }.

Record CaseStudyImage := mkImage {
  img_id : Uuid;
  img_file_id : Uuid;
  img_image_url : string }.

Record CaseStudySummary := mkSummary {
  sum_id : Uuid;
  sum_case_study_id : Uuid;
  sum_summary : string }.

Record Db := mkDb {
  users : list User;
  caseStudies : list CaseStudy;
  caseStudyFiles : list CaseStudyFile;
  caseStudyImages : list CaseStudyImage;
  caseStudySummaries : list CaseStudySummary;
  uuid_seed : N }.

Definition with_users (d : Db) (x : list User) : Db :=
  mkDb x (caseStudies d) (caseStudyFiles d) (caseStudyImages d)
       (caseStudySummaries d) (uuid_seed d).

Definition with_caseStudies (d : Db) (x : list CaseStudy) : Db :=
  mkDb (users d) x (caseStudyFiles d) (caseStudyImages d)
       (caseStudySummaries d) (uuid_seed d).

Definition with_files (d : Db) (x : list CaseStudyFile) : Db :=
  mkDb (users d) (caseStudies d) x (caseStudyImages d)
       (caseStudySummaries d) (uuid_seed d).

Definition with_images (d : Db) (x : list CaseStudyImage) : Db :=
  mkDb (users d) (caseStudies d) (caseStudyFiles d) x
       (caseStudySummaries d) (uuid_seed d).

Definition with_summaries (d : Db) (x : list CaseStudySummary) : Db :=
  mkDb (users d) (caseStudies d) (caseStudyFiles d) (caseStudyImages d)
       x (uuid_seed d).

Definition next_uuid (d : Db) : Db :=
  mkDb (users d) (caseStudies d) (caseStudyFiles d) (caseStudyImages d)
       (caseStudySummaries d) (N.succ (uuid_seed d)).

(** A statement runs against the database and either returns or throws;
    a statement that throws leaves the database as it was. *)
Definition Stmt (A : Type) : Type := Db -> JsResult A * Db.

Definition has_user (d : Db) (uid : string) : bool :=
  existsb (fun u => u_id u =? uid) (users d).

Definition has_caseStudy (d : Db) (id : Uuid) : bool :=
  existsb (fun c => N.eqb (cs_id c) id) (caseStudies d).

Definition has_file (d : Db) (id : Uuid) : bool :=
  existsb (fun f => N.eqb (f_id f) id) (caseStudyFiles d).

Definition fk_violation (table constraint : string) : string :=
  "insert or update on table " ++ table
    ++ " violates foreign key constraint " ++ constraint.

(** [db.insert(users).values({id, name, email})]; [id] is the primary key
    and [email] is unique. *)
Definition insert_user (id name email : string) : Stmt unit :=
  fun d =>
    if has_user d id
       || existsb (fun u => u_email u =? email) (users d)
    then (Throws "duplicate key value violates unique constraint", d)
    else (Returns tt, with_users d (users d ++ [mkUser id name email])).

(** [db.insert(caseStudies).values({user_id, title, client, industry})
      .returning()]; [case_studies_user_id_users_id_fk]. *)
Definition insert_caseStudy (user_id title : string)
    (client industry : option string) : Stmt (list CaseStudy) :=
  fun d =>
    if has_user d user_id then
      let row := mkCaseStudy (uuid_seed d) user_id title None client industry in
      (Returns [row],
       next_uuid (with_caseStudies d (caseStudies d ++ [row])))
    else
      (Throws (fk_violation "case_studies" "case_studies_user_id_users_id_fk"), d).

(** [db.insert(caseStudyFiles).values({case_study_id, request_id,
      file_url, status, metadata})];
    [case_study_files_case_study_id_case_studies_id_fk]. *)
Definition insert_caseStudyFile (case_study_id : Uuid)
    (request_id file_url status : string) (metadata : option Json)
    : Stmt unit :=
  fun d =>
    if has_caseStudy d case_study_id then
      let row := mkFile (uuid_seed d) case_study_id request_id file_url
                        None metadata status None in
      (Returns tt, next_uuid (with_files d (caseStudyFiles d ++ [row])))
    else
      (Throws (fk_violation "case_study_files"
                 "case_study_files_case_study_id_case_studies_id_fk"), d).

(** [db.insert(caseStudyImages).values({file_id, image_url})];
    [case_study_images_file_id_case_study_files_id_fk]. *)
Definition insert_caseStudyImage (file_id : Uuid) (image_url : string)
    : Stmt unit :=
  fun d =>
    if has_file d file_id then
      let row := mkImage (uuid_seed d) file_id image_url in
      (Returns tt, next_uuid (with_images d (caseStudyImages d ++ [row])))
    else
      (Throws (fk_violation "case_study_images"
                 "case_study_images_file_id_case_study_files_id_fk"), d).

(** [db.insert(caseStudySummaries).values({case_study_id, summary})
      .returning()];
    [case_study_summaries_case_study_id_case_studies_id_fk]. *)
Definition insert_caseStudySummary (case_study_id : Uuid) (summary : string)
    : Stmt (list CaseStudySummary) :=
  fun d =>
    if has_caseStudy d case_study_id then
      let row := mkSummary (uuid_seed d) case_study_id summary in
      (Returns [row],
       next_uuid (with_summaries d (caseStudySummaries d ++ [row])))
    else
      (Throws (fk_violation "case_study_summaries"
                 "case_study_summaries_case_study_id_case_studies_id_fk"), d).

(** [db.select().from(caseStudies).where(eq(caseStudies.id, id))] *)
Definition select_caseStudies_by_id (id : Uuid) : Stmt (list CaseStudy) :=
  fun d => (Returns (filter (fun c => N.eqb (cs_id c) id) (caseStudies d)), d).

(** [db.select().from(caseStudies).where(eq(caseStudies.user_id, userId))
      .orderBy(desc(caseStudies.created_at))]: rows are kept in insertion
    order, so the newest comes last in the table. *)
Definition select_caseStudies_by_user (userId : string)
    : Stmt (list CaseStudy) :=
  fun d =>
    (Returns (rev (filter (fun c => cs_user_id c =? userId)
                          (caseStudies d))), d).

(** [db.select().from(caseStudyFiles)
      .where(eq(caseStudyFiles.case_study_id, id))]: no [ORDER BY], the
    rows come in the order of the table. *)
Definition select_files_by_caseStudy (id : Uuid)
    : Stmt (list CaseStudyFile) :=
  fun d =>
    (Returns (filter (fun f => N.eqb (f_case_study_id f) id) (caseStudyFiles d)), d).

(** [db.select().from(caseStudySummaries)
      .where(eq(caseStudySummaries.case_study_id, id))] *)
Definition select_summaries_by_caseStudy (id : Uuid)
    : Stmt (list CaseStudySummary) :=
  fun d =>
    (Returns (filter (fun s => N.eqb (sum_case_study_id s) id)
                     (caseStudySummaries d)), d).

(** [db.select().from(caseStudyImages)
      .where(inArray(caseStudyImages.file_id, fileIds))] *)
Definition select_images_in_files (fileIds : list Uuid)
    : Stmt (list CaseStudyImage) :=
  fun d =>
    (Returns (filter (fun i => existsb (N.eqb (img_file_id i)) fileIds)
                     (caseStudyImages d)), d).

(** One column of a [.set({...})]: a key whose value is [undefined] is
    left out of the [SET] clause and the column keeps what it held; [null]
    is written as [NULL]. *)
Definition set_column {A} (v : Field A) (old : option A) : option A :=
  match v with
  | Missing => old
  | Null => None
  | Present a => Some a
  end.

(** The [.set({status, markdown, metadata, error})] of the webhook. *)
Definition set_result (status : string) (markdown : Field string)
    (metadata : Field Json) (error : Field string)
    (f : CaseStudyFile) : CaseStudyFile :=
  mkFile (f_id f) (f_case_study_id f) (f_request_id f) (f_file_url f)
         (set_column markdown (f_markdown f))
         (set_column metadata (f_metadata f))
         status
         (set_column error (f_error f)).

(** [db.update(caseStudyFiles).set({...})
      .where(eq(caseStudyFiles.request_id, requestId)).returning()]:
    the rows that are hit leave their place and their new versions come
    after the rows that are not. ([updated_at], which the statement also
    rewrites, is not carried.) *)
Definition update_files_by_request (requestId status : string)
    (markdown : Field string) (metadata : Field Json)
    (error : Field string) : Stmt (list CaseStudyFile) :=
  fun d =>
    let hit := fun f => (f_request_id f =? requestId) in
    let upd := set_result status markdown metadata error in
    let rows := map upd (filter hit (caseStudyFiles d)) in
    (Returns rows,
     with_files d (filter (fun f => negb (hit f)) (caseStudyFiles d)
                   ++ rows)).

(** [db.update(caseStudies).set({description})
      .where(eq(caseStudies.id, id))], [id] being the text the action was
    given: a text that is not that of a key is rejected by the database.
    Of the columns carried, only [description] is written ([updated_at],
    which the statement also rewrites, is not carried). *)
Definition update_caseStudy_description (id : string)
    (description : option string) : Stmt unit :=
  fun d =>
    match parse_uuid id with
    | None => (Throws (invalid_uuid id), d)
    | Some key =>
        (Returns tt,
         with_caseStudies d
           (map (fun c => if N.eqb (cs_id c) key
                          then mkCaseStudy (cs_id c) (cs_user_id c)
                                           (cs_title c) description
                                           (cs_client c) (cs_industry c)
                          else c)
                (caseStudies d)))
    end.

(** [db.delete(caseStudies).where(eq(caseStudies.id, id))], [id] being
    the text the action was given.

    The referential actions are those the migrations declare:
    [case_study_files] and [case_study_summaries] reference
    [case_studies] with [ON DELETE cascade];
    [case_study_images] references [case_study_files] with
    [ON DELETE no action], so a statement that would remove a file row
    still referenced by an image row is rejected as a whole. *)
Definition delete_caseStudies_by_id (id : string) : Stmt unit :=
  fun d =>
    match parse_uuid id with
    | None => (Throws (invalid_uuid id), d)
    | Some key =>
        if has_caseStudy d key then
          let doomed := fun f => N.eqb (f_case_study_id f) key in
          let referenced :=
            existsb (fun i =>
                       existsb (fun f => doomed f
                                         && N.eqb (f_id f) (img_file_id i))
                               (caseStudyFiles d))
                    (caseStudyImages d) in
          if referenced then
            (Throws ("update or delete on table case_study_files violates "
                     ++ "foreign key constraint "
                     ++ "case_study_images_file_id_case_study_files_id_fk "
                     ++ "on table case_study_images"), d)
          else
            (Returns tt,
             mkDb (users d)
                  (filter (fun c => negb (N.eqb (cs_id c) key)) (caseStudies d))
                  (filter (fun f => negb (doomed f)) (caseStudyFiles d))
                  (caseStudyImages d)
                  (filter (fun s => negb (N.eqb (sum_case_study_id s) key))
                          (caseStudySummaries d))
                  (uuid_seed d))
        else (Returns tt, d)
    end.

End Schema.
Import Schema.

(* ===================================================================== *)
(** ** External collaborators and the server state *)
(* ===================================================================== *)

Module Platform.

Definition Blob := list Byte.byte.

(** What [await fetch(...)] gives: a rejection, or a response whose body
    ([response.json()], [response.blob()]) may itself throw when read. *)
Inductive FetchOutcome (A : Type) : Type :=
| FetchFails (message : string)
| Response (ok : bool) (statusText : string)
           (content_type : option string) (body : JsResult A).
Arguments FetchFails {A} message.
Arguments Response {A} ok statusText content_type body.

(** [interface MarkerResponse] of the webhook route, as the payload of the
    check URL fills it. [markdown], [metadata] and [error] go into the
    [SET] clause of the file update, where a missing key and [null] differ;
    [images] is only tested and listed, a missing or [null] one is
    [None]. *)
Record MarkerResponse := mkMarkerResponse {
  mr_output_format : string;
  mr_markdown : Field string;
  mr_status : string;
  mr_success : bool;
  mr_images : option (list (string * string));
  mr_metadata : Field Json;
  mr_error : Field string;
  mr_page_count : N }.

(** Modelled from the spec: the type [MarkerApiResponse] of
    [@/types/marker], whose declaration is not among the sources
    ("response includes request_id, success, optional error").
    [api_json] is the response object as it was received. *)
Record MarkerApiResponse := mkMarkerApiResponse {
  api_success : bool;
  api_request_id : string;
  api_error : option string;
  api_json : Json }.

(** An entry of a [FormData]. *)
Inductive FormEntry : Type :=
| FormFile (name : string) (blob : Blob) (filename : string)
| FormField (name value : string).

Record MarkerRequest := mkMarkerRequest {
  req_url : string;
  req_method : string;
  req_api_key : string;
  req_body : list FormEntry }.

Record StoredObject := mkStoredObject {
  obj_path : string;
  obj_body : Blob;
  obj_contentType : string;
  obj_cacheControl : string }.

(** [const { error } = await storage.from('files').upload(...)] *)
Inductive UploadOutcome : Type :=
| Uploaded
| UploadError (message : string)
| UploadThrows (message : string).

(** The outside world of one request: who Clerk's [auth()] says the caller
    is, the environment variables, what the network answers to a download,
    to an extraction submission and to a result check, what the storage
    answers to an upload (it sees the objects the bucket already holds and
    the [upsert] option), the public URL of a path, base64 decoding, the
    language model, and the order in which the tasks of a batch settle. *)
Record World := mkWorld {
  auth_userId : option string;
  MARKER_WEBHOOK_SECRET : option string;
  MARKER_API_KEY : option string;
  net_fetch : string -> FetchOutcome Blob;
  net_marker_submit : MarkerRequest -> FetchOutcome MarkerApiResponse;
  net_marker_check : string -> string -> FetchOutcome MarkerResponse;
  storage_upload : list StoredObject -> bool -> StoredObject -> UploadOutcome;
  storage_publicUrl : string -> string;
  Buffer_from_base64 : string -> Blob;
  gemini_text : string -> JsResult string;
  task_order : list string -> list string }.

Inductive Event : Type :=
| EvDownload (url : string)
| EvMarkerSubmit (request : MarkerRequest)
| EvMarkerCheck (url api_key : string)
| EvUpload (object : StoredObject).

(** The state a request runs against: the database, the ['files'] bucket
    and the trace of calls made to the collaborators. *)
Record Sys := mkSys {
  db : Db;
  bucket : list StoredObject;
  trace : list Event }.

Definition Action (A : Type) : Type := M Sys A.

(** [await db....]: one statement, one implicit transaction. *)
Definition run_stmt {A} (q : Stmt A) : Action A :=
  fun s =>
    let (r, d) := q (db s) in
    (r, mkSys d (bucket s) (trace s)).

Definition emit (e : Event) : Action unit :=
  fun s => (Returns tt, mkSys (db s) (bucket s) (trace s ++ [e])).

(** [supabaseServer.storage.from('files').upload(path, body,
      { contentType, cacheControl, upsert })] *)
Definition storage_from_files_upload (w : World) (upsert : bool)
    (o : StoredObject) : Action (option string) :=
  emit (EvUpload o) ;;;
  fun s =>
    match storage_upload w (bucket s) upsert o with
    | Uploaded => (Returns None, mkSys (db s) (bucket s ++ [o]) (trace s))
    | UploadError e => (Returns (Some e), s)
    | UploadThrows e => (Throws e, s)
    end.

End Platform.
Import Platform.

(* ===================================================================== *)
(** ** [src/app/api/webhooks/marker/route.ts] *)
(* ===================================================================== *)

Module MarkerRoute.

(** The three properties the handler destructures from the JSON body;
    [None] is a property that is missing or [null]. *)
Record WebhookBody := mkWebhookBody {
  request_id : option string;
  request_check_url : option string;
  webhook_secret : option string }.

(** The request as [validateWebhook] receives it: [await request.json()]
    rejects when the body is empty or not JSON; it may give [null], which
    cannot be destructured; any other value is read through its three
    properties. *)
Inductive Request : Type :=
| NotJson (message : string)
| JsonNull
| Parsed (body : WebhookBody).

Inductive ResponseBody : Type :=
| MessageBody (message : string)
| ErrorBody (error : string).

(** [NextResponse.json(body, { status })] *)
Record NextResponse := mkNextResponse {
  res_body : ResponseBody;
  res_status : N }.

Definition validateWebhook (w : World) (request : Request)
    : Action (string * string) :=
  match request with
  | NotJson message => throw message
  | JsonNull =>
      throw "Cannot destructure property 'request_id' of 'body' as it is null."
  | Parsed body =>
      if negb (truthy (webhook_secret body))
         || strict_neq (webhook_secret body) (MARKER_WEBHOOK_SECRET w)
      then throw "Invalid webhook secret"
      else if negb (truthy (request_id body))
              || negb (truthy (request_check_url body))
      then throw "Missing required fields"
      else ret (or_else (request_id body) "",
                or_else (request_check_url body) "")
  end.

Definition fetchMarkerResults (w : World) (requestCheckUrl : string)
    : Action MarkerResponse :=
  let key := or_else (MARKER_API_KEY w) "" in
  emit (EvMarkerCheck requestCheckUrl key) ;;;
  match net_marker_check w requestCheckUrl key with
  | FetchFails e => throw e
  | Response ok statusText _ body =>
      if negb ok then throw ("Failed to fetch results: " ++ statusText)
      else match body with
           | Throws e => throw e
           | Returns result =>
               if negb (mr_success result)
               then throw (or_else (field_value (mr_error result))
                                   "Processing failed")
               else ret result
           end
  end.

Definition updateCaseStudyFile (requestId : string)
    (result : MarkerResponse) : Action CaseStudyFile :=
  caseStudyFile <-
    run_stmt (update_files_by_request requestId (mr_status result)
                (mr_markdown result) (mr_metadata result)
                (mr_error result)) ;;
  match caseStudyFile with
  | [] => throw "Case study file not found"
  | first :: _ => ret first
  end.

(** [`${userId}/case_studies/${caseStudyFile.id}/images/${filename}`] *)
Definition image_path (userId : string) (fileId : Uuid)
    (filename : string) : string :=
  userId ++ "/case_studies/" ++ show_uuid fileId ++ "/images/" ++ filename.

(** What the loop body asks the storage to keep for one entry. *)
Definition image_object (w : World) (userId : string) (fileId : Uuid)
    (entry : string * string) : StoredObject :=
  let (filename, imageBase64) := entry in
  let imageBuffer := Buffer_from_base64 w imageBase64 in
  let filePath := image_path userId fileId filename in
  mkStoredObject filePath imageBuffer "image/jpeg" "3600".

(** The body of the [for ... of Object.entries(result.images)] loop. *)
Definition processImage (w : World) (userId : string)
    (caseStudyFile : CaseStudyFile) (entry : string * string)
    : Action unit :=
  try_catch
    (let object := image_object w userId (f_id caseStudyFile) entry in
     uploadError <- storage_from_files_upload w false object ;;
     match uploadError with
     | Some _ => ret tt
     | None =>
         let publicUrl := storage_publicUrl w (obj_path object) in
         run_stmt (insert_caseStudyImage (f_id caseStudyFile) publicUrl)
     end)
    (fun _ => ret tt).

Definition processImages (w : World) (caseStudyFile : CaseStudyFile)
    (result : MarkerResponse) : Action unit :=
  match mr_images result with
  | None => ret tt
  | Some [] => ret tt
  | Some entries =>
      rows <- run_stmt (select_caseStudies_by_id
                          (f_case_study_id caseStudyFile)) ;;
      match rows with
      | [] => throw "Case study not found"
      | caseStudy :: _ =>
          let userId := cs_user_id caseStudy in
          for_of entries (processImage w userId caseStudyFile)
      end
  end.

(** The [catch] block of [POST]: the status is chosen from the text of
    the error message. Every value thrown in this model is an [Error], so
    the ['Internal server error'] default never shows. *)
Definition error_response (errorMessage : string) : NextResponse :=
  let status :=
    if includes errorMessage "Invalid webhook secret" then 401%N
    else if includes errorMessage "Missing required fields" then 400%N
    else 500%N in
  mkNextResponse (ErrorBody errorMessage) status.

Definition POST (w : World) (request : Request) : Action NextResponse :=
  try_catch
    (v <- validateWebhook w request ;;
     let (request_id, request_check_url) := v : string * string in
     result <- fetchMarkerResults w request_check_url ;;
     caseStudyFile <- updateCaseStudyFile request_id result ;;
     processImages w caseStudyFile result ;;;
     ret (mkNextResponse (MessageBody "Webhook processed successfully")
                         200%N))
    (fun errorMessage => ret (error_response errorMessage)).

End MarkerRoute.
Import MarkerRoute.

(* ===================================================================== *)
(** ** [src/actions/create-case-study.ts] and [downloadFileFromUrl] *)
(* ===================================================================== *)

Module CreateCaseStudy.

Record DownloadedFile := mkDownloadedFile {
  file_blob : Blob;
  file_type : string;
  file_name : string }.

Definition downloadFileFromUrl (w : World) (url : string)
    : Action DownloadedFile :=
  try_catch
    (emit (EvDownload url) ;;;
     match net_fetch w url with
     | FetchFails e => throw e
     | Response ok statusText content_type body =>
         if negb ok
         then throw ("Failed to download file from " ++ url ++ ": "
                       ++ statusText)
         else
           let contentType :=
             or_else content_type "application/octet-stream" in
           let name := or_else (Some (split_pop "" url)) "file" in
           try_catch
             (match body with
              | Returns blob => ret (mkDownloadedFile blob contentType name)
              | Throws e => throw e
              end)
             (fun blobError =>
                throw ("Failed to convert response to blob: " ++ blobError))
     end)
    (fun error => throw ("Error downloading file: " ++ error)).

(** The [FormData] of an extraction submission. *)
Definition marker_form (file : DownloadedFile) : list FormEntry :=
  [ FormFile "file" (file_blob file) (file_name file);
    FormField "langs" "English";
    FormField "force_ocr" "false";
    FormField "paginate" "false";
    FormField "output_format" "markdown";
    FormField "use_llm" "false";
    FormField "strip_existing_ocr" "false";
    FormField "disable_image_extraction" "false" ].

Definition marker_request (w : World) (file : DownloadedFile)
    : MarkerRequest :=
  mkMarkerRequest "https://www.datalab.to/api/v1/marker" "POST"
                  (or_else (MARKER_API_KEY w) "") (marker_form file).

(** The text a template literal gives for [result.error]. *)
Definition template_text (v : option string) : string :=
  match v with
  | Some s => s
  | None => "undefined"
  end.

Definition processFileWithMarker (w : World) (file : DownloadedFile)
    : Action MarkerApiResponse :=
  let request := marker_request w file in
  emit (EvMarkerSubmit request) ;;;
  match net_marker_submit w request with
  | FetchFails e => throw e
  | Response ok statusText _ body =>
      if negb ok then throw ("Marker API error: " ++ statusText)
      else match body with
           | Throws e => throw e
           | Returns result =>
               if negb (api_success result)
               then throw ("Marker API error: "
                             ++ template_text (api_error result))
               else ret result
           end
  end.

Record NewCaseStudy := mkNewCaseStudy {
  title : string;
  client : option string;
  industry : option string;
  fileUrls : list string }.

(** One task of the [Promise.allSettled] batch. *)
Definition fileTask (w : World) (newCaseStudy : CaseStudy)
    (fileUrl : string) : Action unit :=
  try_catch
    (file <- downloadFileFromUrl w fileUrl ;;
     result <- processFileWithMarker w file ;;
     run_stmt (insert_caseStudyFile (cs_id newCaseStudy)
                 (api_request_id result) fileUrl "processing"
                 (Some (api_json result))))
    (fun _ => ret tt).

(** The tasks of [Promise.allSettled] are started together and settle in
    an order the code does not control; the model runs them one after the
    other in the order [task_order w] gives to the URL list. *)
Definition createCaseStudy (w : World) (caseStudy : NewCaseStudy)
    : Action CaseStudy :=
  if negb (truthy (auth_userId w)) then throw "User not authenticated"
  else
    let userId := or_else (auth_userId w) "" in
    rows <- run_stmt (insert_caseStudy userId (title caseStudy)
                        (client caseStudy) (industry caseStudy)) ;;
    match rows with
    | [] => throw
              "Failed to create case study: No record returned from database"
    | newCaseStudy :: _ =>
        for_of (task_order w (fileUrls caseStudy))
               (fileTask w newCaseStudy) ;;;
        ret newCaseStudy
    end.

End CreateCaseStudy.
Import CreateCaseStudy.

(* ===================================================================== *)
(** ** [src/actions/case-study.ts] *)
(* ===================================================================== *)

Module CaseStudyActions.

Definition getAllCaseStudies (w : World) : Action (list CaseStudy) :=
  if negb (truthy (auth_userId w)) then throw "User not authenticated"
  else run_stmt (select_caseStudies_by_user (or_else (auth_userId w) "")).

(** [CaseStudyWithFiles] *)
Record CaseStudyWithFiles := mkCaseStudyWithFiles {
  cwf_caseStudy : CaseStudy;
  cwf_files : list (CaseStudyFile * list CaseStudyImage);
  cwf_summaries : list CaseStudySummary }.

(** [new Map<string, CaseStudyImage[]>()] as an association list. *)
Definition ImageMap := list (Uuid * list CaseStudyImage).

Fixpoint imageMap_get (m : ImageMap) (k : Uuid)
    : option (list CaseStudyImage) :=
  match m with
  | [] => None
  | (k', v) :: rest => if N.eqb k' k then Some v else imageMap_get rest k
  end.

(** [if (!imageMap.has(k)) imageMap.set(k, []); imageMap.get(k).push(image)] *)
Fixpoint imageMap_push (m : ImageMap) (k : Uuid) (image : CaseStudyImage)
    : ImageMap :=
  match m with
  | [] => [(k, [image])]
  | (k', v) :: rest =>
      if N.eqb k' k then (k', (v ++ [image])%list) :: rest
      else (k', v) :: imageMap_push rest k image
  end.

Definition group_images (images : list CaseStudyImage) : ImageMap :=
  fold_left (fun m image => imageMap_push m (img_file_id image) image)
            images [].

(** Takes the ambient [World] like every server action, and never asks
    it who the caller is. *)
Definition getCaseStudyById (w : World) (id : Uuid)
    : Action CaseStudyWithFiles :=
  rows <- run_stmt (select_caseStudies_by_id id) ;;
  match rows with
  | [] => throw "Case study not found"
  | caseStudy :: _ =>
      files <- run_stmt (select_files_by_caseStudy id) ;;
      summaries <- run_stmt (select_summaries_by_caseStudy id) ;;
      match files with
      | [] => ret (mkCaseStudyWithFiles caseStudy [] [])
      | _ :: _ =>
          let fileIds := map f_id files in
          images <- run_stmt (select_images_in_files fileIds) ;;
          let imageMap := group_images images in
          let filesWithImages :=
            map (fun file =>
                   (file,
                    match imageMap_get imageMap (f_id file) with
                    | Some l => l
                    | None => []
                    end))
                files in
          ret (mkCaseStudyWithFiles caseStudy filesWithImages summaries)
      end
  end.

(** [id] is the text the caller passes: the pages hand over the route
    parameter as it stands. *)
Definition saveCaseStudy (w : World) (id : string) (summary : string)
    : Action bool :=
  if negb (truthy (auth_userId w)) then throw "User not authenticated"
  else
    try_catch
      (run_stmt (update_caseStudy_description id (Some summary)) ;;;
       ret true)
      (fun _ => throw "Failed to save case study").

Definition deleteCaseStudy (w : World) (id : string) : Action bool :=
  if negb (truthy (auth_userId w)) then throw "User not authenticated"
  else
    try_catch
      (run_stmt (delete_caseStudies_by_id id) ;;; ret true)
      (fun _ => throw "Failed to delete case study").

Definition getCaseStudySummary (w : World) (id : Uuid)
    : Action CaseStudySummary :=
  if negb (truthy (auth_userId w)) then throw "User not authenticated"
  else
    rows <- run_stmt (select_summaries_by_caseStudy id) ;;
    match rows with
    | [] => throw "Case study summary not found"
    | caseStudy :: _ => ret caseStudy
    end.

End CaseStudyActions.
Import CaseStudyActions.

(* ===================================================================== *)
(** ** The summarisation action and the user profile *)
(* ===================================================================== *)

Module OnePager.

(** [geminiTextCompletion] is the call to the language model: the oracle
    [gemini_text] gives its text or the error it throws. *)
Definition geminiTextCompletion (w : World) (fileContent : string)
    : Action string :=
  match gemini_text w fileContent with
  | Returns text => ret text
  | Throws e => throw e
  end.

Definition createOnePager (w : World) (fileContent : string)
    (caseStudyId : Uuid) : Action (option CaseStudySummary) :=
  if negb (truthy (auth_userId w)) then throw "User not authenticated"
  else
    response <- geminiTextCompletion w fileContent ;;
    rows <- run_stmt (insert_caseStudySummary caseStudyId response) ;;
    ret (hd_error rows).

Definition createUserProfile (id name email : string) : Action unit :=
  run_stmt (insert_user id name email).

End OnePager.
Import OnePager.

(* ===================================================================== *)
(** ** The system as a whole: requests served one after the other *)
(* ===================================================================== *)

Module System.

(** A request that can write to the database, with the world it runs in. *)
Inductive Op : Type :=
| OpCreateUserProfile (id name email : string)
| OpCreateCaseStudy (w : World) (caseStudy : NewCaseStudy)
| OpWebhook (w : World) (request : Request)
| OpSaveCaseStudy (w : World) (id : string) (summary : string)
| OpDeleteCaseStudy (w : World) (id : string)
| OpCreateOnePager (w : World) (fileContent : string) (caseStudyId : Uuid).

Definition step (s : Sys) (op : Op) : Sys :=
  match op with
  | OpCreateUserProfile id name email => snd (createUserProfile id name email s)
  | OpCreateCaseStudy w caseStudy => snd (createCaseStudy w caseStudy s)
  | OpWebhook w request => snd (POST w request s)
  | OpSaveCaseStudy w id summary => snd (saveCaseStudy w id summary s)
  | OpDeleteCaseStudy w id => snd (deleteCaseStudy w id s)
  | OpCreateOnePager w fileContent id => snd (createOnePager w fileContent id s)
  end.

Definition run (ops : list Op) (s : Sys) : Sys := fold_left step ops s.

Definition find_file (s : Sys) (fileId : Uuid) : option CaseStudyFile :=
  find (fun f => N.eqb (f_id f) fileId) (caseStudyFiles (db s)).

Definition file_status (s : Sys) (fileId : Uuid) : option string :=
  option_map f_status (find_file s fileId).

(** The result a webhook delivery writes into the file table: the request
    passes [validateWebhook] and the check URL answers with a successful
    result. *)
Definition fetched_result (w : World) (request : Request)
    : option MarkerResponse :=
  match request with
  | Parsed body =>
      if negb (truthy (webhook_secret body))
         || strict_neq (webhook_secret body) (MARKER_WEBHOOK_SECRET w)
      then None
      else if negb (truthy (request_id body))
              || negb (truthy (request_check_url body))
      then None
      else
        match net_marker_check w (or_else (request_check_url body) "")
                               (or_else (MARKER_API_KEY w) "") with
        | Response true _ _ (Returns result) =>
            if mr_success result then Some result else None
        | _ => None
        end
  | _ => None
  end.

(** Every result a webhook of [ops] writes says ['complete']. *)
Definition results_complete (ops : list Op) : Prop :=
  forall w request result,
    In (OpWebhook w request) ops ->
    fetched_result w request = Some result ->
    mr_status result = "complete".

(** Primary keys were drawn from the supply and are not drawn twice. *)
Definition ids_below_seed (d : Db) : Prop :=
  forall f, In f (caseStudyFiles d) -> N.lt (f_id f) (uuid_seed d).

(** The declared foreign keys hold. *)
Definition fk_consistent (d : Db) : Prop :=
  (forall c, In c (caseStudies d) -> has_user d (cs_user_id c) = true)
  /\ (forall f, In f (caseStudyFiles d) ->
                has_caseStudy d (f_case_study_id f) = true)
  /\ (forall i, In i (caseStudyImages d) -> has_file d (img_file_id i) = true)
  /\ (forall m, In m (caseStudySummaries d) ->
                has_caseStudy d (sum_case_study_id m) = true).

End System.
Import System.

(* ===================================================================== *)
(** ** Concrete worlds and databases used to run the model *)
(* ===================================================================== *)

Module Scenario.

Definition two_images : list (string * string) :=
  [("_page_0_Figure_1.jpeg", "/9j/4AAQ"); ("_page_1_Picture_3.jpeg", "/9j/4BBR")].

Definition result_complete : MarkerResponse :=
  mkMarkerResponse "markdown" (Present "# Report") "complete" true
                   (Some two_images) (Present (JObj [("pages", JNum 2%N)]))
                   Null 2%N.

Definition submission (name : string) : MarkerApiResponse :=
  mkMarkerApiResponse true ("req-" ++ name) None
    (JObj [("success", JBool true); ("request_id", JStr ("req-" ++ name))]).

(** A storage that takes every object. *)
Definition accept_all (_ : list StoredObject) (_ : bool) (_ : StoredObject)
    : UploadOutcome := Uploaded.

(** A storage that honours [upsert: false]: a path already held is
    refused. *)
Definition refuse_existing (held : list StoredObject) (upsert : bool)
    (o : StoredObject) : UploadOutcome :=
  if negb upsert && existsb (fun h => obj_path h =? obj_path o) held
  then UploadError "The resource already exists"
  else Uploaded.

(** A storage that refuses one file name. *)
Definition refuse_path (bad : string) (_ : list StoredObject) (_ : bool)
    (o : StoredObject) : UploadOutcome :=
  if obj_path o =? bad then UploadError "Payload too large" else Uploaded.

Definition world (user : option string)
    (check : FetchOutcome MarkerResponse)
    (storage : list StoredObject -> bool -> StoredObject -> UploadOutcome)
    : World :=
  mkWorld user (Some "s3cret") (Some "api-key")
    (fun url =>
       if url =? "https://files.example/broken.pdf"
       then Response false "Not Found" None (Throws "no body")
       else Response true "OK" (Some "application/pdf") (Returns []))
    (fun request =>
       match req_body request with
       | FormFile _ _ filename :: _ =>
           Response true "OK" None (Returns (submission filename))
       | _ => Response false "Bad Request" None (Throws "no body")
       end)
    (fun _ _ => check)
    storage
    (fun path => "https://cdn.example/files/" ++ path)
    (fun _ => [])
    (fun content => Returns ("Summary of " ++ content))
    (fun urls => urls).

Definition world_ok : World :=
  world (Some "user_1") (Response true "OK" None (Returns result_complete))
        accept_all.

Definition delivery : WebhookBody :=
  mkWebhookBody (Some "req-a.pdf") (Some "https://www.datalab.to/check/1")
                (Some "s3cret").

Definition alice : User := mkUser "user_1" "Alice" "alice@example.com".

Definition study : CaseStudy :=
  mkCaseStudy 0%N "user_1" "Migration" None (Some "ACME") None.

Definition file_a (status : string) : CaseStudyFile :=
  mkFile 1%N 0%N "req-a.pdf" "https://files.example/a.pdf" None None
         status None.

Definition db_one_file (status : string) : Db :=
  mkDb [alice] [study] [file_a status] [] [] 2%N.

Definition sys_of (d : Db) : Sys := mkSys d [] [].


(** An unsuccessful result whose error text names the secret. *)
Definition result_echo : MarkerResponse :=
  mkMarkerResponse "markdown" Null "failed" false None Null
                   (Present "Invalid webhook secret") 0%N.

Definition world_echo : World :=
  world (Some "user_1") (Response true "OK" None (Returns result_echo))
        accept_all.

Definition world_upsert : World :=
  world (Some "user_1") (Response true "OK" None (Returns result_complete))
        refuse_existing.

Definition world_one_refused : World :=
  world (Some "user_1") (Response true "OK" None (Returns result_complete))
        (refuse_path "user_1/case_studies/1/images/_page_0_Figure_1.jpeg").

(** A successful result that still says ['processing']. *)
Definition result_processing : MarkerResponse :=
  mkMarkerResponse "markdown" Null "processing" true None Null Null 0%N.

Definition world_processing : World :=
  world (Some "user_1") (Response true "OK" None (Returns result_processing))
        accept_all.

Definition world_marker_down : World :=
  mkWorld (Some "user_1") (Some "s3cret") (Some "api-key")
    (fun _ => Response true "OK" (Some "application/pdf") (Returns []))
    (fun _ => Response false "Service Unavailable" None (Throws "no body"))
    (fun _ _ => FetchFails "fetch failed")
    accept_all
    (fun path => "https://cdn.example/files/" ++ path)
    (fun _ => [])
    (fun content => Returns ("Summary of " ++ content))
    (fun urls => rev urls).

Definition three_urls : list string :=
  ["https://files.example/a.pdf"; "https://files.example/broken.pdf";
   "https://files.example/c.pdf"].

Definition new_study : NewCaseStudy :=
  mkNewCaseStudy "Replatforming" (Some "ACME") None three_urls.

Definition image_a : CaseStudyImage :=
  mkImage 2%N 1%N
    "https://cdn.example/files/user_1/case_studies/1/images/_page_0_Figure_1.jpeg".

(** One case study, one of its files, one image of that file. *)
Definition db_with_image : Db :=
  mkDb [alice] [study] [file_a "complete"] [image_a] [] 3%N.

Definition world_signed_out : World :=
  world None (Response true "OK" None (Returns result_complete)) accept_all.

Definition world_bob : World :=
  world (Some "user_2") (Response true "OK" None (Returns result_complete))
        accept_all.

End Scenario.

Import Scenario.

From Stdlib Require Import PeanoNat.

(* ===================================================================== *)
(** ** The Clerk webhook: the route that creates user profiles *)
(* ===================================================================== *)

Module ClerkRoute.

(** [evt.data] of a ['user.created'] event. [email_addresses] holds the
    [email_address] of each entry; a property that is missing or [null] is
    [None]. *)
Record ClerkUser := mkClerkUser {
  clerk_id : string;
  email_addresses : option (list string);
  first_name : option string;
  last_name : option string }.

Record ClerkEvent := mkClerkEvent {
  evt_type : string;
  evt_data : ClerkUser }.

Inductive ClerkBody : Type :=
| SuccessTrue
| ErrorMessage (error : string).

Record ClerkResponse := mkClerkResponse {
  clerk_body : ClerkBody;
  clerk_status : N }.

(** [email_addresses?.[0]?.email_address || ''] *)
Definition primary_email (u : ClerkUser) : string :=
  or_else (match email_addresses u with
           | Some (first :: _) => Some first
           | _ => None
           end) "".

(** [values.filter(Boolean)] on values that are [null] or strings. *)
Fixpoint filter_Boolean (values : list (option string)) : list string :=
  match values with
  | [] => []
  | v :: rest =>
      if truthy v then or_else v "" :: filter_Boolean rest
      else filter_Boolean rest
  end.

(** [[first_name, last_name].filter(Boolean).join(' ') || email] *)
Definition display_name (u : ClerkUser) (email : string) : string :=
  or_else (Some (String.concat " " (filter_Boolean [first_name u; last_name u])))
          email.

(** [verified] is what [await verifyWebhook(req)] gives for the request. *)
Definition POST (verified : JsResult ClerkEvent) : Action ClerkResponse :=
  try_catch
    (evt <- (match verified with
             | Returns evt => ret evt
             | Throws e => throw e
             end) ;;
     (if evt_type evt =? "user.created" then
        let email := primary_email (evt_data evt) in
        let name := display_name (evt_data evt) email in
        createUserProfile (clerk_id (evt_data evt)) name email
      else ret tt) ;;;
     ret (mkClerkResponse SuccessTrue 200%N))
    (fun message => ret (mkClerkResponse (ErrorMessage message) 400%N)).

End ClerkRoute.

(* ===================================================================== *)
(** ** The file upload input of the create page, and the page's submit *)
(* ===================================================================== *)

Module FileUploadInput.

(** A browser [File]: its [name], [size] in bytes, MIME [type], and its
    bytes. *)
Record BrowserFile := mkBrowserFile {
  bf_name : string;
  bf_size : N;
  bf_type : string;
  bf_bytes : Blob }.

Inductive UploadStatus : Type :=
| idle
| uploading
| success
| error.

Definition status_eqb (a b : UploadStatus) : bool :=
  match a, b with
  | idle, idle | uploading, uploading | success, success | error, error => true
  | _, _ => false
  end.

(** [type FileWithStatus] *)
Record FileWithStatus := mkFileWithStatus {
  fws_name : string;
  fws_filePath : string;
  fws_content : BrowserFile;
  fws_status : UploadStatus;
  fws_url : option string;
  fws_error : option string }.

(** [s.toLowerCase()]: strings are byte strings here and only the letters
    A to Z are folded, which is all that the test for a [.md] ending can
    see. *)
Definition lower_ascii (c : ascii) : ascii :=
  let n := N_of_ascii c in
  if (N.leb 65 n && N.leb n 90)%bool then ascii_of_N (n + 32)%N else c.

Fixpoint toLowerCase (s : string) : string :=
  match s with
  | EmptyString => EmptyString
  | String c rest => String (lower_ascii c) (toLowerCase rest)
  end.

(** [s.startsWith(p)] *)
Definition startsWith (s p : string) : bool := String.prefix p s.

(** [s.endsWith(suffix)] *)
Fixpoint endsWith (s suffix : string) : bool :=
  if s =? suffix then true
  else match s with
       | EmptyString => false
       | String _ rest => endsWith rest suffix
       end.

Definition MAX_SIZE : N := (100 * 1024 * 1024)%N.

Definition show_N (n : N) : string := NilEmpty.string_of_uint (N.to_uint n).

(** [onFileValidate]: [files] is the selection the input holds,
    [uploadedFiles] the list shown on the page. *)
Definition onFileValidate (files : list BrowserFile)
    (uploadedFiles : list FileWithStatus) (file : BrowserFile)
    : option string :=
  if Nat.leb 10 (length files) then
    Some "You can only upload up to 10 files"
  else if existsb (fun f => (fws_name f =? bf_name file)
                            && N.eqb (bf_size (fws_content f)) (bf_size file))
                  uploadedFiles then
    Some "This file has already been selected"
  else if N.ltb MAX_SIZE (bf_size file) then
    Some ("File size must be less than "
            ++ show_N (MAX_SIZE / (1024 * 1024))%N ++ "MB")
  else if negb (startsWith (bf_type file) "image/"
                || (bf_type file =? "application/pdf")
                || endsWith (toLowerCase (bf_name file)) ".md") then
    Some "Only image, PDF, and Markdown (.md) files are allowed"
  else None.

(** The name shown by [onFileReject]:
    [name.length > 20 ? `${name.slice(0, 20)}...` : name]. *)
Definition rejected_label (name : string) : string :=
  if Nat.ltb 20 (String.length name) then String.substring 0 20 name ++ "..."
  else name.

(** The updaters [onUpload] and [onDelete] hand to [setUploadedFiles]. *)
Definition addUploading (file : BrowserFile) (prev : list FileWithStatus)
    : list FileWithStatus :=
  prev ++ [mkFileWithStatus (bf_name file) "" file uploading None None].

Definition markSuccess (name url filePath : string)
    (prev : list FileWithStatus) : list FileWithStatus :=
  map (fun f =>
         if (fws_name f =? name) && status_eqb (fws_status f) uploading
         then mkFileWithStatus (fws_name f) filePath (fws_content f) success
                               (Some url) (fws_error f)
         else f)
      prev.

Definition markError (name message : string)
    (prev : list FileWithStatus) : list FileWithStatus :=
  map (fun f =>
         if (fws_name f =? name) && status_eqb (fws_status f) uploading
         then mkFileWithStatus (fws_name f) (fws_filePath f) (fws_content f)
                               error (fws_url f) (Some message)
         else f)
      prev.

Definition removeNamed (name : string) (prev : list FileWithStatus)
    : list FileWithStatus :=
  filter (fun f => negb (fws_name f =? name)) prev.

(** What the page does to its list, one update at a time. *)
Inductive ListUpdate : Type :=
| Added (file : BrowserFile)
| Succeeded (name url filePath : string)
| Failed (name message : string)
| Removed (name : string).

Definition apply_update (prev : list FileWithStatus) (u : ListUpdate)
    : list FileWithStatus :=
  match u with
  | Added file => addUploading file prev
  | Succeeded name url filePath => markSuccess name url filePath prev
  | Failed name message => markError name message prev
  | Removed name => removeNamed name prev
  end.

(** [useSession()]: the Clerk session of the browser, when there is one. *)
Record Session := mkSession {
  session_token : option string;
  session_user_id : string }.

(** [uploadFile] of [utils/uploadFiles.ts], on the default bucket. No
    [contentType] option is given: the file carries its own type. *)
Definition uploadFile (w : World) (sessionToken : string)
    (file : BrowserFile) (filePath : string) : Action string :=
  uploadError <-
    storage_from_files_upload w false
      (mkStoredObject filePath (bf_bytes file) (bf_type file) "3600") ;;
  match uploadError with
  | Some message =>
      throw ("Failed to upload " ++ bf_name file ++ ": " ++ message)
  | None => ret (storage_publicUrl w filePath)
  end.

(** The part of [onUpload] that runs for one file after it was added to the
    list: it ends in the update that reports how the upload went. *)
Definition settleUpload (w : World) (session : option Session)
    (file : BrowserFile) : Action ListUpdate :=
  try_catch
    (let token := match session with
                  | Some sess => session_token sess
                  | None => None
                  end in
     let userId := option_map session_user_id session in
     if negb (truthy token) || negb (truthy userId)
     then throw "No token or user id found"
     else
       let filePath := or_else userId "" ++ "/files/" ++ bf_name file in
       url <- uploadFile w (or_else token "") file filePath ;;
       ret (Succeeded (bf_name file) url filePath))
    (fun message => ret (Failed (bf_name file) message)).

Inductive Toast : Type :=
| ToastSuccess (message : string)
| ToastError (message : string).

(** [deleteFiles] of [utils/deleteFiles.ts]. [remove] is the storage's
    answer to [.remove(filePaths)] given what the bucket holds: an error
    message, or nothing when the paths were removed. *)
Definition deleteFiles
    (remove : list StoredObject -> list string -> option string)
    (sessionToken : string) (filePaths : list string) : Action unit :=
  fun s =>
    match remove (bucket s) filePaths with
    | Some message => (Throws ("Failed to delete files: " ++ message), s)
    | None =>
        (Returns tt,
         mkSys (db s)
               (filter (fun o => negb (existsb (String.eqb (obj_path o))
                                               filePaths))
                       (bucket s))
               (trace s))
    end.

(** [onDelete]: the toast shown and the list after it. *)
Definition onDelete
    (remove : list StoredObject -> list string -> option string)
    (token : option string) (file : FileWithStatus)
    (prev : list FileWithStatus) : Action (Toast * list FileWithStatus) :=
  if negb (truthy token) then ret (ToastError "No token found", prev)
  else
    let next := removeNamed (fws_name file) prev in
    try_catch
      (deleteFiles remove (or_else token "") [fws_filePath file] ;;;
       ret (ToastSuccess "File deleted successfully", next))
      (fun _ => ret (ToastError "Failed to delete file", next)).

(** The create page. [uploadedFiles.map((file) => file.url)
      .filter((url) => url !== undefined)] *)
Fixpoint submitted_urls (uploadedFiles : list FileWithStatus) : list string :=
  match uploadedFiles with
  | [] => []
  | f :: rest =>
      match fws_url f with
      | Some url => url :: submitted_urls rest
      | None => submitted_urls rest
      end
  end.

(** [value || null] *)
Definition or_null (v : option string) : option string :=
  if truthy v then v else None.

Inductive Navigation : Type :=
| Pushed (path : string)
| Stayed (toast : Toast).

(** [handleGenerate] of the create page. *)
Definition handleGenerate (w : World) (projectName : string)
    (clientName industry : option string)
    (uploadedFiles : list FileWithStatus) : Action Navigation :=
  try_catch
    (caseStudy <-
       createCaseStudy w
         (mkNewCaseStudy projectName (or_null clientName) (or_null industry)
                         (submitted_urls uploadedFiles)) ;;
     ret (Pushed ("/dashboard/case-studies/" ++ show_uuid (cs_id caseStudy))))
    (fun _ =>
       ret (Stayed (ToastError
                      "Failed to generate case study. Please try again."))).

End FileUploadInput.
Import FileUploadInput.

(* ===================================================================== *)
(** ** The case-study page and the summary page *)
(* ===================================================================== *)

Module CaseStudyPage.

(** [hasProcessingFiles] *)
Definition hasProcessingFiles (files : list CaseStudyFile) : bool :=
  existsb (fun file => f_status file =? "processing") files.

(** What the component holds between two renders: the [caseStudy] state,
    [loadingState.isLoading], whether [intervalRef.current] holds a timer,
    the toasts shown so far and the route the router was sent to. *)
Record Page := mkPage {
  page_caseStudy : option CaseStudyWithFiles;
  page_isLoading : bool;
  page_interval : bool;
  page_toasts : list Toast;
  page_pushed : option string }.

(** The component as it mounts: [useState(null)], [{ isLoading: true }],
    [useRef(null)]. *)
Definition first_render : Page := mkPage None true false [] None.

(** One run of [fetchCaseStudy], from the page it finds to the page it
    leaves. The interval is cleared only when no file is processing and an
    interval exists; the [catch] shows a toast and sends the router to the
    list, and leaves the interval to the cleanup of the effect. *)
Definition fetchCaseStudy (w : World) (caseStudyId : Uuid) (page : Page)
    : Action Page :=
  try_catch
    (data <- getCaseStudyById w caseStudyId ;;
     let stillProcessing := hasProcessingFiles (map fst (cwf_files data)) in
     ret (mkPage (Some data) stillProcessing
                 (if negb stillProcessing && page_interval page then false
                  else page_interval page)
                 (page_toasts page) (page_pushed page)))
    (fun _ =>
       ret (mkPage (page_caseStudy page) (page_isLoading page)
                   (page_interval page)
                   (page_toasts page
                    ++ [ToastError "Failed to fetch case study"])
                   (Some "/dashboard/case-studies"))).

(** The effect of [useEffect]:
    [fetchCaseStudy().then(() => { intervalRef.current =
       setInterval(fetchCaseStudy, 1000); })].
    The interval starts once the first fetch has settled, whatever it
    found. The page is followed while it is mounted: the cleanup of the
    effect, which clears the timer on unmount, is outside the model. *)
Definition mount (w : World) (caseStudyId : Uuid) : Action Page :=
  page <- fetchCaseStudy w caseStudyId first_render ;;
  ret (mkPage (page_caseStudy page) (page_isLoading page) true
              (page_toasts page) (page_pushed page)).

(** One period of the timer: as long as the interval exists it calls
    [fetchCaseStudy]; once it is cleared nothing runs any more. Each call
    is taken to settle before the next one starts. *)
Definition tick (w : World) (caseStudyId : Uuid) (page : Page)
    : Action Page :=
  if page_interval page then fetchCaseStudy w caseStudyId page
  else ret page.

(** [caseStudy?.files?.[0]?.markdown] *)
Definition first_markdown (caseStudy : option CaseStudyWithFiles)
    : option string :=
  match caseStudy with
  | Some data =>
      match cwf_files data with
      | (file, _) :: _ => f_markdown file
      | [] => None
      end
  | None => None
  end.

(** [handleCreateOnePager]: the toast shown and the case study the page
    holds afterwards. *)
Definition handleCreateOnePager (w : World)
    (caseStudy : option CaseStudyWithFiles) (caseStudyId : Uuid)
    : Action (Toast * option CaseStudyWithFiles) :=
  if negb (truthy (first_markdown caseStudy)) then
    ret (ToastError "No content available to create one pager", caseStudy)
  else
    try_catch
      (created <- createOnePager w (or_else (first_markdown caseStudy) "")
                                 caseStudyId ;;
       match created with
       | None => throw "Cannot read properties of undefined"
       | Some caseStudySummary =>
           ret (ToastSuccess "One pager created successfully",
                option_map
                  (fun prev =>
                     mkCaseStudyWithFiles (cwf_caseStudy prev) (cwf_files prev)
                       (cwf_summaries prev ++ [caseStudySummary]))
                  caseStudy)
       end)
      (fun _ => ret (ToastError "Failed to create one pager", caseStudy)).

(** The summary page:
    [caseStudy.summaries.find((s) => s.id === summaryId)?.summary || ''] *)
Definition editor_value (caseStudy : CaseStudyWithFiles) (summaryId : Uuid)
    : string :=
  or_else (option_map sum_summary
             (find (fun s => N.eqb (sum_id s) summaryId)
                   (cwf_summaries caseStudy)))
          "".

End CaseStudyPage.
Import CaseStudyPage.

(* ===================================================================== *)
(** ** Vocabulary of the statements *)
(* ===================================================================== *)



(** The rows the webhook's [UPDATE] hits. *)
Definition hit_rows (requestId : string) (d : Db) : list CaseStudyFile :=
  filter (fun f => f_request_id f =? requestId)%string (caseStudyFiles d).

(** The table after the webhook's [UPDATE]. *)
Definition updated_files (requestId : string) (result : MarkerResponse)
    (d : Db) : list CaseStudyFile :=
  (filter (fun f => negb (f_request_id f =? requestId)%string)
          (caseStudyFiles d)
   ++ map (set_result (mr_status result) (mr_markdown result)
                      (mr_metadata result) (mr_error result))
          (hit_rows requestId d))%list.

(** The request passes [validateWebhook] with these two values. *)
Definition valid_delivery (w : World) (body : WebhookBody)
    (requestId url : string) : Prop :=
  webhook_secret body = MARKER_WEBHOOK_SECRET w
  /\ truthy (webhook_secret body) = true
  /\ request_id body = Some requestId /\ requestId <> ""
  /\ request_check_url body = Some url /\ url <> "".

(** The check URL answers with a successful [result]. *)
Definition result_fetched (w : World) (url : string)
    (result : MarkerResponse) : Prop :=
  (exists statusText content_type,
      net_marker_check w url (or_else (MARKER_API_KEY w) "")
      = Response true statusText content_type (Returns result))
  /\ mr_success result = true.

(** The entries of the image loop whose upload the storage accepts, the
    bucket growing as the loop goes. *)
Fixpoint uploads_accepted (w : World) (userId : string) (fileId : Uuid)
    (held : list StoredObject) (entries : list (string * string))
    : list (string * string) :=
  match entries with
  | [] => []
  | e :: rest =>
      let o := image_object w userId fileId e in
      match storage_upload w held false o with
      | Uploaded => e :: uploads_accepted w userId fileId (held ++ [o])%list rest
      | _ => uploads_accepted w userId fileId held rest
      end
  end.

(** The image rows inserted for accepted entries, keys drawn from [seed]. *)
Fixpoint image_rows (w : World) (userId : string) (fileId : Uuid)
    (seed : N) (accepted : list (string * string)) : list CaseStudyImage :=
  match accepted with
  | [] => []
  | e :: rest =>
      mkImage seed fileId
              (storage_publicUrl w (obj_path (image_object w userId fileId e)))
      :: image_rows w userId fileId (N.succ seed) rest
  end.

(** The database with [rows] appended to the image table. *)
Definition add_images (d : Db) (rows : list CaseStudyImage) : Db :=
  mkDb (users d) (caseStudies d) (caseStudyFiles d)
       (caseStudyImages d ++ rows) (caseStudySummaries d)
       (uuid_seed d + N.of_nat (length rows))%N.

(** The successful answer of the webhook. *)
Definition ok_200 : NextResponse :=
  mkNextResponse (MessageBody "Webhook processed successfully") 200%N.

(** The row the parent lookup of [processImages] finds for [file]. *)
Definition parent_of (d : Db) (file : CaseStudyFile) : option CaseStudy :=
  hd_error (filter (fun c => N.eqb (cs_id c) (f_case_study_id file))
                   (caseStudies d)).

(** [Object.entries(result.images)], empty when [images] is missing. *)
Definition image_entries (result : MarkerResponse)
    : list (string * string) :=
  match mr_images result with
  | Some entries => entries
  | None => []
  end.

(** The state in which [processImages] starts on an accepted delivery. *)
Definition after_update (w : World) (requestId url : string)
    (result : MarkerResponse) (s : Sys) : Sys :=
  mkSys (with_files (db s) (updated_files requestId result (db s)))
        (bucket s)
        (trace s ++ [EvMarkerCheck url (or_else (MARKER_API_KEY w) "")]).

(** The row [updateCaseStudyFile] returns when [first] is the first hit. *)
Definition updated_row (result : MarkerResponse) (first : CaseStudyFile)
    : CaseStudyFile :=
  set_result (mr_status result) (mr_markdown result) (mr_metadata result)
             (mr_error result) first.

(** Does the storage take [o] when the bucket holds [held]? *)
Definition accepted_by (w : World) (held : list StoredObject)
    (o : StoredObject) : bool :=
  match storage_upload w held false o with
  | Uploaded => true
  | _ => false
  end.

(** The file a download gives, when it succeeds. *)
Definition fetched_file (w : World) (url : string) : option DownloadedFile :=
  match net_fetch w url with
  | Response true _ content_type (Returns blob) =>
      Some (mkDownloadedFile blob
              (or_else content_type "application/octet-stream")
              (or_else (Some (split_pop "" url)) "file"))
  | _ => None
  end.

(** The answer of the extraction service to [file], when it accepts it. *)
Definition submitted (w : World) (file : DownloadedFile)
    : option MarkerApiResponse :=
  match net_marker_submit w (marker_request w file) with
  | Response true _ _ (Returns result) =>
      if api_success result then Some result else None
  | _ => None
  end.

(** Download then submission of one URL. *)
Definition task_outcome (w : World) (url : string)
    : option MarkerApiResponse :=
  match fetched_file w url with
  | Some file => submitted w file
  | None => None
  end.

(** The calls one task makes to the collaborators. *)
Definition task_events (w : World) (url : string) : list Event :=
  EvDownload url
  :: match fetched_file w url with
     | Some file => [EvMarkerSubmit (marker_request w file)]
     | None => []
     end.

(** The URLs of a batch whose task succeeds, with the answer they got. *)
Fixpoint successes (w : World) (urls : list string)
    : list (string * MarkerApiResponse) :=
  match urls with
  | [] => []
  | url :: rest =>
      match task_outcome w url with
      | Some result => (url, result) :: successes w rest
      | None => successes w rest
      end
  end.

(** The File rows inserted for successful tasks, keys drawn from [seed]. *)
Fixpoint file_rows (caseStudyId : Uuid) (seed : N)
    (done : list (string * MarkerApiResponse)) : list CaseStudyFile :=
  match done with
  | [] => []
  | (url, result) :: rest =>
      mkFile seed caseStudyId (api_request_id result) url None
             (Some (api_json result)) "processing" None
      :: file_rows caseStudyId (N.succ seed) rest
  end.

(** The database with [rows] appended to the file table. *)
Definition add_files (d : Db) (rows : list CaseStudyFile) : Db :=
  mkDb (users d) (caseStudies d) (caseStudyFiles d ++ rows)
       (caseStudyImages d) (caseStudySummaries d)
       (uuid_seed d + N.of_nat (length rows))%N.

(** The URLs whose download a trace records, in order. *)
Fixpoint downloads (t : list Event) : list string :=
  match t with
  | [] => []
  | EvDownload url :: rest => url :: downloads rest
  | _ :: rest => downloads rest
  end.

(** The case-study row [createCaseStudy] inserts. *)
Definition new_caseStudy_row (w : World) (caseStudy : NewCaseStudy)
    (d : Db) : CaseStudy :=
  mkCaseStudy (uuid_seed d) (or_else (auth_userId w) "") (title caseStudy)
              None (client caseStudy) (industry caseStudy).

(** Some image row references a file of case study [id]: the condition
    under which the [DELETE] is rejected. *)
Definition image_references_file_of (d : Db) (id : Uuid) : bool :=
  existsb (fun i =>
             existsb (fun f => N.eqb (f_case_study_id f) id
                               && N.eqb (f_id f) (img_file_id i))
                     (caseStudyFiles d))
          (caseStudyImages d).

(** The database after the cascade of deleting case study [id]. *)
Definition without_caseStudy (d : Db) (id : Uuid) : Db :=
  mkDb (users d)
       (filter (fun c => negb (N.eqb (cs_id c) id)) (caseStudies d))
       (filter (fun f => negb (N.eqb (f_case_study_id f) id))
               (caseStudyFiles d))
       (caseStudyImages d)
       (filter (fun m => negb (N.eqb (sum_case_study_id m) id))
               (caseStudySummaries d))
       (uuid_seed d).

(** The rows [getCaseStudyById] selects. *)
Definition files_of (d : Db) (id : Uuid) : list CaseStudyFile :=
  filter (fun f => N.eqb (f_case_study_id f) id) (caseStudyFiles d).

Definition summaries_of (d : Db) (id : Uuid) : list CaseStudySummary :=
  filter (fun m => N.eqb (sum_case_study_id m) id) (caseStudySummaries d).

Definition images_of (d : Db) (fileId : Uuid) : list CaseStudyImage :=
  filter (fun i => N.eqb (img_file_id i) fileId) (caseStudyImages d).

Definition caseStudy_with_id (d : Db) (id : Uuid) : option CaseStudy :=
  hd_error (filter (fun c => N.eqb (cs_id c) id) (caseStudies d)).

(** [imageMap.get(k) || []] *)
Definition get_or_empty (m : ImageMap) (k : Uuid) : list CaseStudyImage :=
  match imageMap_get m k with
  | Some l => l
  | None => []
  end.

(** Every File row with key [fileId] is complete. *)
Definition all_complete (s : Sys) (fileId : Uuid) : Prop :=
  forall f, In f (caseStudyFiles (db s)) -> f_id f = fileId ->
            f_status f = "complete".

(** The primary key of the file table: keys are distinct and were drawn
    from the supply. *)
Definition primary_keys_ok (d : Db) : Prop :=
  NoDup (map f_id (caseStudyFiles d)) /\ ids_below_seed d.

(** A row rewritten by the webhook [op]: the fetched result is copied in. *)
Definition op_rewrite (op : Op) (f f' : CaseStudyFile) : Prop :=
  match op with
  | OpWebhook w request =>
      exists result,
        fetched_result w request = Some result /\ f' = updated_row result f
  | _ => False
  end.

(** How one request may change the file table: a row of the new table is
    an old row, or an old row rewritten, or a row inserted by this request,
    with a key it drew and in status ['processing']. *)
Definition files_step (rewrite : CaseStudyFile -> CaseStudyFile -> Prop)
    (s s' : Sys) : Prop :=
  N.le (uuid_seed (db s)) (uuid_seed (db s'))
  /\ forall f',
       In f' (caseStudyFiles (db s')) ->
       In f' (caseStudyFiles (db s))
       \/ (exists f, In f (caseStudyFiles (db s)) /\ rewrite f f')
       \/ (N.le (uuid_seed (db s)) (f_id f')
           /\ N.lt (f_id f') (uuid_seed (db s'))
           /\ f_status f' = "processing").

Definition is_webhook (op : Op) : bool :=
  match op with
  | OpWebhook _ _ => true
  | _ => false
  end.

(* ===================================================================== *)
(** ** Vocabulary and data for the rest of the code *)
(* ===================================================================== *)

(** The columns of a File row that no statement of the code rewrites. *)
Definition file_key (f : CaseStudyFile) : Uuid * Uuid * string * string :=
  (f_id f, f_case_study_id f, f_request_id f, f_file_url f).

(** The request id a delivery names. *)
Definition named_request (body : WebhookBody) : string :=
  or_else (request_id body) "".

(** The state after the handler asked the check URL and wrote nothing. *)
Definition after_check (w : World) (url : string) (s : Sys) : Sys :=
  mkSys (db s) (bucket s)
        (trace s ++ [EvMarkerCheck url (or_else (MARKER_API_KEY w) "")]).

(** An unsuccessful result that carries no error text. *)
Definition result_failed_silently : MarkerResponse :=
  mkMarkerResponse "markdown" Null "failed" false None Null Null 0%N.

Definition world_failed_silently : World :=
  world (Some "user_1")
        (Response true "OK" None (Returns result_failed_silently)) accept_all.

Definition delivery_unknown : WebhookBody :=
  mkWebhookBody (Some "req-unknown") (Some "https://www.datalab.to/check/9")
                (Some "s3cret").

Definition delivery_without_url : WebhookBody :=
  mkWebhookBody (Some "req-a.pdf") None (Some "s3cret").

(** Does the text hold a slash? *)
Fixpoint contains_slash (s : string) : bool :=
  match s with
  | EmptyString => false
  | String c rest => Ascii.eqb c "/"%char || contains_slash rest
  end.

(** The summary row [createOnePager] inserts. *)
Definition new_summary_row (d : Db) (caseStudyId : Uuid) (text : string)
    : CaseStudySummary :=
  mkSummary (uuid_seed d) caseStudyId text.

(** The database with one more summary row. *)
Definition add_summary (d : Db) (row : CaseStudySummary) : Db :=
  next_uuid (with_summaries d (caseStudySummaries d ++ [row])).

(** The case-study table after [saveCaseStudy]. *)
Definition described (id : Uuid) (summary : string) (d : Db)
    : list CaseStudy :=
  map (fun c => if N.eqb (cs_id c) id
                then mkCaseStudy (cs_id c) (cs_user_id c) (cs_title c)
                                 (Some summary) (cs_client c) (cs_industry c)
                else c)
      (caseStudies d).

Definition world_slow_down : World :=
  mkWorld (Some "user_1") (Some "s3cret") (Some "api-key")
    (fun url =>
       if url =? "https://files.example/gone.pdf"
       then Response false "Gone" None (Throws "no body")
       else if url =? "https://files.example/cut.pdf"
       then Response true "OK" None (Throws "terminated")
       else Response true "OK" None (Returns []))
    (fun _ => FetchFails "fetch failed")
    (fun _ _ => FetchFails "fetch failed")
    accept_all
    (fun path => "https://cdn.example/files/" ++ path)
    (fun _ => [])
    (fun content =>
       if content =? "" then Throws "[Gemini] No text response received from Gemini"
       else Returns ("Summary of " ++ content))
    (fun urls => urls).

(** Primary keys were drawn from the supply: none is at or above the
    seed. *)
Definition keys_below_seed (d : Db) : Prop :=
  (forall c, In c (caseStudies d) -> N.lt (cs_id c) (uuid_seed d))
  /\ (forall f, In f (caseStudyFiles d) -> N.lt (f_id f) (uuid_seed d))
  /\ (forall m, In m (caseStudySummaries d) -> N.lt (sum_id m) (uuid_seed d)).

(** Is the e-mail address already in the user table? *)
Definition email_taken (d : Db) (email : string) : bool :=
  existsb (fun u => u_email u =? email) (users d).

(** The profile row a ['user.created'] event asks for. *)
Definition profile_of (u : ClerkRoute.ClerkUser) : User :=
  mkUser (ClerkRoute.clerk_id u)
         (ClerkRoute.display_name u (ClerkRoute.primary_email u))
         (ClerkRoute.primary_email u).

Definition ada : ClerkRoute.ClerkUser :=
  ClerkRoute.mkClerkUser "user_2" (Some ["ada@example.com"]) (Some "Ada")
                         (Some "Lovelace").

Definition ada_created : ClerkRoute.ClerkEvent :=
  ClerkRoute.mkClerkEvent "user.created" ada.

Definition alice_created : ClerkRoute.ClerkEvent :=
  ClerkRoute.mkClerkEvent "user.created"
    (ClerkRoute.mkClerkUser "user_1" (Some ["alice@example.com"])
                            (Some "Alice") None).

(** One case study with one complete file and its text. *)
Definition file_done : CaseStudyFile :=
  mkFile 1%N 0%N "req-a.pdf" "https://files.example/a.pdf"
         (Some "# Report") None "complete" None.

Definition db_done : Db := mkDb [alice] [study] [file_done] [] [] 2%N.

(** What an entry of the upload list looks like, by status. *)
Definition entry_ok (f : FileWithStatus) : Prop :=
  match fws_status f with
  | idle => False
  | uploading => fws_url f = None /\ fws_error f = None /\ fws_filePath f = ""
  | success => (exists url, fws_url f = Some url) /\ fws_error f = None
  | error =>
      fws_url f = None /\ (exists message, fws_error f = Some message)
      /\ fws_filePath f = ""
  end.

Definition is_success (f : FileWithStatus) : bool :=
  status_eqb (fws_status f) success.

(** The update reports the end of an upload of a file called [name]. *)
Definition settles (name : string) (u : ListUpdate) : bool :=
  match u with
  | Succeeded n _ _ => n =? name
  | Failed n _ => n =? name
  | Added _ => false
  | Removed _ => false
  end.

(** The object [uploadFile] stores for [file] of user [userId]. *)
Definition upload_object (userId : string) (file : BrowserFile)
    : StoredObject :=
  mkStoredObject (userId ++ "/files/" ++ bf_name file) (bf_bytes file)
                 (bf_type file) "3600".

(** The browser session has a token and a user id. *)
Definition signed_in (session : option Session) : bool :=
  match session with
  | Some sess =>
      truthy (session_token sess) && truthy (Some (session_user_id sess))
  | None => false
  end.

Definition session_user (session : option Session) : string :=
  match session with
  | Some sess => session_user_id sess
  | None => ""
  end.

Definition notes_md : BrowserFile :=
  mkBrowserFile "NOTES.MD" 12%N "application/octet-stream" [].

Definition report_v1 : BrowserFile :=
  mkBrowserFile "report.pdf" 10%N "application/pdf" [].

Definition report_v2 : BrowserFile :=
  mkBrowserFile "report.pdf" 20%N "application/pdf" [].

Definition alice_session : option Session :=
  Some (mkSession (Some "token") "user_1").

(** The state before any request. *)
Definition initial : Sys := sys_of (mkDb [] [] [] [] [] 0%N).

(** [files.length > 0] *)
Definition nonempty {A} (l : list A) : bool :=
  match l with
  | [] => false
  | _ :: _ => true
  end.

(* ===================================================================== *)
(** ** Basic facts: tables, statements, steps of the webhook *)
(* ===================================================================== *)

Lemma with_files_same (d : Db) : with_files d (caseStudyFiles d) = d.
Proof. destruct d; reflexivity. Qed.

Lemma sys_eta (s : Sys) : mkSys (db s) (bucket s) (trace s) = s.
Proof. destruct s; reflexivity. Qed.

Lemma filter_no_hit {A} (hit : A -> bool) (l : list A) :
  filter hit l = [] -> filter (fun x => negb (hit x)) l = l.
Proof.
  induction l as [|x l IH]; simpl; intro H; [reflexivity|].
  destruct (hit x); [discriminate|].
  simpl. now rewrite IH.
Qed.

Lemma updated_files_no_hit (requestId : string) (result : MarkerResponse)
    (d : Db) :
  hit_rows requestId d = [] -> updated_files requestId result d = caseStudyFiles d.
Proof.
  unfold updated_files. intro H. rewrite H. simpl. rewrite app_nil_r.
  now apply filter_no_hit.
Qed.

(** The rows of the updated table are the old rows, each rewritten when it
    carries the request id. *)
Lemma updated_files_In (requestId : string) (result : MarkerResponse)
    (d : Db) (f' : CaseStudyFile) :
  In f' (updated_files requestId result d)
  <-> exists f,
        In f (caseStudyFiles d)
        /\ f' = (if f_request_id f =? requestId
                 then set_result (mr_status result) (mr_markdown result)
                                 (mr_metadata result) (mr_error result) f
                 else f).
Proof.
  unfold updated_files, hit_rows. rewrite in_app_iff, filter_In, in_map_iff.
  split.
  - intros [[Hin Hne] | (f & <- & Hin)].
    + exists f'. split; [exact Hin|].
      apply negb_true_iff in Hne. now rewrite Hne.
    + apply filter_In in Hin as [Hin Hhit].
      exists f. split; [exact Hin|]. now rewrite Hhit.
  - intros (f & Hin & ->).
    destruct (f_request_id f =? requestId) eqn:E.
    + right. exists f. split; [reflexivity|]. apply filter_In. auto.
    + left. split; [exact Hin|]. now rewrite E.
Qed.


Lemma fetchMarkerResults_state (w : World) (url : string) (s : Sys) :
  db (snd (fetchMarkerResults w url s)) = db s
  /\ bucket (snd (fetchMarkerResults w url s)) = bucket s.
Proof.
  unfold fetchMarkerResults, bind, emit; simpl.
  destruct (net_marker_check _ _ _) as [e|ok st ct body]; simpl; [auto|].
  destruct ok; simpl; [|auto].
  destruct body as [result|e]; simpl; [|auto].
  destruct (mr_success result); simpl; auto.
Qed.

Lemma updateCaseStudyFile_run (requestId : string) (result : MarkerResponse)
    (s : Sys) :
  updateCaseStudyFile requestId result s =
  match hit_rows requestId (db s) with
  | [] => (Throws "Case study file not found", s)
  | first :: _ =>
      (Returns (set_result (mr_status result) (mr_markdown result)
                           (mr_metadata result) (mr_error result) first),
       mkSys (with_files (db s) (updated_files requestId result (db s)))
             (bucket s) (trace s))
  end.
Proof.
  unfold updateCaseStudyFile, bind, run_stmt, update_files_by_request,
    updated_files, hit_rows; simpl.
  destruct (filter (fun f => f_request_id f =? requestId)
                   (caseStudyFiles (db s))) as [|first rest] eqn:E; simpl.
  - rewrite (filter_no_hit _ _ E), app_nil_r, with_files_same, sys_eta.
    reflexivity.
  - reflexivity.
Qed.

Lemma validateWebhook_ok (w : World) (body : WebhookBody)
    (requestId url : string) (s : Sys) :
  valid_delivery w body requestId url ->
  validateWebhook w (Parsed body) s = (Returns (requestId, url), s).
Proof.
  intros (Hsec & Htr & Hid & Hidne & Hurl & Hurlne).
  unfold validateWebhook. rewrite Htr, <- Hsec; simpl.
  assert (Hneq : strict_neq (webhook_secret body) (webhook_secret body) = false).
  { destruct (webhook_secret body) as [x|]; simpl; [|reflexivity].
    now rewrite String.eqb_refl. }
  rewrite Hneq, Hid, Hurl; simpl.
  apply String.eqb_neq in Hidne, Hurlne.
  unfold or_else; simpl. rewrite Hidne, Hurlne; reflexivity.
Qed.

Lemma validateWebhook_throws (w : World) (body : WebhookBody) (s : Sys)
    (e : string) (s' : Sys) :
  validateWebhook w (Parsed body) s = (Throws e, s') ->
  s' = s /\ (e = "Invalid webhook secret" \/ e = "Missing required fields").
Proof.
  unfold validateWebhook.
  destruct (_ || _); [intros [= <- <-]; auto|].
  destruct (_ || _); [intros [= <- <-]; auto|].
  discriminate.
Qed.

Lemma validateWebhook_returns (w : World) (body : WebhookBody) (s : Sys)
    (v : string * string) (s' : Sys) :
  validateWebhook w (Parsed body) s = (Returns v, s') ->
  s' = s /\ valid_delivery w body (fst v) (snd v).
Proof.
  unfold validateWebhook, valid_delivery.
  destruct (webhook_secret body) as [x|]; simpl; [|discriminate].
  destruct (x =? "") eqn:Ex; simpl; [discriminate|].
  destruct (MARKER_WEBHOOK_SECRET w) as [y|]; simpl; [|discriminate].
  destruct (String.eqb_spec x y) as [->|]; simpl; [|discriminate].
  destruct (request_id body) as [r|]; simpl; [|discriminate].
  destruct (r =? "") eqn:Er; simpl; [discriminate|].
  destruct (request_check_url body) as [u|]; simpl; [|discriminate].
  destruct (u =? "") eqn:Eu; simpl; [discriminate|].
  unfold or_else; simpl. rewrite Er, Eu.
  intros [= <- <-]; simpl.
  apply String.eqb_neq in Er, Eu. repeat split; auto.
Qed.

Lemma fetchMarkerResults_ok (w : World) (url : string)
    (result : MarkerResponse) (s : Sys) :
  result_fetched w url result ->
  fetchMarkerResults w url s =
  (Returns result,
   mkSys (db s) (bucket s)
         (trace s ++ [EvMarkerCheck url (or_else (MARKER_API_KEY w) "")])).
Proof.
  intros [(st & ct & Hnet) Hok].
  unfold fetchMarkerResults, bind, emit; simpl.
  rewrite Hnet; simpl. rewrite Hok; reflexivity.
Qed.

Lemma fetchMarkerResults_returns (w : World) (url : string) (s : Sys)
    (result : MarkerResponse) (s' : Sys) :
  fetchMarkerResults w url s = (Returns result, s') ->
  result_fetched w url result.
Proof.
  unfold fetchMarkerResults, bind, emit, result_fetched; simpl.
  destruct (net_marker_check _ _ _) as [e|ok st ct body] eqn:E; simpl;
    [discriminate|].
  destruct ok; simpl; [|discriminate].
  destruct body as [r|e]; simpl; [|discriminate].
  destruct (mr_success r) eqn:Hs; simpl; [|discriminate].
  intros [= <- <-]. split; [eauto | assumption].
Qed.

(** One pass of the image loop, by the answer of the storage. *)
Lemma processImage_run (w : World) (userId : string) (file : CaseStudyFile)
    (entry : string * string) (s : Sys) :
  has_file (db s) (f_id file) = true ->
  let o := image_object w userId (f_id file) entry in
  processImage w userId file entry s =
  (Returns tt,
   match storage_upload w (bucket s) false o with
   | Uploaded =>
       mkSys (add_images (db s)
                [mkImage (uuid_seed (db s)) (f_id file)
                         (storage_publicUrl w (obj_path o))])
             (bucket s ++ [o]) (trace s ++ [EvUpload o])
   | _ => mkSys (db s) (bucket s) (trace s ++ [EvUpload o])
   end).
Proof.
  intros Hfile o.
  unfold processImage, storage_from_files_upload, try_catch, bind, emit,
    run_stmt, insert_caseStudyImage, ret.
  fold o. cbn [db bucket trace fst snd].
  destruct (storage_upload w (bucket s) false o); try reflexivity.
  cbn [db bucket trace fst snd]. rewrite Hfile.
  unfold add_images, next_uuid, with_images; cbn.
  now rewrite N.add_1_r.
Qed.

Lemma add_images_nil (d : Db) : add_images d [] = d.
Proof.
  destruct d; unfold add_images; simpl.
  now rewrite app_nil_r, N.add_0_r.
Qed.

Lemma add_images_cons (d : Db) (r : CaseStudyImage)
    (rows : list CaseStudyImage) :
  add_images (add_images d [r]) rows = add_images d (r :: rows).
Proof.
  unfold add_images; simpl. rewrite <- app_assoc; simpl.
  f_equal. lia.
Qed.

Lemma for_of_processImage (w : World) (userId : string)
    (file : CaseStudyFile) (entries : list (string * string)) :
  forall s : Sys,
    has_file (db s) (f_id file) = true ->
    let accepted :=
      uploads_accepted w userId (f_id file) (bucket s) entries in
    exists s',
      for_of entries (processImage w userId file) s = (Returns tt, s')
      /\ db s' = add_images (db s)
                   (image_rows w userId (f_id file) (uuid_seed (db s)) accepted)
      /\ bucket s' =
         (bucket s ++ map (image_object w userId (f_id file)) accepted)%list.
Proof.
  induction entries as [|e rest IH]; intros s Hfile; simpl.
  - exists s. unfold ret. now rewrite add_images_nil, app_nil_r.
  - unfold bind. rewrite (processImage_run w userId file e s Hfile).
    destruct (storage_upload w (bucket s) false _) eqn:Eup.
    + match goal with
      | |- context [for_of rest _ ?st] =>
          destruct (IH st) as (s' & Hrun & Hdb & Hbk); [exact Hfile|]
      end.
      exists s'. split; [exact Hrun|]. simpl in Hdb, Hbk.
      rewrite Hdb, Hbk. split.
      * rewrite add_images_cons. simpl. now rewrite N.add_1_r.
      * simpl. now rewrite <- app_assoc.
    + match goal with
      | |- context [for_of rest _ ?st] =>
          destruct (IH st) as (s' & Hrun & Hdb & Hbk); [exact Hfile|]
      end.
      exists s'. split; [exact Hrun|]. simpl in Hdb, Hbk. auto.
    + match goal with
      | |- context [for_of rest _ ?st] =>
          destruct (IH st) as (s' & Hrun & Hdb & Hbk); [exact Hfile|]
      end.
      exists s'. split; [exact Hrun|]. simpl in Hdb, Hbk. auto.
Qed.

Lemma existsb_map_same {A} (p : A -> bool) (g : A -> A) (l : list A) :
  (forall x, p (g x) = p x) -> existsb p (map g l) = existsb p l.
Proof.
  intro H. induction l as [|x l IH]; simpl; [reflexivity|].
  now rewrite H, IH.
Qed.

Lemma has_file_updated (requestId : string) (result : MarkerResponse)
    (d : Db) (id : Uuid) :
  has_file (with_files d (updated_files requestId result d)) id
  = has_file d id.
Proof.
  unfold has_file; simpl. apply Bool.eq_iff_eq_true.
  rewrite !existsb_exists. split.
  - intros (f' & Hin & Hid). apply updated_files_In in Hin as (f & Hin & ->).
    exists f. split; [exact Hin|].
    now destruct (f_request_id f =? requestId).
  - intros (f & Hin & Hid).
    exists (if f_request_id f =? requestId
            then set_result (mr_status result) (mr_markdown result)
                            (mr_metadata result) (mr_error result) f
            else f).
    split; [apply updated_files_In; eauto|].
    now destruct (f_request_id f =? requestId).
Qed.

Lemma hit_rows_has_file (requestId : string) (d : Db)
    (first : CaseStudyFile) (rest : list CaseStudyFile) :
  hit_rows requestId d = first :: rest -> has_file d (f_id first) = true.
Proof.
  unfold hit_rows, has_file. intro H.
  assert (Hin : In first (filter (fun f => f_request_id f =? requestId)
                                 (caseStudyFiles d)))
    by (rewrite H; now left).
  apply filter_In in Hin as [Hin _].
  apply existsb_exists. exists first. split; [exact Hin | apply N.eqb_refl].
Qed.

Lemma processImages_run (w : World) (file : CaseStudyFile)
    (result : MarkerResponse) (s : Sys) :
  processImages w file result s =
  match image_entries result with
  | [] => (Returns tt, s)
  | entries =>
      match parent_of (db s) file with
      | None => (Throws "Case study not found", s)
      | Some caseStudy =>
          for_of entries (processImage w (cs_user_id caseStudy) file) s
      end
  end.
Proof.
  unfold processImages, image_entries, parent_of.
  destruct (mr_images result) as [[|e es]|]; try reflexivity.
  unfold bind, run_stmt, select_caseStudies_by_id; simpl.
  rewrite sys_eta.
  destruct (filter _ (caseStudies (db s))); reflexivity.
Qed.

(** The handler on a delivery that passes validation, fetch and update. *)
Lemma POST_run_valid (w : World) (body : WebhookBody) (requestId url : string)
    (result : MarkerResponse) (first : CaseStudyFile)
    (rest : list CaseStudyFile) (s : Sys) :
  valid_delivery w body requestId url ->
  result_fetched w url result ->
  hit_rows requestId (db s) = first :: rest ->
  POST w (Parsed body) s =
  match processImages w (updated_row result first) result
                      (after_update w requestId url result s) with
  | (Returns _, s') => (Returns ok_200, s')
  | (Throws e, s') => (Returns (error_response e), s')
  end.
Proof.
  intros Hv Hf Hhit.
  unfold POST, try_catch, bind.
  rewrite (validateWebhook_ok w body requestId url s Hv).
  rewrite (fetchMarkerResults_ok w url result s Hf).
  rewrite updateCaseStudyFile_run. cbn [db bucket trace].
  rewrite Hhit.
  unfold after_update, updated_row, ok_200.
  destruct (processImages _ _ _ _) as [[u|e] s']; reflexivity.
Qed.

(** [processImages] only ever appends to the image table. *)
Lemma processImages_tables (w : World) (file : CaseStudyFile)
    (result : MarkerResponse) (s : Sys) :
  has_file (db s) (f_id file) = true ->
  let d' := db (snd (processImages w file result s)) in
  users d' = users (db s)
  /\ caseStudies d' = caseStudies (db s)
  /\ caseStudyFiles d' = caseStudyFiles (db s)
  /\ caseStudySummaries d' = caseStudySummaries (db s)
  /\ exists rows, caseStudyImages d' = (caseStudyImages (db s) ++ rows)%list.
Proof.
  intros Hfile. rewrite processImages_run.
  destruct (image_entries result) as [|e es].
  - simpl. repeat split; try reflexivity. exists []. now rewrite app_nil_r.
  - destruct (parent_of (db s) file) as [caseStudy|].
    + destruct (for_of_processImage w (cs_user_id caseStudy) file (e :: es)
                  s Hfile) as (s' & Hrun & Hdb & _).
      rewrite Hrun; simpl. rewrite Hdb; simpl.
      repeat split; try reflexivity. eauto.
    + simpl. repeat split; try reflexivity. exists []. now rewrite app_nil_r.
Qed.

Lemma filter_hit_others {A} (p : A -> bool) (l : list A) :
  filter p (filter (fun x => negb (p x)) l) = [].
Proof.
  induction l as [|x l IH]; simpl; [reflexivity|].
  destruct (p x) eqn:E; simpl; [exact IH|]. now rewrite E.
Qed.

Lemma filter_others_others {A} (p : A -> bool) (l : list A) :
  filter (fun x => negb (p x)) (filter (fun x => negb (p x)) l)
  = filter (fun x => negb (p x)) l.
Proof.
  induction l as [|x l IH]; simpl; [reflexivity|].
  destruct (p x) eqn:E; simpl; [exact IH|]. now rewrite E, IH.
Qed.

Lemma filter_map_hits {A} (p : A -> bool) (g : A -> A) (l : list A) :
  (forall x, p (g x) = p x) ->
  filter p (map g (filter p l)) = map g (filter p l)
  /\ filter (fun x => negb (p x)) (map g (filter p l)) = [].
Proof.
  intro H. induction l as [|x l [IH1 IH2]]; simpl; [auto|].
  destruct (p x) eqn:E; simpl; [|auto].
  rewrite H, E. simpl. now rewrite IH1, IH2.
Qed.

Lemma hit_rows_updated (requestId : string) (result : MarkerResponse)
    (d : Db) :
  hit_rows requestId (with_files d (updated_files requestId result d))
  = map (updated_row result) (hit_rows requestId d).
Proof.
  unfold hit_rows at 1. unfold updated_files. simpl.
  rewrite filter_app, filter_hit_others. simpl.
  unfold hit_rows, updated_row.
  apply (filter_map_hits (fun f => f_request_id f =? requestId)).
  reflexivity.
Qed.

Lemma updated_files_ext (requestId : string) (result : MarkerResponse)
    (d1 d2 : Db) :
  caseStudyFiles d1 = caseStudyFiles d2 ->
  updated_files requestId result d1 = updated_files requestId result d2.
Proof. unfold updated_files, hit_rows. now intros ->. Qed.

(** Writing the same result a second time changes nothing. *)
Lemma set_result_twice (result : MarkerResponse) (f : CaseStudyFile) :
  updated_row result (updated_row result f) = updated_row result f.
Proof.
  unfold updated_row, set_result. simpl.
  destruct (mr_markdown result), (mr_metadata result), (mr_error result);
    reflexivity.
Qed.

Lemma updated_files_twice (requestId : string) (result : MarkerResponse)
    (d : Db) :
  updated_files requestId result
    (with_files d (updated_files requestId result d))
  = updated_files requestId result d.
Proof.
  unfold updated_files at 1. rewrite hit_rows_updated. simpl.
  unfold updated_files at 1. rewrite filter_app, filter_others_others.
  assert (Hnone : filter (fun f => negb (f_request_id f =? requestId))
                    (map (set_result (mr_status result) (mr_markdown result)
                                     (mr_metadata result) (mr_error result))
                         (hit_rows requestId d)) = []).
  { apply (filter_map_hits (fun f => f_request_id f =? requestId)).
    reflexivity. }
  rewrite Hnone, app_nil_r. unfold updated_files. f_equal.
  rewrite map_map. apply map_ext. intro f. apply set_result_twice.
Qed.

(** Once validation and the fetch pass, the file table after the handler
    is the updated one, whether or not a row was hit. *)
Lemma POST_valid_files (w : World) (body : WebhookBody)
    (requestId url : string) (result : MarkerResponse) (s : Sys) :
  valid_delivery w body requestId url ->
  result_fetched w url result ->
  caseStudyFiles (db (snd (POST w (Parsed body) s)))
  = updated_files requestId result (db s).
Proof.
  intros Hv Hf.
  destruct (hit_rows requestId (db s)) as [|first rest] eqn:Hhit.
  - unfold POST, try_catch, bind.
    rewrite (validateWebhook_ok w body requestId url s Hv).
    rewrite (fetchMarkerResults_ok w url result s Hf).
    rewrite updateCaseStudyFile_run. cbn [db bucket trace].
    rewrite Hhit. simpl.
    now rewrite (updated_files_no_hit requestId result (db s) Hhit).
  - rewrite (POST_run_valid w body requestId url result first rest s Hv Hf Hhit).
    assert (Hfile : has_file (db (after_update w requestId url result s))
                             (f_id (updated_row result first)) = true).
    { simpl. rewrite has_file_updated.
      exact (hit_rows_has_file requestId (db s) first rest Hhit). }
    pose proof (processImages_tables w (updated_row result first) result
                  (after_update w requestId url result s) Hfile)
      as (_ & _ & Hfiles & _).
    destruct (processImages _ _ _ _) as [[u|e] s']; simpl in *; exact Hfiles.
Qed.

(** Every run of the handler either writes nothing or passed validation
    and fetch and hit a row. *)
Lemma POST_cases (w : World) (body : WebhookBody) (s : Sys) :
  (db (snd (POST w (Parsed body) s)) = db s)
  \/ (exists requestId url result first rest,
         valid_delivery w body requestId url
         /\ result_fetched w url result
         /\ hit_rows requestId (db s) = first :: rest).
Proof.
  destruct (validateWebhook w (Parsed body) s) as [[v|e] s1] eqn:Hv.
  - apply validateWebhook_returns in Hv as Hv'. destruct Hv' as [-> Hvalid].
    destruct v as [requestId url]; simpl in Hvalid.
    destruct (fetchMarkerResults w url s) as [[result|e] s2] eqn:Hf.
    + apply fetchMarkerResults_returns in Hf as Hfetched.
      destruct (hit_rows requestId (db s)) as [|first rest] eqn:Hhit.
      * left. unfold POST, try_catch, bind.
        rewrite Hv, Hf, updateCaseStudyFile_run.
        pose proof (fetchMarkerResults_state w url s) as [Hd Hb].
        rewrite Hf in Hd, Hb; simpl in Hd, Hb.
        unfold hit_rows in *. rewrite Hd, Hhit. simpl. exact Hd.
      * right. exists requestId, url, result, first, rest. auto.
    + left. unfold POST, try_catch, bind. rewrite Hv, Hf. simpl.
      pose proof (fetchMarkerResults_state w url s) as [Hd Hb].
      now rewrite Hf in Hd.
  - apply validateWebhook_throws in Hv as Hv'. destruct Hv' as [-> _].
    left. unfold POST, try_catch, bind. rewrite Hv. reflexivity.
Qed.

(** The successful run, with the image rows it inserts. *)
Lemma POST_run_images (w : World) (body : WebhookBody) (requestId url : string)
    (result : MarkerResponse) (first : CaseStudyFile)
    (rest : list CaseStudyFile) (caseStudy : CaseStudy) (s : Sys) :
  valid_delivery w body requestId url ->
  result_fetched w url result ->
  hit_rows requestId (db s) = first :: rest ->
  parent_of (db s) first = Some caseStudy ->
  let accepted :=
    uploads_accepted w (cs_user_id caseStudy) (f_id first) (bucket s)
                     (image_entries result) in
  exists s',
    POST w (Parsed body) s = (Returns ok_200, s')
    /\ db s' =
       add_images (with_files (db s) (updated_files requestId result (db s)))
         (image_rows w (cs_user_id caseStudy) (f_id first)
                     (uuid_seed (db s)) accepted)
    /\ bucket s' =
       (bucket s
        ++ map (image_object w (cs_user_id caseStudy) (f_id first)) accepted)%list.
Proof.
  intros Hv Hf Hhit Hpar accepted.
  rewrite (POST_run_valid w body requestId url result first rest s Hv Hf Hhit).
  rewrite processImages_run.
  assert (Hfile : has_file (db (after_update w requestId url result s))
                           (f_id (updated_row result first)) = true).
  { simpl. rewrite has_file_updated.
    exact (hit_rows_has_file requestId (db s) first rest Hhit). }
  destruct (for_of_processImage w (cs_user_id caseStudy)
              (updated_row result first) (image_entries result)
              (after_update w requestId url result s) Hfile)
    as (s' & Hrun & Hdb & Hbk).
  assert (Hpar' : parent_of (db (after_update w requestId url result s))
                            (updated_row result first) = Some caseStudy)
    by exact Hpar.
  rewrite Hpar'.
  exists s'. subst accepted.
  destruct (image_entries result) as [|e es] eqn:Hent.
  - simpl in Hrun. injection Hrun as <-. simpl.
    rewrite add_images_nil, app_nil_r. auto.
  - rewrite Hrun. auto.
Qed.

Lemma image_rows_length (w : World) (userId : string) (fileId : Uuid)
    (accepted : list (string * string)) :
  forall seed, length (image_rows w userId fileId seed accepted)
               = length accepted.
Proof.
  induction accepted as [|e l IH]; intro seed; simpl; [reflexivity|].
  now rewrite IH.
Qed.

Lemma uploads_accepted_all (w : World) (userId : string) (fileId : Uuid)
    (entries : list (string * string)) :
  (forall held o, storage_upload w held false o = Uploaded) ->
  forall held, uploads_accepted w userId fileId held entries = entries.
Proof.
  intro Hall. induction entries as [|e l IH]; intro held; simpl;
    [reflexivity|].
  now rewrite Hall, IH.
Qed.

Lemma uploads_accepted_none (w : World) (userId : string) (fileId : Uuid)
    (entries : list (string * string)) :
  (forall held o, storage_upload w held false o <> Uploaded) ->
  forall held, uploads_accepted w userId fileId held entries = [].
Proof.
  intro Hnone. induction entries as [|e l IH]; intro held; simpl;
    [reflexivity|].
  destruct (storage_upload w held false _) eqn:E; [|apply IH|apply IH].
  now elim (Hnone held _ E).
Qed.



(* ===================================================================== *)
(** ** The extraction webhook: claims *)
(* ===================================================================== *)





(** C6. A delivery that passes validation, whose fetched result is
    successful and carries exactly two images, whose File row and parent
    case study exist, and for which the storage refuses exactly one of the
    two uploads: the handler answers 200 and the image table gains exactly
    one row, the one of the image that was taken. *)
Theorem two_images_one_upload_fails (w : World) (body : WebhookBody)
    (requestId url : string) (result : MarkerResponse)
    (first : CaseStudyFile) (rest : list CaseStudyFile)
    (caseStudy : CaseStudy) (e1 e2 : string * string) (s : Sys) :
  valid_delivery w body requestId url ->
  result_fetched w url result ->
  hit_rows requestId (db s) = first :: rest ->
  parent_of (db s) first = Some caseStudy ->
  mr_images result = Some [e1; e2] ->
  let o1 := image_object w (cs_user_id caseStudy) (f_id first) e1 in
  let o2 := image_object w (cs_user_id caseStudy) (f_id first) e2 in
  (accepted_by w (bucket s) o1 = false /\ accepted_by w (bucket s) o2 = true)
  \/ (accepted_by w (bucket s) o1 = true
      /\ accepted_by w (bucket s ++ [o1]) o2 = false) ->
  exists s',
    POST w (Parsed body) s = (Returns ok_200, s')
    /\ caseStudyImages (db s')
       = (caseStudyImages (db s)
          ++ [mkImage (uuid_seed (db s)) (f_id first)
                (storage_publicUrl w
                   (obj_path (if accepted_by w (bucket s) o1 then o1 else o2)))])%list.
Proof.
  intros Hv Hf Hhit Hpar Himg o1 o2 Hone.
  destruct (POST_run_images w body requestId url result first rest caseStudy s
              Hv Hf Hhit Hpar) as (s' & Hrun & Hdb & _).
  exists s'. split; [exact Hrun|].
  rewrite Hdb. unfold image_entries. rewrite Himg.
  unfold accepted_by in *. simpl. fold o1 o2.
  destruct Hone as [[H1 H2]|[H1 H2]].
  - destruct (storage_upload w (bucket s) false o1) eqn:E1; try discriminate;
      destruct (storage_upload w (bucket s) false o2) eqn:E2; try discriminate;
      reflexivity.
  - destruct (storage_upload w (bucket s) false o1) eqn:E1; try discriminate.
    destruct (storage_upload w (bucket s ++ [o1]) false o2) eqn:E2;
      try discriminate; reflexivity.
Qed.

Lemma two_images_one_upload_fails_witness :
  exists s',
    POST world_one_refused (Parsed delivery) (sys_of (db_one_file "processing"))
    = (Returns ok_200, s')
    /\ caseStudyImages (db s')
       = [mkImage 2%N 1%N
            "https://cdn.example/files/user_1/case_studies/1/images/_page_1_Picture_3.jpeg"].
Proof.
  apply (two_images_one_upload_fails world_one_refused delivery
           "req-a.pdf" "https://www.datalab.to/check/1" result_complete
           (file_a "processing") [] study
           ("_page_0_Figure_1.jpeg", "/9j/4AAQ")
           ("_page_1_Picture_3.jpeg", "/9j/4BBR")
           (sys_of (db_one_file "processing"))).
  - repeat split; discriminate.
  - split; [exists "OK", None; reflexivity | reflexivity].
  - reflexivity.
  - reflexivity.
  - reflexivity.
  - left; split; reflexivity.
Defined.

(** Supporting facts for the response contract: missing fields give 400,
    and a thrown message that names neither phrase gives 500. *)
Lemma webhook_missing_fields_400 (w : World) (body : WebhookBody) (s : Sys) :
  webhook_secret body = MARKER_WEBHOOK_SECRET w ->
  truthy (webhook_secret body) = true ->
  truthy (request_id body) = false \/ truthy (request_check_url body) = false ->
  POST w (Parsed body) s
  = (Returns (mkNextResponse (ErrorBody "Missing required fields") 400%N), s).
Proof.
  intros Hsec Htr Hmiss.
  unfold POST, try_catch, bind, validateWebhook.
  rewrite Htr, <- Hsec; simpl.
  assert (Hneq : strict_neq (webhook_secret body) (webhook_secret body) = false).
  { destruct (webhook_secret body) as [x|]; simpl; [|reflexivity].
    now rewrite String.eqb_refl. }
  rewrite Hneq.
  destruct Hmiss as [-> | ->]; simpl; [reflexivity|].
  now rewrite orb_true_r.
Qed.

(** C8. The status of an error answer is chosen by searching the error
    message for the phrases "Invalid webhook secret" and "Missing required
    fields". Here the delivery carries the right secret and both fields, the
    check URL answers with an unsuccessful result whose [error] text is
    "Invalid webhook secret": the handler answers 401, where the contract
    asks for 500. *)
Theorem unsuccessful_result_answered_401 :
  valid_delivery world_echo delivery "req-a.pdf"
                 "https://www.datalab.to/check/1"
  /\ fst (fetchMarkerResults world_echo "https://www.datalab.to/check/1"
            (sys_of (db_one_file "processing")))
     = Throws "Invalid webhook secret"
  /\ fst (POST world_echo (Parsed delivery) (sys_of (db_one_file "processing")))
     = Returns (mkNextResponse (ErrorBody "Invalid webhook secret") 401%N).
Proof.
  split; [repeat split; discriminate|].
  split; reflexivity.
Qed.


Lemma db_one_file_consistent (status : string) :
  fk_consistent (db_one_file status).
Proof.
  repeat split; simpl; intros x Hin;
    repeat (destruct Hin as [<-|Hin]; [reflexivity|]); contradiction.
Qed.



(** C3 (as stated, refuted). With a storage that honours [upsert: false],
    the first run stores both images and inserts two Image rows; the replay
    of the same delivery is answered 200, finds both paths already held,
    and inserts no Image row. *)
Lemma replay_on_upsert_false_storage_adds_no_image :
  let s1 := snd (POST world_upsert (Parsed delivery) (sys_of (db_one_file "processing"))) in
  let s2 := snd (POST world_upsert (Parsed delivery) s1) in
  fst (POST world_upsert (Parsed delivery) s1) = Returns ok_200
  /\ length (image_entries result_complete) = 2
  /\ length (caseStudyImages (db s1)) = 2
  /\ caseStudyImages (db s2) = caseStudyImages (db s1).
Proof. repeat split; reflexivity. Qed.

(** C3 (amended). Replaying a delivery never changes the File table: the
    second run writes the same status, markdown, metadata and error. For
    the images, when the first run went through (validation, fetch, a File
    row hit, its parent found), the replay is answered 200 and appends one
    Image row for each image of the payload whose upload the storage
    accepts in that second run: one per image when the storage accepts
    every upload, none when it refuses them all. *)
Theorem webhook_replay_effect (w : World) (body : WebhookBody) (s : Sys) :
  let s1 := snd (POST w (Parsed body) s) in
  let s2 := snd (POST w (Parsed body) s1) in
  caseStudyFiles (db s2) = caseStudyFiles (db s1)
  /\ forall requestId url result first rest caseStudy,
       valid_delivery w body requestId url ->
       result_fetched w url result ->
       hit_rows requestId (db s) = first :: rest ->
       parent_of (db s) first = Some caseStudy ->
       let accepted :=
         uploads_accepted w (cs_user_id caseStudy) (f_id first) (bucket s1)
                          (image_entries result) in
       fst (POST w (Parsed body) s1) = Returns ok_200
       /\ caseStudyImages (db s2)
          = (caseStudyImages (db s1)
             ++ image_rows w (cs_user_id caseStudy) (f_id first)
                           (uuid_seed (db s1)) accepted)%list
       /\ ((forall held o, storage_upload w held false o = Uploaded) ->
           length (caseStudyImages (db s2))
           = length (caseStudyImages (db s1)) + length (image_entries result))
       /\ ((forall held o, storage_upload w held false o <> Uploaded) ->
           caseStudyImages (db s2) = caseStudyImages (db s1)).
Proof.
  intros s1 s2. split.
  - destruct (POST_cases w body s1)
      as [Hsame | (requestId & url & result & first & rest & Hv & Hf & Hhit)].
    + subst s2. now rewrite Hsame.
    + subst s2.
      rewrite (POST_valid_files w body requestId url result s1 Hv Hf).
      pose proof (POST_valid_files w body requestId url result s Hv Hf) as H1.
      fold s1 in H1. rewrite H1.
      rewrite <- (updated_files_twice requestId result (db s)).
      apply updated_files_ext. exact H1.
  - intros requestId url result first rest caseStudy Hv Hf Hhit Hpar accepted.
    destruct (POST_run_images w body requestId url result first rest caseStudy
                s Hv Hf Hhit Hpar) as (t1 & Hrun1 & Hdb1 & Hbk1).
    assert (Hs1 : s1 = t1) by (subst s1; now rewrite Hrun1).
    assert (Hhit1 : hit_rows requestId (db s1)
                    = updated_row result first
                      :: map (updated_row result) rest).
    { rewrite Hs1, Hdb1.
      change (hit_rows requestId
                (with_files (db s) (updated_files requestId result (db s)))
              = updated_row result first :: map (updated_row result) rest).
      now rewrite hit_rows_updated, Hhit. }
    assert (Hpar1 : parent_of (db s1) (updated_row result first)
                    = Some caseStudy).
    { rewrite Hs1, Hdb1. exact Hpar. }
    destruct (POST_run_images w body requestId url result
                (updated_row result first) (map (updated_row result) rest)
                caseStudy s1 Hv Hf Hhit1 Hpar1) as (t2 & Hrun2 & Hdb2 & _).
    simpl in Hdb2. fold accepted in Hdb2.
    assert (Himg : caseStudyImages (db s2)
                   = (caseStudyImages (db s1)
                      ++ image_rows w (cs_user_id caseStudy) (f_id first)
                                    (uuid_seed (db s1)) accepted)%list).
    { subst s2. rewrite Hrun2; simpl. now rewrite Hdb2. }
    split; [now rewrite Hrun2|]. split; [exact Himg|]. split.
    + intro Hall. rewrite Himg, length_app, image_rows_length.
      subst accepted. now rewrite (uploads_accepted_all _ _ _ _ Hall).
    + intro Hnone. rewrite Himg. subst accepted.
      rewrite (uploads_accepted_none _ _ _ _ Hnone). simpl.
      now rewrite app_nil_r.
Qed.

Lemma webhook_replay_effect_witness :
  let s1 := snd (POST world_ok (Parsed delivery) (sys_of (db_one_file "processing"))) in
  let s2 := snd (POST world_ok (Parsed delivery) s1) in
  length (caseStudyImages (db s2)) = length (caseStudyImages (db s1)) + 2.
Proof.
  intros s1 s2.
  apply (proj2 (webhook_replay_effect world_ok delivery
                  (sys_of (db_one_file "processing")))
           "req-a.pdf" "https://www.datalab.to/check/1" result_complete
           (file_a "processing") [] study).
  - repeat split; discriminate.
  - split; [exists "OK", None; reflexivity | reflexivity].
  - reflexivity.
  - reflexivity.
  - intros held o; reflexivity.
Defined.

(* ===================================================================== *)
(** ** File ingestion: facts *)
(* ===================================================================== *)

Lemma add_files_nil (d : Db) : add_files d [] = d.
Proof.
  destruct d; unfold add_files; simpl.
  now rewrite app_nil_r, N.add_0_r.
Qed.

Lemma processFileWithMarker_run (w : World) (file : DownloadedFile) (s : Sys) :
  exists r,
    processFileWithMarker w file s
    = (r, mkSys (db s) (bucket s)
                (trace s ++ [EvMarkerSubmit (marker_request w file)]))
    /\ match submitted w file with
       | Some result => r = Returns result
       | None => exists e, r = Throws e
       end.
Proof.
  unfold processFileWithMarker, submitted, bind, emit, throw, ret.
  destruct (net_marker_submit w (marker_request w file))
    as [e|ok st ct body]; simpl; [eauto|].
  destruct ok; simpl; [|eauto].
  destruct body as [result|e]; simpl; [|eauto].
  destruct (api_success result); simpl; eauto.
Qed.

Lemma downloadFileFromUrl_run (w : World) (url : string) (s : Sys) :
  exists r,
    downloadFileFromUrl w url s
    = (r, mkSys (db s) (bucket s) (trace s ++ [EvDownload url]))
    /\ match fetched_file w url with
       | Some file => r = Returns file
       | None => exists e, r = Throws e
       end.
Proof.
  unfold downloadFileFromUrl, fetched_file, try_catch, bind, emit, throw, ret.
  destruct (net_fetch w url) as [e|ok st ct body]; simpl; [eauto|].
  destruct ok; simpl; [|eauto].
  destruct body as [blob|e]; simpl; eauto.
Qed.

(** One task of the batch: it never throws, and writes one File row when
    download and submission both succeed. *)
Lemma fileTask_run (w : World) (newCaseStudy : CaseStudy) (url : string)
    (s : Sys) :
  has_caseStudy (db s) (cs_id newCaseStudy) = true ->
  fileTask w newCaseStudy url s
  = (Returns tt,
     mkSys (add_files (db s)
              (file_rows (cs_id newCaseStudy) (uuid_seed (db s))
                 (successes w [url])))
           (bucket s) (trace s ++ task_events w url)).
Proof.
  intro Hcs.
  unfold fileTask, try_catch, bind, task_events, successes, task_outcome.
  destruct (downloadFileFromUrl_run w url s) as (r & -> & Hr).
  destruct (fetched_file w url) as [file|].
  - subst r.
    match goal with
    | |- context [processFileWithMarker w file ?st] =>
        destruct (processFileWithMarker_run w file st) as (r & -> & Hr)
    end.
    cbn [db bucket trace] in *.
    destruct (submitted w file) as [result|].
    + subst r. unfold run_stmt, insert_caseStudyFile. cbn [db bucket trace].
      rewrite Hcs. simpl. rewrite <- app_assoc. simpl.
      unfold add_files, next_uuid, with_files; simpl.
      now rewrite N.add_1_r.
    + destruct Hr as [e ->]. simpl.
      rewrite add_files_nil, <- app_assoc. reflexivity.
  - destruct Hr as [e ->]. simpl. now rewrite add_files_nil.
Qed.

Lemma successes_cons (w : World) (url : string) (rest : list string) :
  successes w (url :: rest) = (successes w [url] ++ successes w rest)%list.
Proof. simpl. destruct (task_outcome w url); reflexivity. Qed.

Lemma file_rows_app (caseStudyId : Uuid) (l1 l2 : list (string * MarkerApiResponse)) :
  forall seed,
    file_rows caseStudyId seed (l1 ++ l2)
    = (file_rows caseStudyId seed l1
       ++ file_rows caseStudyId (seed + N.of_nat (length l1))%N l2)%list.
Proof.
  induction l1 as [|[u r] l1 IH]; intro seed; simpl.
  - now rewrite N.add_0_r.
  - rewrite IH. do 3 f_equal. lia.
Qed.

Lemma file_rows_length (caseStudyId : Uuid)
    (done : list (string * MarkerApiResponse)) :
  forall seed, length (file_rows caseStudyId seed done) = length done.
Proof.
  induction done as [|[u r] l IH]; intro seed; simpl; [reflexivity|].
  now rewrite IH.
Qed.

Lemma add_files_app (d : Db) (r1 r2 : list CaseStudyFile) :
  add_files (add_files d r1) r2 = add_files d (r1 ++ r2).
Proof.
  unfold add_files; simpl. rewrite <- app_assoc, length_app.
  f_equal. lia.
Qed.

Lemma for_of_fileTask (w : World) (newCaseStudy : CaseStudy)
    (urls : list string) :
  forall s : Sys,
    has_caseStudy (db s) (cs_id newCaseStudy) = true ->
    for_of urls (fileTask w newCaseStudy) s
    = (Returns tt,
       mkSys (add_files (db s)
                (file_rows (cs_id newCaseStudy) (uuid_seed (db s))
                   (successes w urls)))
             (bucket s) (trace s ++ flat_map (task_events w) urls)).
Proof.
  induction urls as [|url rest IH]; intros s Hcs.
  - simpl. unfold ret. now rewrite add_files_nil, app_nil_r, sys_eta.
  - cbn [for_of]. unfold bind.
    rewrite (fileTask_run w newCaseStudy url s Hcs).
    rewrite IH by exact Hcs.
    cbn [db bucket trace].
    change (uuid_seed (add_files (db s)
              (file_rows (cs_id newCaseStudy) (uuid_seed (db s))
                 (successes w [url]))))
      with (uuid_seed (db s)
            + N.of_nat (length (file_rows (cs_id newCaseStudy)
                                  (uuid_seed (db s)) (successes w [url]))))%N.
    rewrite file_rows_length.
    rewrite add_files_app, (successes_cons w url rest), file_rows_app.
    cbn [flat_map]. rewrite <- app_assoc.
    reflexivity.
Qed.

Lemma has_caseStudy_inserted (d : Db) (row : CaseStudy) :
  has_caseStudy (next_uuid (with_caseStudies d (caseStudies d ++ [row])))
                (cs_id row) = true.
Proof.
  unfold has_caseStudy; simpl. rewrite existsb_app; simpl.
  now rewrite N.eqb_refl, orb_true_r.
Qed.

(** The whole action, for a caller who is signed in and has a user row. *)
Lemma createCaseStudy_run (w : World) (caseStudy : NewCaseStudy) (s : Sys) :
  truthy (auth_userId w) = true ->
  has_user (db s) (or_else (auth_userId w) "") = true ->
  let row := new_caseStudy_row w caseStudy (db s) in
  createCaseStudy w caseStudy s
  = (Returns row,
     mkSys (add_files
              (next_uuid (with_caseStudies (db s) (caseStudies (db s) ++ [row])))
              (file_rows (cs_id row) (N.succ (uuid_seed (db s)))
                 (successes w (task_order w (fileUrls caseStudy)))))
           (bucket s)
           (trace s ++ flat_map (task_events w)
                         (task_order w (fileUrls caseStudy)))).
Proof.
  intros Hauth Huser row.
  unfold createCaseStudy. rewrite Hauth; simpl.
  unfold bind at 1. unfold run_stmt at 1, insert_caseStudy.
  rewrite Huser. fold (new_caseStudy_row w caseStudy (db s)). fold row.
  unfold bind.
  rewrite for_of_fileTask by apply has_caseStudy_inserted.
  reflexivity.
Qed.

Lemma createCaseStudy_trace (w : World) (caseStudy : NewCaseStudy) (s : Sys) :
  exists urls,
    trace (snd (createCaseStudy w caseStudy s))
    = (trace s ++ flat_map (task_events w) urls)%list.
Proof.
  destruct (truthy (auth_userId w)) eqn:Hauth.
  - destruct (has_user (db s) (or_else (auth_userId w) "")) eqn:Huser.
    + rewrite (createCaseStudy_run w caseStudy s Hauth Huser). simpl. eauto.
    + exists []. unfold createCaseStudy. rewrite Hauth; simpl.
      unfold bind, run_stmt, insert_caseStudy. rewrite Huser. simpl.
      now rewrite app_nil_r.
  - exists []. unfold createCaseStudy. rewrite Hauth; simpl.
    now rewrite app_nil_r.
Qed.

Lemma downloads_task_events (w : World) (urls : list string) :
  downloads (flat_map (task_events w) urls) = urls.
Proof.
  induction urls as [|url rest IH]; simpl; [reflexivity|].
  destruct (fetched_file w url); simpl; now rewrite IH.
Qed.

Lemma file_rows_urls (caseStudyId : Uuid)
    (done : list (string * MarkerApiResponse)) :
  forall seed, map f_file_url (file_rows caseStudyId seed done) = map fst done.
Proof.
  induction done as [|[u r] l IH]; intro seed; simpl; [reflexivity|].
  now rewrite IH.
Qed.

Lemma file_rows_fields (caseStudyId : Uuid)
    (done : list (string * MarkerApiResponse)) (f : CaseStudyFile) :
  forall seed,
    In f (file_rows caseStudyId seed done) ->
    f_case_study_id f = caseStudyId /\ f_status f = "processing".
Proof.
  induction done as [|[u r] l IH]; intros seed Hin; simpl in Hin;
    [contradiction|].
  destruct Hin as [<-|Hin]; simpl; [auto|].
  exact (IH _ Hin).
Qed.

Lemma file_rows_has (caseStudyId : Uuid)
    (done : list (string * MarkerApiResponse)) (url : string)
    (result : MarkerApiResponse) :
  forall seed,
    In (url, result) done ->
    exists f,
      In f (file_rows caseStudyId seed done)
      /\ f_file_url f = url /\ f_request_id f = api_request_id result
      /\ f_metadata f = Some (api_json result)
      /\ f_case_study_id f = caseStudyId /\ f_status f = "processing".
Proof.
  induction done as [|[u r] l IH]; intros seed Hin; simpl in Hin;
    [contradiction|].
  destruct Hin as [[= -> ->]|Hin]; simpl.
  - eexists; split; [left; reflexivity|]. repeat split.
  - destruct (IH (N.succ seed) Hin) as (f & Hf & Hrest).
    exists f. split; [now right | exact Hrest].
Qed.

Lemma successes_has (w : World) (urls : list string) (url : string)
    (result : MarkerApiResponse) :
  In url urls -> task_outcome w url = Some result ->
  In (url, result) (successes w urls).
Proof.
  induction urls as [|u rest IH]; simpl; [contradiction|].
  intros [->|Hin] Hout.
  - rewrite Hout. now left.
  - destruct (task_outcome w u); [right|]; auto.
Qed.

Lemma successes_perm (w : World) (l1 l2 : list string) :
  Permutation l1 l2 ->
  Permutation (map fst (successes w l1)) (map fst (successes w l2)).
Proof.
  induction 1 as [|x l l' _ IH|x y l|l l' l'' _ IH1 _ IH2]; simpl.
  - constructor.
  - destruct (task_outcome w x); simpl; [now constructor | exact IH].
  - destruct (task_outcome w x), (task_outcome w y); simpl;
      try apply Permutation_refl. apply perm_swap.
  - now transitivity (map fst (successes w l')).
Qed.

(* ===================================================================== *)
(** ** File ingestion: claims *)
(* ===================================================================== *)

(** C2 (as stated, refuted). A caller who is signed in but has no row in
    the user table (the Clerk event has not arrived, or failed), on a
    database that satisfies the foreign keys, with three file URLs: the
    insert of the case study is refused by the foreign key of
    [case_studies.user_id], the action throws, no CaseStudy row is inserted
    and not one of the three downloads is attempted. *)
Lemma createCaseStudy_without_user_row :
  truthy (auth_userId world_bob) = true
  /\ fk_consistent (db_one_file "processing")
  /\ List.length (fileUrls new_study) = 3%nat
  /\ (exists e,
        createCaseStudy world_bob new_study
                        (sys_of (db_one_file "processing"))
        = (Throws e, sys_of (db_one_file "processing")))
  /\ caseStudies
       (db (snd (createCaseStudy world_bob new_study
                   (sys_of (db_one_file "processing")))))
     = caseStudies (db_one_file "processing")
  /\ downloads
       (trace (snd (createCaseStudy world_bob new_study
                      (sys_of (db_one_file "processing")))))
     = [].
Proof.
  split; [reflexivity|]. split; [apply db_one_file_consistent|].
  split; [reflexivity|]. split; [eexists; vm_compute; reflexivity|].
  split; vm_compute; reflexivity.
Qed.

(** C2 (amended). For a caller who is signed in and has a row in the user
    table, and a batch of N
    file URLs whose tasks settle in any order: [createCaseStudy] returns the
    new case study; exactly one CaseStudy row is inserted and it is still
    there at the end; the downloads attempted are the N URLs, each as often
    as it occurs in the list (no retry); the File rows inserted are those of
    the URLs whose download and submission succeed, all in status
    ['processing'] under the new case study. In particular a URL whose task
    succeeds gets its File row whatever happens to the other URLs. *)
Theorem createCaseStudy_isolates_failures (w : World)
    (caseStudy : NewCaseStudy) (s : Sys) :
  truthy (auth_userId w) = true ->
  has_user (db s) (or_else (auth_userId w) "") = true ->
  Permutation (task_order w (fileUrls caseStudy)) (fileUrls caseStudy) ->
  let row := new_caseStudy_row w caseStudy (db s) in
  exists s',
    createCaseStudy w caseStudy s = (Returns row, s')
    /\ caseStudies (db s') = (caseStudies (db s) ++ [row])%list
    /\ (exists events,
           trace s' = (trace s ++ events)%list
           /\ Permutation (downloads events) (fileUrls caseStudy)
           /\ length (downloads events) = length (fileUrls caseStudy))
    /\ (exists rows,
           caseStudyFiles (db s') = (caseStudyFiles (db s) ++ rows)%list
           /\ Permutation (map f_file_url rows)
                          (map fst (successes w (fileUrls caseStudy)))
           /\ forall f, In f rows ->
                        f_case_study_id f = cs_id row
                        /\ f_status f = "processing")
    /\ (forall url result,
           In url (fileUrls caseStudy) ->
           task_outcome w url = Some result ->
           exists f,
             In f (caseStudyFiles (db s'))
             /\ f_file_url f = url
             /\ f_request_id f = api_request_id result
             /\ f_metadata f = Some (api_json result)
             /\ f_case_study_id f = cs_id row
             /\ f_status f = "processing").
Proof.
  intros Hauth Huser Hperm row.
  eexists. split; [exact (createCaseStudy_run w caseStudy s Hauth Huser)|].
  cbn [db bucket trace]. fold row.
  split; [reflexivity|]. split; [|split].
  - eexists. split; [reflexivity|].
    rewrite downloads_task_events. split; [exact Hperm|].
    now apply Permutation_length.
  - eexists. split; [reflexivity|]. split.
    + rewrite file_rows_urls. now apply successes_perm.
    + intros f Hin. exact (file_rows_fields _ _ _ _ Hin).
  - intros url result Hin Hout.
    assert (Hin' : In url (task_order w (fileUrls caseStudy)))
      by (eapply Permutation_in; [apply Permutation_sym; exact Hperm|exact Hin]).
    pose proof (successes_has w _ url result Hin' Hout) as Hs.
    destruct (file_rows_has (cs_id row) _ url result
                (N.succ (uuid_seed (db s))) Hs) as (f & Hf & Hrest).
    exists f. split; [|exact Hrest].
    simpl. apply in_or_app. now right.
Qed.

Lemma createCaseStudy_isolates_failures_witness :
  task_outcome world_ok "https://files.example/broken.pdf" = None
  /\ exists s',
       createCaseStudy world_ok new_study (sys_of (db_one_file "processing"))
       = (Returns (mkCaseStudy 2%N "user_1" "Replatforming" None
                               (Some "ACME") None), s')
       /\ caseStudies (db s')
          = [study;
             mkCaseStudy 2%N "user_1" "Replatforming" None (Some "ACME") None]
       /\ exists f,
            In f (caseStudyFiles (db s'))
            /\ f_file_url f = "https://files.example/c.pdf"
            /\ f_case_study_id f = 2%N
            /\ f_status f = "processing".
Proof.
  split; [reflexivity|].
  destruct (createCaseStudy_isolates_failures world_ok new_study
              (sys_of (db_one_file "processing")))
    as (s' & Hrun & Hrows & _ & _ & Hfiles).
  - reflexivity.
  - reflexivity.
  - apply Permutation_refl.
  - exists s'. split; [exact Hrun|]. split; [exact Hrows|].
    destruct (Hfiles "https://files.example/c.pdf" (submission "c.pdf"))
      as (f & Hin & Hurl & _ & _ & Hcs & Hst).
    + right; right; left; reflexivity.
    + reflexivity.
    + exists f. auto.
Defined.

(** C9. An extraction submission is one POST to the Marker endpoint whose
    form holds the file blob under its name and exactly the seven fixed
    options; the call throws when the response is not ok and when its
    [success] flag is false, and returns the response otherwise. Every
    submission [createCaseStudy] makes is of that form. *)
Theorem extraction_submission_form (w : World) (file : DownloadedFile)
    (s : Sys) :
  let request := marker_request w file in
  req_url request = "https://www.datalab.to/api/v1/marker"
  /\ req_method request = "POST"
  /\ req_body request
     = [ FormFile "file" (file_blob file) (file_name file);
         FormField "langs" "English";
         FormField "force_ocr" "false";
         FormField "paginate" "false";
         FormField "output_format" "markdown";
         FormField "use_llm" "false";
         FormField "strip_existing_ocr" "false";
         FormField "disable_image_extraction" "false" ]
  /\ trace (snd (processFileWithMarker w file s))
     = (trace s ++ [EvMarkerSubmit request])%list
  /\ (forall statusText content_type body,
         net_marker_submit w request
         = Response false statusText content_type body ->
         fst (processFileWithMarker w file s)
         = Throws ("Marker API error: " ++ statusText))
  /\ (forall statusText content_type result,
         net_marker_submit w request
         = Response true statusText content_type (Returns result) ->
         api_success result = false ->
         fst (processFileWithMarker w file s)
         = Throws ("Marker API error: " ++ template_text (api_error result)))
  /\ (forall statusText content_type result,
         net_marker_submit w request
         = Response true statusText content_type (Returns result) ->
         api_success result = true ->
         fst (processFileWithMarker w file s) = Returns result)
  /\ (forall caseStudy s0 sent,
         In (EvMarkerSubmit sent)
            (trace (snd (createCaseStudy w caseStudy s0))) ->
         In (EvMarkerSubmit sent) (trace s0)
         \/ exists file', sent = marker_request w file'
                          /\ req_body sent = marker_form file').
Proof.
  intro request.
  split; [reflexivity|]. split; [reflexivity|]. split; [reflexivity|].
  split.
  { destruct (processFileWithMarker_run w file s) as (r & -> & _).
    reflexivity. }
  split.
  { intros st ct body Hnet.
    unfold processFileWithMarker, bind, emit, throw. fold request.
    now rewrite Hnet. }
  split.
  { intros st ct result Hnet Hs.
    unfold processFileWithMarker, bind, emit, throw. fold request.
    rewrite Hnet; simpl. now rewrite Hs. }
  split.
  { intros st ct result Hnet Hs.
    unfold processFileWithMarker, bind, emit, throw. fold request.
    rewrite Hnet; simpl. now rewrite Hs. }
  intros caseStudy s0 sent Hin.
  destruct (createCaseStudy_trace w caseStudy s0) as (urls & Htr).
  rewrite Htr in Hin. apply in_app_or in Hin as [Hin|Hin]; [now left|].
  right. apply in_flat_map in Hin as (url & _ & Hin).
  unfold task_events in Hin. destruct Hin as [Hin|Hin]; [discriminate|].
  destruct (fetched_file w url) as [file'|]; [|contradiction].
  destruct Hin as [[= <-]|[]]. exists file'. split; reflexivity.
Qed.

Lemma extraction_submission_form_witness :
  fst (processFileWithMarker world_marker_down
         (mkDownloadedFile [] "application/pdf" "a.pdf")
         (sys_of (db_one_file "processing")))
  = Throws "Marker API error: Service Unavailable".
Proof.
  destruct (extraction_submission_form world_marker_down
              (mkDownloadedFile [] "application/pdf" "a.pdf")
              (sys_of (db_one_file "processing")))
    as (_ & _ & _ & _ & Hnot_ok & _).
  exact (Hnot_ok "Service Unavailable" None (Throws "no body") eq_refl).
Defined.

(* ===================================================================== *)
(** ** Case-study actions: facts and claims *)
(* ===================================================================== *)

(** The text [show_uuid] writes for a key stands for that key. *)
Lemma parse_show_uuid (u : Uuid) : parse_uuid (show_uuid u) = Some u.
Proof.
  unfold parse_uuid, show_uuid.
  rewrite NilEmpty.usu. simpl. rewrite Unsigned.of_to.
  destruct (NilEmpty.string_of_uint (N.to_uint u) =? "") eqn:E;
    [|reflexivity].
  exfalso. apply String.eqb_eq in E.
  pose proof (NilEmpty.usu (N.to_uint u)) as H. rewrite E in H.
  simpl in H. injection H as H.
  pose proof (Unsigned.of_to u) as Hu. rewrite <- H in Hu. simpl in Hu.
  subst u. discriminate.
Qed.

(** [deleteCaseStudy] on a text that stands for a key. *)
Lemma deleteCaseStudy_parsed (w : World) (id : string) (key : Uuid)
    (s : Sys) :
  truthy (auth_userId w) = true ->
  parse_uuid id = Some key ->
  deleteCaseStudy w id s =
  if has_caseStudy (db s) key then
    if image_references_file_of (db s) key
    then (Throws "Failed to delete case study", s)
    else (Returns true,
          mkSys (without_caseStudy (db s) key) (bucket s) (trace s))
  else (Returns true, s).
Proof.
  intros Hauth Hkey.
  unfold deleteCaseStudy. rewrite Hauth; simpl.
  unfold try_catch, bind, run_stmt, delete_caseStudies_by_id.
  rewrite Hkey.
  fold (image_references_file_of (db s) key).
  destruct (has_caseStudy (db s) key); simpl.
  - destruct (image_references_file_of (db s) key); simpl.
    + now rewrite sys_eta.
    + reflexivity.
  - now rewrite sys_eta.
Qed.

Lemma deleteCaseStudy_run (w : World) (id : Uuid) (s : Sys) :
  truthy (auth_userId w) = true ->
  deleteCaseStudy w (show_uuid id) s =
  if has_caseStudy (db s) id then
    if image_references_file_of (db s) id
    then (Throws "Failed to delete case study", s)
    else (Returns true,
          mkSys (without_caseStudy (db s) id) (bucket s) (trace s))
  else (Returns true, s).
Proof.
  intro Hauth.
  exact (deleteCaseStudy_parsed w (show_uuid id) id s Hauth
           (parse_show_uuid id)).
Qed.

(** [saveCaseStudy] on a text that stands for a key, and on one that
    stands for none: the statement is rejected and the [catch] rethrows. *)
Lemma saveCaseStudy_parsed (w : World) (id : string) (key : Uuid)
    (summary : string) (s : Sys) :
  truthy (auth_userId w) = true ->
  parse_uuid id = Some key ->
  saveCaseStudy w id summary s
  = (Returns true,
     mkSys (with_caseStudies (db s) (described key summary (db s)))
           (bucket s) (trace s)).
Proof.
  intros Hauth Hkey. unfold saveCaseStudy. rewrite Hauth; simpl.
  unfold try_catch, bind, run_stmt, update_caseStudy_description.
  now rewrite Hkey.
Qed.

Lemma saveCaseStudy_run (w : World) (id : Uuid) (summary : string) (s : Sys) :
  truthy (auth_userId w) = true ->
  saveCaseStudy w (show_uuid id) summary s
  = (Returns true,
     mkSys (with_caseStudies (db s) (described id summary (db s)))
           (bucket s) (trace s)).
Proof.
  intro Hauth.
  exact (saveCaseStudy_parsed w (show_uuid id) id summary s Hauth
           (parse_show_uuid id)).
Qed.

Lemma saveCaseStudy_malformed (w : World) (id : string) (summary : string)
    (s : Sys) :
  truthy (auth_userId w) = true ->
  parse_uuid id = None ->
  saveCaseStudy w id summary s = (Throws "Failed to save case study", s).
Proof.
  intros Hauth Hkey. unfold saveCaseStudy. rewrite Hauth; simpl.
  unfold try_catch, bind, run_stmt, update_caseStudy_description.
  rewrite Hkey. simpl. now rewrite sys_eta.
Qed.

(** A save leaves the state as it is or rewrites the case-study table. *)
Lemma saveCaseStudy_cases (w : World) (id : string) (summary : string)
    (s : Sys) :
  snd (saveCaseStudy w id summary s) = s
  \/ exists key,
       parse_uuid id = Some key
       /\ snd (saveCaseStudy w id summary s)
          = mkSys (with_caseStudies (db s) (described key summary (db s)))
                  (bucket s) (trace s).
Proof.
  destruct (truthy (auth_userId w)) eqn:Hauth.
  - destruct (parse_uuid id) as [key|] eqn:Hkey.
    + right. exists key. split; [reflexivity|].
      now rewrite (saveCaseStudy_parsed w id key summary s Hauth Hkey).
    + left. now rewrite (saveCaseStudy_malformed w id summary s Hauth Hkey).
  - left. unfold saveCaseStudy. now rewrite Hauth.
Qed.

(** [deleteCaseStudy] on a text that stands for no key: the statement is
    rejected and the [catch] rethrows. *)
Lemma deleteCaseStudy_malformed (w : World) (id : string) (s : Sys) :
  truthy (auth_userId w) = true ->
  parse_uuid id = None ->
  deleteCaseStudy w id s = (Throws "Failed to delete case study", s).
Proof.
  intros Hauth Hkey.
  unfold deleteCaseStudy. rewrite Hauth; simpl.
  unfold try_catch, bind, run_stmt, delete_caseStudies_by_id.
  rewrite Hkey. simpl. now rewrite sys_eta.
Qed.

Lemma no_reference_file_survives (d : Db) (id : Uuid) (i : CaseStudyImage) :
  image_references_file_of d id = false ->
  In i (caseStudyImages d) ->
  has_file d (img_file_id i) = true ->
  has_file (without_caseStudy d id) (img_file_id i) = true.
Proof.
  unfold image_references_file_of, has_file. intros Href Hin Hfile.
  apply existsb_exists in Hfile as (f & Hf & Hid).
  apply existsb_exists. exists f. split; [|exact Hid].
  simpl. apply filter_In. split; [exact Hf|].
  destruct (N.eqb (f_case_study_id f) id) eqn:Hdoomed; [|reflexivity].
  exfalso.
  assert (Hex : existsb (fun i0 =>
                  existsb (fun f0 => N.eqb (f_case_study_id f0) id
                                     && N.eqb (f_id f0) (img_file_id i0))
                          (caseStudyFiles d)) (caseStudyImages d) = true).
  { apply existsb_exists. exists i. split; [exact Hin|].
    apply existsb_exists. exists f. split; [exact Hf|].
    now rewrite Hdoomed, Hid. }
  congruence.
Qed.

(** C7 (as stated, refuted). A case study with one file; the webhook
    delivers its result with two images, so two Image rows reference the
    file. Deleting the case study is then rejected: [deleteCaseStudy]
    throws, the File row is still there, nothing was deleted and no image
    was orphaned. *)
Lemma delete_with_image_is_rejected :
  let s := run [OpWebhook world_ok (Parsed delivery)]
               (sys_of (db_one_file "processing")) in
  map img_file_id (caseStudyImages (db s)) = [1%N; 1%N]
  /\ map f_id (files_of (db s) 0%N) = [1%N]
  /\ deleteCaseStudy world_ok (show_uuid 0%N) s = (Throws "Failed to delete case study", s)
  /\ files_of (db (snd (deleteCaseStudy world_ok (show_uuid 0%N) s))) 0%N
     = files_of (db s) 0%N
  /\ has_caseStudy (db (snd (deleteCaseStudy world_ok (show_uuid 0%N) s))) 0%N = true.
Proof. repeat split; reflexivity. Qed.

(** C7 (amended). Deleting an existing case study, for a signed-in caller:
    - when no Image row references one of its File rows, the case study,
      all of its File rows and all of its Summary rows are removed, every
      other row is kept, and the image table is untouched with every image
      still having its file;
    - when some Image row references one of its File rows, the foreign key
      of [case_study_images] ([ON DELETE no action]) rejects the statement:
      [deleteCaseStudy] throws "Failed to delete case study" and no row of
      any table is removed. *)
Theorem deleteCaseStudy_effect (w : World) (id : Uuid) (s : Sys) :
  truthy (auth_userId w) = true ->
  has_caseStudy (db s) id = true ->
  (image_references_file_of (db s) id = false ->
   exists s',
     deleteCaseStudy w (show_uuid id) s = (Returns true, s')
     /\ has_caseStudy (db s') id = false
     /\ files_of (db s') id = []
     /\ summaries_of (db s') id = []
     /\ (forall f, In f (caseStudyFiles (db s')) <->
                   In f (caseStudyFiles (db s)) /\ f_case_study_id f <> id)
     /\ (forall m, In m (caseStudySummaries (db s')) <->
                   In m (caseStudySummaries (db s))
                   /\ sum_case_study_id m <> id)
     /\ caseStudyImages (db s') = caseStudyImages (db s)
     /\ (forall i, In i (caseStudyImages (db s)) ->
                   has_file (db s) (img_file_id i) = true ->
                   has_file (db s') (img_file_id i) = true))
  /\ (image_references_file_of (db s) id = true ->
      deleteCaseStudy w (show_uuid id) s = (Throws "Failed to delete case study", s)).
Proof.
  intros Hauth Hcs.
  rewrite (deleteCaseStudy_run w id s Hauth), Hcs.
  split; intro Href; rewrite Href; [|reflexivity].
  eexists. split; [reflexivity|]. cbn [db].
  assert (Hfilter : forall A (p : A -> bool) (l : list A),
             filter p (filter (fun x => negb (p x)) l) = []).
  { intros A p l. induction l as [|x l IH]; simpl; [reflexivity|].
    destruct (p x) eqn:E; simpl; [exact IH|]. now rewrite E. }
  split.
  { unfold has_caseStudy; simpl.
    induction (caseStudies (db s)) as [|c l IH]; simpl; [reflexivity|].
    destruct (N.eqb (cs_id c) id) eqn:E; simpl; [apply IH|].
    rewrite E. apply IH. }
  split; [apply Hfilter|]. split; [apply Hfilter|].
  split.
  { intro f. simpl. rewrite filter_In, negb_true_iff, N.eqb_neq. tauto. }
  split.
  { intro m. simpl. rewrite filter_In, negb_true_iff, N.eqb_neq. tauto. }
  split; [reflexivity|].
  intros i Hin Hfile. exact (no_reference_file_survives (db s) id i Href Hin Hfile).
Qed.

Lemma deleteCaseStudy_effect_witness :
  deleteCaseStudy world_ok (show_uuid 0%N) (sys_of db_with_image)
  = (Throws "Failed to delete case study", sys_of db_with_image)
  /\ exists s',
       deleteCaseStudy world_ok (show_uuid 0%N) (sys_of (db_one_file "complete"))
       = (Returns true, s')
       /\ files_of (db s') 0%N = [].
Proof.
  split.
  - apply (proj2 (deleteCaseStudy_effect world_ok 0%N (sys_of db_with_image)
                    eq_refl eq_refl)).
    reflexivity.
  - destruct (proj1 (deleteCaseStudy_effect world_ok 0%N
                       (sys_of (db_one_file "complete")) eq_refl eq_refl)
                eq_refl)
      as (s' & Hrun & _ & Hfiles & _).
    exists s'. split; [exact Hrun | exact Hfiles].
Defined.

Lemma get_or_empty_push (m : ImageMap) (k' k : Uuid) (image : CaseStudyImage) :
  get_or_empty (imageMap_push m k' image) k
  = (get_or_empty m k ++ (if N.eqb k' k then [image] else []))%list.
Proof.
  unfold get_or_empty.
  induction m as [|[k0 v] rest IH]; simpl.
  - destruct (N.eqb k' k); reflexivity.
  - destruct (N.eqb_spec k0 k') as [->|Hne]; simpl.
    + destruct (N.eqb k' k); [reflexivity | now rewrite app_nil_r].
    + destruct (N.eqb_spec k0 k) as [->|Hne']; [|exact IH].
      destruct (N.eqb_spec k' k) as [->|_]; [now elim Hne|].
      now rewrite app_nil_r.
Qed.

Lemma get_or_empty_fold (images : list CaseStudyImage) (k : Uuid) :
  forall m : ImageMap,
    get_or_empty
      (fold_left (fun m image => imageMap_push m (img_file_id image) image)
                 images m) k
    = (get_or_empty m k
       ++ filter (fun i => N.eqb (img_file_id i) k) images)%list.
Proof.
  induction images as [|i l IH]; intro m; simpl.
  - now rewrite app_nil_r.
  - rewrite IH, get_or_empty_push.
    destruct (N.eqb (img_file_id i) k); simpl.
    + now rewrite <- app_assoc.
    + now rewrite app_nil_r.
Qed.

Lemma filter_filter_implied {A} (p q : A -> bool) (l : list A) :
  (forall x, p x = true -> q x = true) ->
  filter p (filter q l) = filter p l.
Proof.
  intro H. induction l as [|x l IH]; simpl; [reflexivity|].
  destruct (q x) eqn:Eq; simpl.
  - now rewrite IH.
  - destruct (p x) eqn:Ep; [|exact IH].
    rewrite (H x Ep) in Eq. discriminate.
Qed.

Lemma getCaseStudyById_run (w : World) (id : Uuid) (s : Sys) :
  getCaseStudyById w id s =
  match caseStudy_with_id (db s) id with
  | None => (Throws "Case study not found", s)
  | Some caseStudy =>
      (Returns
         (mkCaseStudyWithFiles caseStudy
            (map (fun f => (f, images_of (db s) (f_id f))) (files_of (db s) id))
            (match files_of (db s) id with
             | [] => []
             | _ :: _ => summaries_of (db s) id
             end)),
       s)
  end.
Proof.
  destruct s as [d bk tr].
  unfold getCaseStudyById, caseStudy_with_id, bind, run_stmt,
    select_caseStudies_by_id, select_files_by_caseStudy,
    select_summaries_by_caseStudy, select_images_in_files, ret, throw.
  cbn [db bucket trace].
  destruct (filter _ (caseStudies d)) as [|caseStudy rest]; simpl;
    [reflexivity|].
  fold (files_of d id) (summaries_of d id).
  destruct (files_of d id) as [|f0 fs] eqn:Hfiles; [reflexivity|].
  cbn [db bucket trace].
  do 3 f_equal.
  apply map_ext_in. intros f Hin. f_equal.
  fold (get_or_empty
          (group_images
             (filter (fun i => existsb (N.eqb (img_file_id i))
                                       (map f_id (f0 :: fs)))
                     (caseStudyImages d)))
          (f_id f)).
  unfold group_images. rewrite get_or_empty_fold.
  cbn [get_or_empty imageMap_get app].
  unfold images_of. apply filter_filter_implied.
  intros i Hi. apply N.eqb_eq in Hi. apply existsb_exists.
  exists (f_id f). split; [now apply in_map | now apply N.eqb_eq].
Qed.

(** C10. A case study created with no file, then summarised with
    [createOnePager]: it has a summary and no File row. Asked for by a
    caller who is not signed in, [getCaseStudyById] answers, as the
    specification says, but the early return for a case study without files
    answers with an empty summary list although the case study has a
    summary, where the full case study is to come back with its
    summaries. *)
Theorem file_less_case_study_loses_summaries :
  let s := run [OpCreateCaseStudy world_ok
                  (mkNewCaseStudy "Notes only" None None []);
                OpCreateOnePager world_ok "meeting notes" 2%N]
               (sys_of (db_one_file "complete")) in
  files_of (db s) 2%N = []
  /\ summaries_of (db s) 2%N
     = [mkSummary 3%N 2%N "Summary of meeting notes"]
  /\ getCaseStudyById world_signed_out 2%N s
     = (Returns (mkCaseStudyWithFiles
                   (mkCaseStudy 2%N "user_1" "Notes only" None None None)
                   [] []),
        s).
Proof. repeat split; reflexivity. Qed.

(** What holds of C10 on every input. [getCaseStudyById] never asks who
    the caller is: run in
    two worlds that differ in any way (another signed-in user, nobody signed
    in) on the same state and id, it gives the same result. For an existing
    id it returns the case study with all of its files, each with all of its
    images, and, when the case study has at least one file, all of its
    summaries. Every other server action refuses a caller who is not signed
    in with "User not authenticated". *)
Theorem getCaseStudyById_ignores_caller (w1 w2 : World) (id : Uuid) (s : Sys) :
  getCaseStudyById w1 id s = getCaseStudyById w2 id s
  /\ (forall caseStudy,
         caseStudy_with_id (db s) id = Some caseStudy ->
         exists r,
           getCaseStudyById w1 id s = (Returns r, s)
           /\ cwf_caseStudy r = caseStudy
           /\ cwf_files r
              = map (fun f => (f, images_of (db s) (f_id f)))
                    (files_of (db s) id)
           /\ (files_of (db s) id <> [] ->
               cwf_summaries r = summaries_of (db s) id))
  /\ (truthy (auth_userId w1) = false ->
      getAllCaseStudies w1 s = (Throws "User not authenticated", s)
      /\ (forall caseStudy,
             createCaseStudy w1 caseStudy s
             = (Throws "User not authenticated", s))
      /\ (forall summary,
             saveCaseStudy w1 (show_uuid id) summary s
             = (Throws "User not authenticated", s))
      /\ deleteCaseStudy w1 (show_uuid id) s = (Throws "User not authenticated", s)
      /\ getCaseStudySummary w1 id s = (Throws "User not authenticated", s)
      /\ (forall fileContent,
             createOnePager w1 fileContent id s
             = (Throws "User not authenticated", s))).
Proof.
  split; [reflexivity|]. split.
  - intros caseStudy Hcs. rewrite getCaseStudyById_run, Hcs.
    eexists. split; [reflexivity|]. simpl.
    split; [reflexivity|]. split; [reflexivity|].
    destruct (files_of (db s) id); [intro H; now elim H | reflexivity].
  - intro Hauth.
    unfold getAllCaseStudies, createCaseStudy, saveCaseStudy, deleteCaseStudy,
      getCaseStudySummary, createOnePager.
    rewrite Hauth; simpl. repeat split.
Qed.

Lemma getCaseStudyById_ignores_caller_witness :
  exists r,
    getCaseStudyById world_signed_out 0%N (sys_of db_with_image)
    = (Returns r, sys_of db_with_image)
    /\ cwf_caseStudy r = study
    /\ cwf_files r = [(file_a "complete", [image_a])]
    /\ deleteCaseStudy world_signed_out (show_uuid 0%N) (sys_of db_with_image)
       = (Throws "User not authenticated", sys_of db_with_image).
Proof.
  destruct (getCaseStudyById_ignores_caller world_signed_out world_bob 0%N
              (sys_of db_with_image)) as (_ & Hget & Hothers).
  destruct (Hget study eq_refl) as (r & Hrun & Hcs & Hfiles & _).
  destruct (Hothers eq_refl) as (_ & _ & _ & Hdel & _).
  exists r. split; [exact Hrun|]. split; [exact Hcs|].
  split; [exact Hfiles | exact Hdel].
Defined.

(* ===================================================================== *)
(** ** The life of a File row: facts and claim *)
(* ===================================================================== *)

Lemma files_step_same (rewrite : CaseStudyFile -> CaseStudyFile -> Prop)
    (s s' : Sys) :
  caseStudyFiles (db s') = caseStudyFiles (db s) ->
  N.le (uuid_seed (db s)) (uuid_seed (db s')) ->
  files_step rewrite s s'.
Proof.
  intros Hfiles Hseed. split; [exact Hseed|].
  intros f' Hin. left. now rewrite <- Hfiles.
Qed.

Lemma file_rows_ids (caseStudyId : Uuid)
    (done : list (string * MarkerApiResponse)) (f : CaseStudyFile) :
  forall seed,
    In f (file_rows caseStudyId seed done) ->
    N.le seed (f_id f)
    /\ N.lt (f_id f) (seed + N.of_nat (length done))%N
    /\ f_status f = "processing".
Proof.
  induction done as [|[u r] l IH]; intros seed Hin; simpl in Hin;
    [contradiction|].
  destruct Hin as [<-|Hin]; simpl f_id; simpl f_status.
  - simpl length. split; [lia|]. split; [lia | reflexivity].
  - destruct (IH _ Hin) as (H1 & H2 & H3). simpl length.
    split; [lia|]. split; [lia | exact H3].
Qed.

Lemma createCaseStudy_files_step (rewrite : CaseStudyFile -> CaseStudyFile -> Prop)
    (w : World) (caseStudy : NewCaseStudy) (s : Sys) :
  files_step rewrite s (snd (createCaseStudy w caseStudy s)).
Proof.
  destruct (truthy (auth_userId w)) eqn:Hauth.
  - destruct (has_user (db s) (or_else (auth_userId w) "")) eqn:Huser.
    + rewrite (createCaseStudy_run w caseStudy s Hauth Huser).
      cbn [snd db]. split.
      * simpl. lia.
      * intros f' Hin. simpl in Hin. apply in_app_or in Hin as [Hin|Hin];
          [now left|].
        right; right. apply file_rows_ids in Hin as (H1 & H2 & H3).
        simpl. rewrite file_rows_length.
        split; [lia|]. split; [lia | exact H3].
    + apply files_step_same.
      * unfold createCaseStudy. rewrite Hauth; simpl.
        unfold bind, run_stmt, insert_caseStudy. now rewrite Huser.
      * unfold createCaseStudy. rewrite Hauth; simpl.
        unfold bind, run_stmt, insert_caseStudy. rewrite Huser. simpl. lia.
  - apply files_step_same; unfold createCaseStudy; rewrite Hauth; simpl;
      [reflexivity | lia].
Qed.

Lemma processImages_seed (w : World) (file : CaseStudyFile)
    (result : MarkerResponse) (s : Sys) :
  has_file (db s) (f_id file) = true ->
  N.le (uuid_seed (db s)) (uuid_seed (db (snd (processImages w file result s)))).
Proof.
  intros Hfile. rewrite processImages_run.
  destruct (image_entries result) as [|e es]; [simpl; lia|].
  destruct (parent_of (db s) file) as [caseStudy|]; [|simpl; lia].
  destruct (for_of_processImage w (cs_user_id caseStudy) file (e :: es)
              s Hfile) as (s' & Hrun & Hdb & _).
  rewrite Hrun; simpl. rewrite Hdb; simpl. lia.
Qed.

Lemma fetched_result_valid (w : World) (body : WebhookBody)
    (requestId url : string) (result : MarkerResponse) :
  valid_delivery w body requestId url ->
  result_fetched w url result ->
  fetched_result w (Parsed body) = Some result.
Proof.
  intros (Hsec & Htr & Hid & Hidne & Hurl & Hurlne) [(st & ct & Hnet) Hok].
  unfold fetched_result. rewrite Htr, <- Hsec; simpl.
  assert (Hneq : strict_neq (webhook_secret body) (webhook_secret body) = false).
  { destruct (webhook_secret body) as [x|]; simpl; [|reflexivity].
    now rewrite String.eqb_refl. }
  rewrite Hneq, Hid, Hurl; simpl.
  apply String.eqb_neq in Hidne, Hurlne.
  rewrite Hidne; simpl.
  unfold or_else at 1; simpl. rewrite Hurlne; simpl.
  now rewrite Hnet, Hok.
Qed.

Lemma POST_files_step (w : World) (request : Request) (s : Sys) :
  files_step (op_rewrite (OpWebhook w request)) s (snd (POST w request s)).
Proof.
  destruct request as [message| |body];
    [apply files_step_same; simpl; [reflexivity | lia] ..|].
  destruct (POST_cases w body s)
    as [Hsame | (requestId & url & result & first & rest & Hv & Hf & Hhit)].
  - apply files_step_same; rewrite Hsame; [reflexivity | lia].
  - split.
    + rewrite (POST_run_valid w body requestId url result first rest s
                 Hv Hf Hhit).
      assert (Hfile : has_file (db (after_update w requestId url result s))
                               (f_id (updated_row result first)) = true).
      { simpl. rewrite has_file_updated.
        exact (hit_rows_has_file requestId (db s) first rest Hhit). }
      pose proof (processImages_seed w (updated_row result first) result
                    (after_update w requestId url result s) Hfile) as Hseed.
      destruct (processImages _ _ _ _) as [[u|e] s']; simpl in *; exact Hseed.
    + intros f' Hin.
      rewrite (POST_valid_files w body requestId url result s Hv Hf) in Hin.
      apply updated_files_In in Hin as (f & Hin & ->).
      destruct (f_request_id f =? requestId); [|now left].
      right; left. exists f. split; [exact Hin|].
      exists result. split; [|reflexivity].
      exact (fetched_result_valid w body requestId url result Hv Hf).
Qed.

Lemma deleteCaseStudy_files_step
    (rewrite : CaseStudyFile -> CaseStudyFile -> Prop)
    (w : World) (id : string) (s : Sys) :
  files_step rewrite s (snd (deleteCaseStudy w id s)).
Proof.
  destruct (truthy (auth_userId w)) eqn:Hauth.
  - destruct (parse_uuid id) as [key|] eqn:Hkey.
    + rewrite (deleteCaseStudy_parsed w id key s Hauth Hkey).
      destruct (has_caseStudy (db s) key);
        [|apply files_step_same; simpl; [reflexivity | lia]].
      destruct (image_references_file_of (db s) key);
        [apply files_step_same; simpl; [reflexivity | lia]|].
      split; [simpl; lia|].
      intros f' Hin. left. simpl in Hin. now apply filter_In in Hin.
    + rewrite (deleteCaseStudy_malformed w id s Hauth Hkey).
      apply files_step_same; simpl; [reflexivity | lia].
  - apply files_step_same; unfold deleteCaseStudy; rewrite Hauth; simpl;
      [reflexivity | lia].
Qed.

Lemma saveCaseStudy_files_step
    (rewrite : CaseStudyFile -> CaseStudyFile -> Prop)
    (w : World) (id : string) (summary : string) (s : Sys) :
  files_step rewrite s (snd (saveCaseStudy w id summary s)).
Proof.
  destruct (saveCaseStudy_cases w id summary s) as [-> | (key & _ & ->)];
    apply files_step_same; simpl; try reflexivity; lia.
Qed.

Lemma createOnePager_files_step
    (rewrite : CaseStudyFile -> CaseStudyFile -> Prop)
    (w : World) (fileContent : string) (id : Uuid) (s : Sys) :
  files_step rewrite s (snd (createOnePager w fileContent id s)).
Proof.
  unfold createOnePager, geminiTextCompletion.
  destruct (truthy (auth_userId w)); simpl;
    [|apply files_step_same; simpl; [reflexivity | lia]].
  unfold bind, run_stmt, insert_caseStudySummary.
  destruct (gemini_text w fileContent) as [text|e]; simpl;
    [|apply files_step_same; simpl; [reflexivity | lia]].
  destruct (has_caseStudy (db s) id); simpl;
    apply files_step_same; simpl; try reflexivity; lia.
Qed.

Lemma createUserProfile_files_step
    (rewrite : CaseStudyFile -> CaseStudyFile -> Prop)
    (id name email : string) (s : Sys) :
  files_step rewrite s (snd (createUserProfile id name email s)).
Proof.
  unfold createUserProfile, run_stmt, insert_user.
  destruct (_ || _); simpl; apply files_step_same; simpl;
    try reflexivity; lia.
Qed.

(** Every request changes the file table in one of the three ways. *)
Lemma step_files_step (op : Op) (s : Sys) :
  files_step (op_rewrite op) s (step s op).
Proof.
  destruct op; simpl step.
  - apply createUserProfile_files_step.
  - apply createCaseStudy_files_step.
  - apply POST_files_step.
  - apply saveCaseStudy_files_step.
  - apply deleteCaseStudy_files_step.
  - apply createOnePager_files_step.
Qed.

Lemma op_rewrite_id (op : Op) (f f' : CaseStudyFile) :
  op_rewrite op f f' -> f_id f' = f_id f.
Proof.
  destruct op; simpl; try contradiction.
  intros (result & _ & ->). reflexivity.
Qed.

Lemma step_ids_below_seed (op : Op) (s : Sys) :
  ids_below_seed (db s) -> ids_below_seed (db (step s op)).
Proof.
  intros Hinv f' Hin.
  destruct (step_files_step op s) as [Hseed Hrows].
  destruct (Hrows f' Hin) as [Hold | [(f & Hf & Hrw) | (_ & Hlt & _)]].
  - specialize (Hinv f' Hold). lia.
  - rewrite (op_rewrite_id op f f' Hrw). specialize (Hinv f Hf). lia.
  - exact Hlt.
Qed.

Lemma step_all_complete (op : Op) (s : Sys) (fileId : Uuid) :
  results_complete [op] ->
  N.lt fileId (uuid_seed (db s)) ->
  all_complete s fileId ->
  all_complete (step s op) fileId.
Proof.
  intros Hres Hlt Hall f' Hin Hid.
  destruct (step_files_step op s) as [Hseed Hrows].
  destruct (Hrows f' Hin) as [Hold | [(f & Hf & Hrw) | (Hge & _ & _)]].
  - exact (Hall f' Hold Hid).
  - destruct op as [| |w request| | |]; simpl in Hrw; try contradiction.
    destruct Hrw as (result & Hfetch & ->). simpl.
    apply (Hres w request result); [now left | exact Hfetch].
  - lia.
Qed.

Lemma run_all_complete (ops : list Op) :
  forall (s : Sys) (fileId : Uuid),
    results_complete ops ->
    N.lt fileId (uuid_seed (db s)) ->
    all_complete s fileId ->
    all_complete (run ops s) fileId.
Proof.
  induction ops as [|op rest IH]; intros s fileId Hres Hlt Hall;
    [exact Hall|].
  simpl. apply IH.
  - intros w body result Hin. apply Hres. now right.
  - destruct (step_files_step op s) as [Hseed _]. lia.
  - apply step_all_complete; [|exact Hlt|exact Hall].
    intros w body result [Hin|[]]. apply Hres. now left.
Qed.

Lemma find_file_In (s : Sys) (fileId : Uuid) (f : CaseStudyFile) :
  find_file s fileId = Some f ->
  In f (caseStudyFiles (db s)) /\ f_id f = fileId.
Proof.
  unfold find_file. intro H. apply find_some in H as [Hin Hid].
  split; [exact Hin | now apply N.eqb_eq].
Qed.

Lemma find_unique (l : list CaseStudyFile) (fileId : Uuid)
    (f : CaseStudyFile) :
  NoDup (map f_id l) ->
  find (fun x => N.eqb (f_id x) fileId) l = Some f ->
  forall f', In f' l -> f_id f' = fileId -> f' = f.
Proof.
  induction l as [|x l IH]; simpl; intros Hnd Hfind f' Hin Hid;
    [contradiction|].
  inversion Hnd as [|? ? Hnotin Hnd']; subst.
  destruct (N.eqb_spec (f_id x) (f_id f')) as [Heq|Hne].
  - injection Hfind as <-. destruct Hin as [->|Hin]; [reflexivity|].
    elim Hnotin. rewrite Heq. now apply in_map.
  - destruct Hin as [->|Hin]; [now elim Hne|].
    exact (IH Hnd' Hfind f' Hin eq_refl).
Qed.

(** C5 (as stated, refuted). A File row in ['processing']; a first webhook
    delivery fetches a result that says ['complete'] and the row is
    ['complete']; a second delivery for the same request fetches a
    successful result that says ['processing']: the row is ['processing']
    again. *)
Lemma complete_file_regresses :
  let s1 := run [OpWebhook world_ok (Parsed delivery)]
                (sys_of (db_one_file "processing")) in
  file_status s1 1%N = Some "complete"
  /\ fetched_result world_processing (Parsed delivery) = Some result_processing
  /\ file_status (run [OpWebhook world_processing (Parsed delivery)] s1) 1%N
     = Some "processing".
Proof. repeat split; reflexivity. Qed.

(** C5 (amended). The webhook copies the status string of the fetched
    result into the row. Over any sequence of requests of the system (user
    profile creation, case-study creation with its file ingestion, webhook
    deliveries, saves, deletions, summaries) in which every result a webhook
    fetches says ['complete'], a File row that is ['complete'] stays
    ['complete'] for as long as it exists. Requests other than the webhook
    never rewrite an existing File row: they leave it, delete it, or insert
    new rows, and new rows start in ['processing']. *)
Theorem complete_status_is_stable (ops : list Op) (s : Sys) (fileId : Uuid) :
  primary_keys_ok (db s) ->
  results_complete ops ->
  file_status s fileId = Some "complete" ->
  (file_status (run ops s) fileId = Some "complete"
   \/ file_status (run ops s) fileId = None)
  /\ (forall op s0 f',
         is_webhook op = false ->
         In f' (caseStudyFiles (db (step s0 op))) ->
         In f' (caseStudyFiles (db s0))
         \/ (N.le (uuid_seed (db s0)) (f_id f')
             /\ f_status f' = "processing")).
Proof.
  intros [Hnd Hbelow] Hres Hstatus. split.
  - unfold file_status in Hstatus.
    destruct (find_file s fileId) as [f|] eqn:Hfind; [|discriminate].
    injection Hstatus as Hst.
    destruct (find_file_In s fileId f Hfind) as [Hin Hid].
    assert (Hall : all_complete s fileId).
    { intros f' Hin' Hid'.
      now rewrite (find_unique (caseStudyFiles (db s)) fileId f Hnd Hfind
                     f' Hin' Hid'). }
    assert (Hlt : N.lt fileId (uuid_seed (db s)))
      by (rewrite <- Hid; exact (Hbelow f Hin)).
    pose proof (run_all_complete ops s fileId Hres Hlt Hall) as Hfinal.
    unfold file_status.
    destruct (find_file (run ops s) fileId) as [f'|] eqn:Hfind'; [|now right].
    left. destruct (find_file_In _ _ _ Hfind') as [Hin' Hid'].
    simpl. now rewrite (Hfinal f' Hin' Hid').
  - intros op s0 f' Hop Hin.
    destruct (step_files_step op s0) as [_ Hrows].
    destruct (Hrows f' Hin) as [Hold | [(f & _ & Hrw) | (Hge & _ & Hst)]].
    + now left.
    + destruct op; simpl in Hrw; try contradiction. discriminate.
    + right. auto.
Qed.

Lemma complete_status_is_stable_witness :
  file_status
    (run [OpCreateCaseStudy world_ok new_study;
          OpWebhook world_ok (Parsed delivery);
          OpDeleteCaseStudy world_ok (show_uuid 2%N)]
         (sys_of (db_one_file "complete"))) 1%N = Some "complete"
  \/ file_status
       (run [OpCreateCaseStudy world_ok new_study;
             OpWebhook world_ok (Parsed delivery);
             OpDeleteCaseStudy world_ok (show_uuid 2%N)]
            (sys_of (db_one_file "complete"))) 1%N = None.
Proof.
  apply (complete_status_is_stable
           [OpCreateCaseStudy world_ok new_study;
            OpWebhook world_ok (Parsed delivery);
            OpDeleteCaseStudy world_ok (show_uuid 2%N)]
           (sys_of (db_one_file "complete")) 1%N).
  - split.
    + simpl. constructor; [intros [] | constructor].
    + intros f [<-|[]]. reflexivity.
  - intros w body result [Hin|[Hin|[Hin|[]]]]; try discriminate.
    injection Hin as <- <-. intro Hfetch.
    injection Hfetch as <-. reflexivity.
  - reflexivity.
Defined.

(* ===================================================================== *)
(** ** The declared foreign keys hold in every state the system reaches *)
(* ===================================================================== *)

Lemma existsb_app_l {A} (p : A -> bool) (l1 l2 : list A) :
  existsb p l1 = true -> existsb p (l1 ++ l2) = true.
Proof. intro H. rewrite existsb_app, H. reflexivity. Qed.

Lemma image_rows_file (w : World) (userId : string) (fileId : Uuid)
    (accepted : list (string * string)) (r : CaseStudyImage) :
  forall seed,
    In r (image_rows w userId fileId seed accepted) -> img_file_id r = fileId.
Proof.
  induction accepted as [|e l IH]; intros seed Hin; simpl in Hin;
    [contradiction|].
  destruct Hin as [<-|Hin]; [reflexivity | exact (IH _ Hin)].
Qed.

(** The database a webhook run leaves. *)
Lemma POST_db (w : World) (request : Request) (s : Sys) :
  db (snd (POST w request s)) = db s
  \/ exists requestId result fileId rows,
       db (snd (POST w request s))
       = add_images (with_files (db s) (updated_files requestId result (db s)))
                    rows
       /\ has_file (db s) fileId = true
       /\ forall r, In r rows -> img_file_id r = fileId.
Proof.
  destruct request as [message| |body]; [now left ..|].
  destruct (POST_cases w body s)
    as [Hsame | (requestId & url & result & first & rest & Hv & Hf & Hhit)];
    [now left|].
  right. exists requestId, result, (f_id first).
  rewrite (POST_run_valid w body requestId url result first rest s Hv Hf Hhit).
  rewrite processImages_run.
  pose proof (hit_rows_has_file requestId (db s) first rest Hhit) as Hfile.
  destruct (image_entries result) as [|e es].
  - exists []. simpl. rewrite add_images_nil.
    split; [reflexivity|]. split; [exact Hfile|]. intros r [].
  - destruct (parent_of _ _) as [caseStudy|].
    + destruct (for_of_processImage w (cs_user_id caseStudy)
                  (updated_row result first) (e :: es)
                  (after_update w requestId url result s))
        as (s' & Hrun & Hdb & _).
      { simpl. now rewrite has_file_updated. }
      rewrite Hrun. eexists. split; [exact Hdb|]. split; [exact Hfile|].
      intros r Hin. exact (image_rows_file _ _ _ _ _ _ Hin).
    + exists []. simpl. rewrite add_images_nil.
      split; [reflexivity|]. split; [exact Hfile|]. intros r [].
Qed.

Lemma fk_after_webhook (d : Db) (requestId : string) (result : MarkerResponse)
    (fileId : Uuid) (rows : list CaseStudyImage) :
  fk_consistent d ->
  has_file d fileId = true ->
  (forall r, In r rows -> img_file_id r = fileId) ->
  fk_consistent
    (add_images (with_files d (updated_files requestId result d)) rows).
Proof.
  intros (H1 & H2 & H3 & H4) Hfile Hrows.
  split; [exact H1|]. split; [|split; [|exact H4]].
  - intros f' Hin. simpl in Hin.
    apply updated_files_In in Hin as (f & Hin & ->).
    specialize (H2 f Hin).
    destruct (f_request_id f =? requestId); exact H2.
  - intros i Hin. simpl in Hin.
    change (has_file (with_files d (updated_files requestId result d))
                     (img_file_id i) = true).
    rewrite has_file_updated.
    apply in_app_or in Hin as [Hin|Hin]; [exact (H3 i Hin)|].
    now rewrite (Hrows i Hin).
Qed.

Lemma fk_after_createCaseStudy (w : World) (caseStudy : NewCaseStudy)
    (d : Db) (done : list (string * MarkerApiResponse)) :
  fk_consistent d ->
  has_user d (or_else (auth_userId w) "") = true ->
  let row := new_caseStudy_row w caseStudy d in
  fk_consistent
    (add_files (next_uuid (with_caseStudies d (caseStudies d ++ [row])))
               (file_rows (cs_id row) (N.succ (uuid_seed d)) done)).
Proof.
  intros (H1 & H2 & H3 & H4) Huser row.
  split; [|split; [|split]].
  - intros c Hin. simpl in Hin. apply in_app_or in Hin as [Hin|[<-|[]]].
    + exact (H1 c Hin).
    + exact Huser.
  - intros f Hin. simpl in Hin. unfold has_caseStudy; simpl.
    apply in_app_or in Hin as [Hin|Hin].
    + apply existsb_app_l. exact (H2 f Hin).
    + apply file_rows_fields in Hin as [-> _].
      rewrite existsb_app; simpl.
      now rewrite N.eqb_refl, orb_true_r.
  - intros i Hin. simpl in Hin. unfold has_file; simpl.
    apply existsb_app_l. exact (H3 i Hin).
  - intros m Hin. simpl in Hin. unfold has_caseStudy; simpl.
    apply existsb_app_l. exact (H4 m Hin).
Qed.

Lemma has_caseStudy_without (d : Db) (id x : Uuid) :
  x <> id -> has_caseStudy d x = true ->
  has_caseStudy (without_caseStudy d id) x = true.
Proof.
  unfold has_caseStudy; simpl. intros Hne H.
  apply existsb_exists in H as (c & Hin & Heq).
  apply existsb_exists. exists c. split; [|exact Heq].
  apply filter_In. split; [exact Hin|].
  apply N.eqb_eq in Heq. rewrite Heq.
  apply negb_true_iff. now apply N.eqb_neq.
Qed.

Lemma fk_after_delete (d : Db) (id : Uuid) :
  fk_consistent d ->
  image_references_file_of d id = false ->
  fk_consistent (without_caseStudy d id).
Proof.
  intros (H1 & H2 & H3 & H4) Href.
  split; [|split; [|split]].
  - intros c Hin. simpl in Hin. apply filter_In in Hin as [Hin _].
    exact (H1 c Hin).
  - intros f Hin. simpl in Hin. apply filter_In in Hin as [Hin Hne].
    apply negb_true_iff, N.eqb_neq in Hne.
    exact (has_caseStudy_without d id _ Hne (H2 f Hin)).
  - intros i Hin. simpl in Hin.
    exact (no_reference_file_survives d id i Href Hin (H3 i Hin)).
  - intros m Hin. simpl in Hin. apply filter_In in Hin as [Hin Hne].
    apply negb_true_iff, N.eqb_neq in Hne.
    exact (has_caseStudy_without d id _ Hne (H4 m Hin)).
Qed.

Lemma step_fk_consistent (op : Op) (s : Sys) :
  fk_consistent (db s) -> fk_consistent (db (step s op)).
Proof.
  intro Hfk. destruct op; simpl step.
  - (* createUserProfile *)
    unfold createUserProfile, run_stmt, insert_user.
    destruct (_ || _); simpl; [exact Hfk|].
    destruct Hfk as (H1 & H2 & H3 & H4).
    split; [|split; [exact H2|split; [exact H3|exact H4]]].
    intros c Hin. unfold has_user; simpl.
    apply existsb_app_l. exact (H1 c Hin).
  - (* createCaseStudy *)
    destruct (truthy (auth_userId w)) eqn:Hauth.
    + destruct (has_user (db s) (or_else (auth_userId w) "")) eqn:Huser.
      * rewrite (createCaseStudy_run w caseStudy s Hauth Huser). simpl.
        now apply fk_after_createCaseStudy.
      * unfold createCaseStudy. rewrite Hauth; simpl.
        unfold bind, run_stmt, insert_caseStudy. now rewrite Huser.
    + unfold createCaseStudy. now rewrite Hauth.
  - (* the webhook *)
    destruct (POST_db w request s)
      as [-> | (requestId & result & fileId & rows & -> & Hfile & Hrows)];
      [exact Hfk|].
    exact (fk_after_webhook (db s) requestId result fileId rows
             Hfk Hfile Hrows).
  - (* saveCaseStudy *)
    destruct (saveCaseStudy_cases w id summary s) as [-> | (key & _ & ->)];
      [exact Hfk|].
    destruct Hfk as (H1 & H2 & H3 & H4).
    assert (Hcs : forall x,
               has_caseStudy
                 (with_caseStudies (db s) (described key summary (db s))) x
               = has_caseStudy (db s) x).
    { intro x. unfold has_caseStudy, described; simpl.
      apply existsb_map_same.
      intro c. destruct (N.eqb (cs_id c) key); reflexivity. }
    cbn [db].
    split; [|split; [|split; [exact H3|]]].
    + intros c' Hin. simpl in Hin. unfold described in Hin.
      apply in_map_iff in Hin as (c & <- & Hin).
      specialize (H1 c Hin). destruct (N.eqb (cs_id c) key); exact H1.
    + intros f Hin. rewrite Hcs. exact (H2 f Hin).
    + intros m Hin. rewrite Hcs. exact (H4 m Hin).
  - (* deleteCaseStudy *)
    destruct (truthy (auth_userId w)) eqn:Hauth.
    + destruct (parse_uuid id) as [key|] eqn:Hkey.
      * rewrite (deleteCaseStudy_parsed w id key s Hauth Hkey).
        destruct (has_caseStudy (db s) key); [|exact Hfk].
        destruct (image_references_file_of (db s) key) eqn:Href; [exact Hfk|].
        simpl. now apply fk_after_delete.
      * now rewrite (deleteCaseStudy_malformed w id s Hauth Hkey).
    + unfold deleteCaseStudy. now rewrite Hauth.
  - (* createOnePager *)
    unfold createOnePager, geminiTextCompletion.
    destruct (truthy (auth_userId w)); simpl; [|exact Hfk].
    unfold bind, run_stmt, insert_caseStudySummary.
    destruct (gemini_text w fileContent) as [text|e]; simpl; [|exact Hfk].
    destruct (has_caseStudy (db s) caseStudyId) eqn:Hcs; simpl; [|exact Hfk].
    destruct Hfk as (H1 & H2 & H3 & H4).
    split; [exact H1|]. split; [exact H2|]. split; [exact H3|].
    intros m Hin. simpl in Hin. apply in_app_or in Hin as [Hin|[<-|[]]].
    + exact (H4 m Hin).
    + exact Hcs.
Qed.

(** From a database that satisfies the foreign keys, every sequence of
    requests leads to one that does: no File row is ever left without its
    case study, and no Image row without its file. *)
Lemma run_fk_consistent (ops : list Op) :
  forall s : Sys, fk_consistent (db s) -> fk_consistent (db (run ops s)).
Proof.
  induction ops as [|op rest IH]; intros s Hfk; [exact Hfk|].
  simpl. apply IH. now apply step_fk_consistent.
Qed.

(* ===================================================================== *)
(** ** More of the extraction webhook *)
(* ===================================================================== *)

(** The four columns the webhook never writes. *)
Lemma filter_split_perm {A} (p : A -> bool) (l : list A) :
  Permutation (filter (fun x => negb (p x)) l ++ filter p l) l.
Proof.
  induction l as [|x l IH]; simpl; [constructor|].
  destruct (p x); simpl.
  - apply Permutation_sym, Permutation_cons_app, Permutation_sym, IH.
  - now constructor.
Qed.

Lemma updated_files_keys (requestId : string) (result : MarkerResponse)
    (d : Db) :
  Permutation (map file_key (updated_files requestId result d))
              (map file_key (caseStudyFiles d)).
Proof.
  unfold updated_files, hit_rows. rewrite map_app, map_map.
  change (fun x => file_key (set_result (mr_status result) (mr_markdown result)
                               (mr_metadata result) (mr_error result) x))
    with file_key.
  rewrite <- map_app. apply Permutation_map, filter_split_perm.
Qed.

Lemma updated_files_others (requestId : string) (result : MarkerResponse)
    (d : Db) :
  filter (fun f => negb (f_request_id f =? requestId))
         (updated_files requestId result d)
  = filter (fun f => negb (f_request_id f =? requestId)) (caseStudyFiles d).
Proof.
  unfold updated_files, hit_rows.
  rewrite filter_app, filter_others_others.
  assert (Hnone : filter (fun f => negb (f_request_id f =? requestId))
                    (map (set_result (mr_status result) (mr_markdown result)
                                     (mr_metadata result) (mr_error result))
                         (filter (fun f => f_request_id f =? requestId)
                                 (caseStudyFiles d))) = []).
  { apply (filter_map_hits (fun f => f_request_id f =? requestId)).
    reflexivity. }
  now rewrite Hnone, app_nil_r.
Qed.

Lemma updated_files_hits (requestId : string) (result : MarkerResponse)
    (d : Db) (f' : CaseStudyFile) :
  In f' (updated_files requestId result d) ->
  f_request_id f' = requestId ->
  exists f,
    In f (caseStudyFiles d)
    /\ f_id f' = f_id f
    /\ f_status f' = mr_status result
    /\ f_markdown f' = set_column (mr_markdown result) (f_markdown f)
    /\ f_metadata f' = set_column (mr_metadata result) (f_metadata f)
    /\ f_error f' = set_column (mr_error result) (f_error f).
Proof.
  intros Hin Hid. apply updated_files_In in Hin as (f & Hin & ->).
  exists f. split; [exact Hin|].
  destruct (f_request_id f =? requestId) eqn:E; simpl; [auto 6|].
  apply String.eqb_neq in E. now elim E.
Qed.

Lemma named_request_valid (w : World) (body : WebhookBody)
    (requestId url : string) :
  valid_delivery w body requestId url -> named_request body = requestId.
Proof.
  intros (_ & _ & Hid & Hne & _). unfold named_request, or_else.
  rewrite Hid; simpl. apply String.eqb_neq in Hne. now rewrite Hne.
Qed.

(** X1. Whatever reaches the webhook and however its run ends: a request
    whose body is not JSON or is [null] changes nothing in the database. A
    request with a body never writes to the user, case-study and summary
    tables; it never inserts or removes a File row and never changes the
    id, case study, request id or URL of one (the rows may change place);
    it leaves every File row of another request id exactly as it was; when
    the file table changed at all, each row of the request id it names is an
    old row with the status of the fetched result and, for markdown,
    metadata and error, the value of the payload where the payload has the
    key ([null] included) and the old value where it has not; the image
    table only grows. *)
Theorem webhook_touches_only_its_request (w : World) (body : WebhookBody)
    (s : Sys) :
  let d' := db (snd (POST w (Parsed body) s)) in
  (forall request,
      (forall b, request <> Parsed b) -> db (snd (POST w request s)) = db s)
  /\ users d' = users (db s)
  /\ caseStudies d' = caseStudies (db s)
  /\ caseStudySummaries d' = caseStudySummaries (db s)
  /\ Permutation (map file_key (caseStudyFiles d'))
                 (map file_key (caseStudyFiles (db s)))
  /\ filter (fun f => negb (f_request_id f =? named_request body))
            (caseStudyFiles d')
     = filter (fun f => negb (f_request_id f =? named_request body))
              (caseStudyFiles (db s))
  /\ (caseStudyFiles d' = caseStudyFiles (db s)
      \/ exists result,
           fetched_result w (Parsed body) = Some result
           /\ forall f', In f' (caseStudyFiles d') ->
                         f_request_id f' = named_request body ->
                         exists f,
                           In f (caseStudyFiles (db s))
                           /\ f_id f' = f_id f
                           /\ f_status f' = mr_status result
                           /\ f_markdown f'
                              = set_column (mr_markdown result) (f_markdown f)
                           /\ f_metadata f'
                              = set_column (mr_metadata result) (f_metadata f)
                           /\ f_error f'
                              = set_column (mr_error result) (f_error f))
  /\ exists rows,
       caseStudyImages d' = (caseStudyImages (db s) ++ rows)%list.
Proof.
  intro d'. subst d'. split.
  { intros [message| |b] Hnot; [reflexivity | reflexivity|].
    now elim (Hnot b). }
  destruct (POST_cases w body s)
    as [-> | (requestId & url & result & first & rest & Hv & Hf & Hhit)].
  - repeat split; try reflexivity; [now left|].
    exists []. now rewrite app_nil_r.
  - pose proof (POST_valid_files w body requestId url result s Hv Hf) as Hfiles.
    rewrite (named_request_valid w body requestId url Hv).
    assert (Hfile : has_file (db (after_update w requestId url result s))
                             (f_id (updated_row result first)) = true).
    { simpl. rewrite has_file_updated.
      exact (hit_rows_has_file requestId (db s) first rest Hhit). }
    pose proof (processImages_tables w (updated_row result first) result
                  (after_update w requestId url result s) Hfile)
      as (Hu & Hc & _ & Hm & Hi).
    rewrite (POST_run_valid w body requestId url result first rest s
               Hv Hf Hhit) in *.
    destruct (processImages w (updated_row result first) result
                (after_update w requestId url result s)) as [[u|e] s'];
      simpl in *; rewrite Hfiles;
      (split; [exact Hu|]); (split; [exact Hc|]); (split; [exact Hm|]);
      (split; [apply updated_files_keys|]);
      (split; [apply updated_files_others|]);
      (split; [|exact Hi]);
      right; exists result;
      (split; [exact (fetched_result_valid w body requestId url result Hv Hf)|]);
      intros f' Hin Hid;
      exact (updated_files_hits requestId result (db s) f' Hin Hid).
Qed.

(** X2. A delivery that passes validation and fetches a successful result,
    but names a request id that no File row carries, is answered 500
    "Case study file not found"; the check URL was asked, and neither the
    database nor the bucket changed. *)
Theorem webhook_unknown_request_id (w : World) (body : WebhookBody)
    (requestId url : string) (result : MarkerResponse) (s : Sys) :
  valid_delivery w body requestId url ->
  result_fetched w url result ->
  hit_rows requestId (db s) = [] ->
  POST w (Parsed body) s
  = (Returns (mkNextResponse (ErrorBody "Case study file not found") 500%N),
     after_check w url s).
Proof.
  intros Hv Hf Hhit.
  unfold POST, try_catch, bind.
  rewrite (validateWebhook_ok w body requestId url s Hv).
  rewrite (fetchMarkerResults_ok w url result s Hf).
  rewrite updateCaseStudyFile_run. cbn [db bucket trace].
  now rewrite Hhit.
Qed.

Lemma webhook_unknown_request_id_witness :
  POST world_ok (Parsed delivery_unknown) (sys_of (db_one_file "processing"))
  = (Returns (mkNextResponse (ErrorBody "Case study file not found") 500%N),
     after_check world_ok "https://www.datalab.to/check/9"
                 (sys_of (db_one_file "processing"))).
Proof.
  apply (webhook_unknown_request_id world_ok delivery_unknown "req-unknown"
           "https://www.datalab.to/check/9" result_complete
           (sys_of (db_one_file "processing"))).
  - repeat split; discriminate.
  - split; [exists "OK", None; reflexivity | reflexivity].
  - reflexivity.
Defined.

(** X3. On a delivery that passes validation: when the check URL answers
    with a response that is not ok, the handler answers with the error
    "Failed to fetch results: " followed by the status text; when it answers
    with a result whose [success] flag is false, the handler answers with
    the result's error text, or with "Processing failed" when the result has
    no error text. In both cases nothing is written: the File row stays as
    it was. *)
Theorem webhook_failed_extraction (w : World) (body : WebhookBody)
    (requestId url : string) (s : Sys) :
  valid_delivery w body requestId url ->
  (forall statusText content_type answer,
      net_marker_check w url (or_else (MARKER_API_KEY w) "")
      = Response false statusText content_type answer ->
      POST w (Parsed body) s
      = (Returns (error_response ("Failed to fetch results: " ++ statusText)),
         after_check w url s))
  /\ (forall statusText content_type result,
         net_marker_check w url (or_else (MARKER_API_KEY w) "")
         = Response true statusText content_type (Returns result) ->
         mr_success result = false ->
         POST w (Parsed body) s
         = (Returns (error_response
                       (or_else (field_value (mr_error result)) "Processing failed")),
            after_check w url s)).
Proof.
  intro Hv. split.
  - intros st ct answer Hnet.
    unfold POST, try_catch, bind.
    rewrite (validateWebhook_ok w body requestId url s Hv).
    unfold fetchMarkerResults, bind, emit, throw. now rewrite Hnet.
  - intros st ct result Hnet Hs.
    unfold POST, try_catch, bind.
    rewrite (validateWebhook_ok w body requestId url s Hv).
    unfold fetchMarkerResults, bind, emit, throw. rewrite Hnet; simpl.
    now rewrite Hs.
Qed.

Lemma webhook_failed_extraction_witness :
  POST world_failed_silently (Parsed delivery) (sys_of (db_one_file "processing"))
  = (Returns (mkNextResponse (ErrorBody "Processing failed") 500%N),
     after_check world_failed_silently "https://www.datalab.to/check/1"
                 (sys_of (db_one_file "processing"))).
Proof.
  destruct (webhook_failed_extraction world_failed_silently delivery
              "req-a.pdf" "https://www.datalab.to/check/1"
              (sys_of (db_one_file "processing"))) as [_ Hfalse].
  - repeat split; discriminate.
  - exact (Hfalse "OK" None result_failed_silently eq_refl eq_refl).
Defined.

(** X4. The handler never throws, whatever the request (a body that is
    not JSON and the body [null] included). Its answer is either the
    success message with status 200, or an error body with status 400, 401
    or 500: no other status is ever sent, and status 200 never comes with an
    error body. *)
Theorem webhook_answer_codes (w : World) (request : Request) (s : Sys) :
  exists res s',
    POST w request s = (Returns res, s')
    /\ (res = ok_200
        \/ exists e, res_body res = ErrorBody e
                     /\ (res_status res = 400%N \/ res_status res = 401%N
                         \/ res_status res = 500%N)).
Proof.
  unfold POST, try_catch.
  match goal with
  | |- context [bind ?m ?k s] => destruct (bind m k s) as [[res|e] s'] eqn:E
  end.
  - exists res, s'. split; [reflexivity|]. left.
    unfold bind in E.
    destruct (validateWebhook w request s) as [[[a b]|x] s1]; [|discriminate].
    destruct (fetchMarkerResults w b s1) as [[r|x] s2]; [|discriminate].
    destruct (updateCaseStudyFile a r s2) as [[f|x] s3]; [|discriminate].
    destruct (processImages w f r s3) as [[u|x] s4]; [|discriminate].
    now injection E as <- _.
  - eexists _, s'. split; [reflexivity|]. right. exists e.
    unfold error_response; simpl. split; [reflexivity|].
    destruct (includes e "Invalid webhook secret"); [auto|].
    destruct (includes e "Missing required fields"); auto.
Qed.

(** X5. A delivery with the right secret but without a request id or
    without a check URL (missing, null or empty) is answered 400 "Missing
    required fields" before anything is fetched or written. *)
Theorem webhook_missing_fields_rejected (w : World) (body : WebhookBody)
    (s : Sys) :
  webhook_secret body = MARKER_WEBHOOK_SECRET w ->
  truthy (webhook_secret body) = true ->
  truthy (request_id body) = false \/ truthy (request_check_url body) = false ->
  POST w (Parsed body) s
  = (Returns (mkNextResponse (ErrorBody "Missing required fields") 400%N), s)
  /\ trace (snd (POST w (Parsed body) s)) = trace s
  /\ db (snd (POST w (Parsed body) s)) = db s.
Proof.
  intros Hsec Htr Hmiss.
  rewrite (webhook_missing_fields_400 w body s Hsec Htr Hmiss). auto.
Qed.

Lemma webhook_missing_fields_rejected_witness :
  POST world_ok (Parsed delivery_without_url) (sys_of (db_one_file "processing"))
  = (Returns (mkNextResponse (ErrorBody "Missing required fields") 400%N),
     sys_of (db_one_file "processing")).
Proof.
  apply (webhook_missing_fields_rejected world_ok delivery_without_url
           (sys_of (db_one_file "processing"))).
  - reflexivity.
  - reflexivity.
  - right; reflexivity.
Defined.

(* ===================================================================== *)
(** ** More of file ingestion and of the case-study actions *)
(* ===================================================================== *)

(** X6. [createCaseStudy] for a caller who is not signed in throws "User
    not authenticated"; for a signed-in caller who has no row in the user
    table the insert is refused by the foreign key of [case_studies.user_id]
    and the action throws that error. In both cases nothing is written and
    no file is downloaded or submitted, whatever URLs were given. *)
Theorem createCaseStudy_refused_writes_nothing (w : World)
    (caseStudy : NewCaseStudy) (s : Sys) :
  (truthy (auth_userId w) = false ->
   createCaseStudy w caseStudy s = (Throws "User not authenticated", s))
  /\ (truthy (auth_userId w) = true ->
      has_user (db s) (or_else (auth_userId w) "") = false ->
      createCaseStudy w caseStudy s
      = (Throws (fk_violation "case_studies"
                   "case_studies_user_id_users_id_fk"), s)).
Proof.
  split.
  - intro Hauth. unfold createCaseStudy. now rewrite Hauth.
  - intros Hauth Huser. unfold createCaseStudy. rewrite Hauth; simpl.
    unfold bind, run_stmt, insert_caseStudy. rewrite Huser.
    now rewrite sys_eta.
Qed.

Lemma createCaseStudy_refused_writes_nothing_witness :
  createCaseStudy world_bob new_study (sys_of (db_one_file "processing"))
  = (Throws (fk_violation "case_studies" "case_studies_user_id_users_id_fk"),
     sys_of (db_one_file "processing")).
Proof.
  apply (proj2 (createCaseStudy_refused_writes_nothing world_bob new_study
                  (sys_of (db_one_file "processing")))).
  - reflexivity.
  - reflexivity.
Defined.

Lemma contains_slash_app (a b : string) :
  contains_slash (a ++ b) = contains_slash a || contains_slash b.
Proof.
  induction a as [|c a IH]; simpl; [reflexivity|].
  now rewrite IH, orb_assoc.
Qed.

Lemma split_pop_no_slash (s : string) :
  forall acc, contains_slash acc = false ->
              contains_slash (split_pop acc s) = false.
Proof.
  induction s as [|c s IH]; intros acc Hacc; simpl; [exact Hacc|].
  destruct (Ascii.eqb c "/"%char) eqn:E.
  - apply IH. reflexivity.
  - apply IH. rewrite contains_slash_app, Hacc. simpl. now rewrite E.
Qed.

(** X7. [downloadFileFromUrl] asks for the URL exactly once and touches
    neither the database nor the bucket. When it returns, the response was
    ok and its body could be read, and the file name it gives is the text
    after the last slash of the URL, or "file" when that text is empty: the
    name is never empty and never contains a slash. When it throws, whatever
    failed (the request, a response that is not ok, the body), the message
    starts with "Error downloading file: ". *)
Theorem downloadFileFromUrl_behaviour (w : World) (url : string) (s : Sys) :
  snd (downloadFileFromUrl w url s)
  = mkSys (db s) (bucket s) (trace s ++ [EvDownload url])
  /\ match fst (downloadFileFromUrl w url s) with
     | Returns file =>
         fetched_file w url = Some file
         /\ file_name file <> ""
         /\ contains_slash (file_name file) = false
         /\ (split_pop "" url <> "" -> file_name file = split_pop "" url)
     | Throws e =>
         fetched_file w url = None
         /\ String.prefix "Error downloading file: " e = true
     end.
Proof.
  unfold downloadFileFromUrl, fetched_file, try_catch, bind, emit, throw, ret.
  destruct (net_fetch w url) as [e|ok st ct body]; simpl;
    [split; [reflexivity | split; [reflexivity | destruct e; reflexivity]]|].
  destruct ok; simpl; [|split; [reflexivity | split; reflexivity]].
  destruct body as [blob|e]; simpl;
    [|split; [reflexivity | split; reflexivity]].
  split; [reflexivity|]. split; [reflexivity|].
  pose proof (split_pop_no_slash url "" eq_refl) as Hno.
  unfold or_else, truthy.
  destruct (split_pop "" url =? "") eqn:E; simpl.
  - split; [discriminate|]. split; [reflexivity|].
    apply String.eqb_eq in E. intro H. now elim H.
  - apply String.eqb_neq in E. auto.
Qed.

(** X9. [getAllCaseStudies] for a signed-in caller returns the case studies
    whose owner is the caller, all of them and no other, and changes
    nothing. *)
Theorem getAllCaseStudies_only_own (w : World) (userId : string) (s : Sys) :
  auth_userId w = Some userId ->
  userId <> "" ->
  exists rows,
    getAllCaseStudies w s = (Returns rows, s)
    /\ (forall c, In c rows <->
                  In c (caseStudies (db s)) /\ cs_user_id c = userId)
    /\ length rows
       = length (filter (fun c => cs_user_id c =? userId) (caseStudies (db s))).
Proof.
  intros Hauth Hne.
  unfold getAllCaseStudies. rewrite Hauth.
  apply String.eqb_neq in Hne.
  unfold truthy, or_else, truthy. rewrite Hne. simpl.
  unfold run_stmt, select_caseStudies_by_user. simpl. rewrite sys_eta.
  eexists. split; [reflexivity|]. split.
  - intro c. rewrite <- in_rev, filter_In, String.eqb_eq. tauto.
  - apply length_rev.
Qed.

Lemma getAllCaseStudies_only_own_witness :
  exists rows,
    getAllCaseStudies world_bob (sys_of (db_one_file "processing"))
    = (Returns rows, sys_of (db_one_file "processing"))
    /\ length rows = 0%nat.
Proof.
  destruct (getAllCaseStudies_only_own world_bob "user_2"
              (sys_of (db_one_file "processing")))
    as (rows & Hrun & _ & Hlen).
  - reflexivity.
  - discriminate.
  - exists rows. split; [exact Hrun | exact Hlen].
Defined.

Lemma with_caseStudies_same (d : Db) : with_caseStudies d (caseStudies d) = d.
Proof. destruct d; reflexivity. Qed.

Lemma described_no_row (id : Uuid) (summary : string) (d : Db) :
  has_caseStudy d id = false -> described id summary d = caseStudies d.
Proof.
  unfold has_caseStudy, described. intro H.
  induction (caseStudies d) as [|c l IH]; simpl in *; [reflexivity|].
  apply orb_false_iff in H as [Hc Hl]. now rewrite Hc, IH.
Qed.

(** X10. [saveCaseStudy] checks that the caller is signed in and nothing
    else: two signed-in callers get the same outcome on the same state and
    id, whoever owns the case study. When the id is not the text of a key
    the UPDATE is rejected and the action throws "Failed to save case
    study", nothing written. When it is the text of a key the action
    returns [true]; the case-study table keeps its rows in their order and,
    row by row, the id, owner, title, client and industry; the description
    becomes the given text in the row with that key and stays as it was in
    every other row; no other table, nor the bucket, changes; and when no
    case study has that key nothing changes at all. (The timestamp columns,
    of which [updated_at] is rewritten by every UPDATE, are not part of the
    model.) *)
Theorem saveCaseStudy_effect (w1 w2 : World) (id : string) (summary : string)
    (s : Sys) :
  truthy (auth_userId w1) = true ->
  truthy (auth_userId w2) = true ->
  saveCaseStudy w1 id summary s = saveCaseStudy w2 id summary s
  /\ (parse_uuid id = None ->
      saveCaseStudy w1 id summary s = (Throws "Failed to save case study", s))
  /\ (forall key,
         parse_uuid id = Some key ->
         exists s',
           saveCaseStudy w1 id summary s = (Returns true, s')
           /\ db s' = with_caseStudies (db s) (caseStudies (db s'))
           /\ bucket s' = bucket s /\ trace s' = trace s
           /\ Forall2
                (fun c c' =>
                   cs_id c' = cs_id c
                   /\ cs_user_id c' = cs_user_id c
                   /\ cs_title c' = cs_title c
                   /\ cs_client c' = cs_client c
                   /\ cs_industry c' = cs_industry c
                   /\ cs_description c'
                      = if N.eqb (cs_id c) key then Some summary
                        else cs_description c)
                (caseStudies (db s)) (caseStudies (db s'))
           /\ (has_caseStudy (db s) key = false -> s' = s)).
Proof.
  intros H1 H2. split; [|split].
  - destruct (parse_uuid id) as [key|] eqn:Hkey.
    + now rewrite (saveCaseStudy_parsed w1 id key summary s H1 Hkey),
                  (saveCaseStudy_parsed w2 id key summary s H2 Hkey).
    + now rewrite (saveCaseStudy_malformed w1 id summary s H1 Hkey),
                  (saveCaseStudy_malformed w2 id summary s H2 Hkey).
  - intro Hkey. exact (saveCaseStudy_malformed w1 id summary s H1 Hkey).
  - intros key Hkey.
    rewrite (saveCaseStudy_parsed w1 id key summary s H1 Hkey).
    eexists. split; [reflexivity|]. cbn [db bucket trace].
    split; [reflexivity|]. split; [reflexivity|]. split; [reflexivity|].
    split.
    + unfold with_caseStudies, described; cbn [caseStudies].
      induction (caseStudies (db s)) as [|c l IH]; simpl; constructor;
        [|exact IH].
      destruct (N.eqb (cs_id c) key); simpl; repeat split; reflexivity.
    + intro Hno. rewrite (described_no_row key summary (db s) Hno).
      now rewrite with_caseStudies_same, sys_eta.
Qed.

Lemma saveCaseStudy_effect_witness :
  saveCaseStudy world_ok "new" "Executive summary"
                (sys_of (db_one_file "processing"))
  = saveCaseStudy world_bob "new" "Executive summary"
                  (sys_of (db_one_file "processing"))
  /\ saveCaseStudy world_ok "new" "Executive summary"
                   (sys_of (db_one_file "processing"))
     = (Throws "Failed to save case study",
        sys_of (db_one_file "processing")).
Proof.
  destruct (saveCaseStudy_effect world_ok world_bob "new"
              "Executive summary" (sys_of (db_one_file "processing"))
              eq_refl eq_refl) as (Hsame & Hbad & _).
  split; [exact Hsame | exact (Hbad eq_refl)].
Defined.

(** X11. [deleteCaseStudy] checks that the caller is signed in and nothing
    else: two signed-in callers get the same outcome on the same state and
    id, so a case study can be deleted by a user who does not own it. When
    the id is not the text of a key the DELETE is rejected and the action
    throws "Failed to delete case study", nothing written. When it is the
    text of a key that no case study has, the action returns [true] and
    changes nothing; when a case study has the key and no image row hangs
    on one of its files, the action returns [true] and the case study is
    gone. *)
Theorem deleteCaseStudy_any_signed_in_caller (w1 w2 : World) (id : string)
    (s : Sys) :
  truthy (auth_userId w1) = true ->
  truthy (auth_userId w2) = true ->
  deleteCaseStudy w1 id s = deleteCaseStudy w2 id s
  /\ (parse_uuid id = None ->
      deleteCaseStudy w1 id s = (Throws "Failed to delete case study", s))
  /\ (forall key,
         parse_uuid id = Some key ->
         has_caseStudy (db s) key = false ->
         deleteCaseStudy w1 id s = (Returns true, s))
  /\ (forall key c,
         parse_uuid id = Some key ->
         In c (caseStudies (db s)) -> cs_id c = key ->
         image_references_file_of (db s) key = false ->
         fst (deleteCaseStudy w1 id s) = Returns true
         /\ ~ In c (caseStudies (db (snd (deleteCaseStudy w1 id s))))).
Proof.
  intros H1 H2. split; [|split; [|split]].
  - destruct (parse_uuid id) as [key|] eqn:Hkey.
    + now rewrite (deleteCaseStudy_parsed w1 id key s H1 Hkey),
                  (deleteCaseStudy_parsed w2 id key s H2 Hkey).
    + now rewrite (deleteCaseStudy_malformed w1 id s H1 Hkey),
                  (deleteCaseStudy_malformed w2 id s H2 Hkey).
  - intro Hkey. exact (deleteCaseStudy_malformed w1 id s H1 Hkey).
  - intros key Hkey Hno.
    rewrite (deleteCaseStudy_parsed w1 id key s H1 Hkey). now rewrite Hno.
  - intros key c Hkey Hin Hid Href.
    rewrite (deleteCaseStudy_parsed w1 id key s H1 Hkey).
    assert (Hcs : has_caseStudy (db s) key = true).
    { apply existsb_exists. exists c. split; [exact Hin|].
      now apply N.eqb_eq. }
    rewrite Hcs, Href. simpl. split; [reflexivity|].
    intro Hin'. apply filter_In in Hin' as [_ Hne].
    apply negb_true_iff, N.eqb_neq in Hne. now elim Hne.
Qed.

Lemma deleteCaseStudy_any_signed_in_caller_witness :
  deleteCaseStudy world_bob "" (sys_of (db_one_file "processing"))
  = (Throws "Failed to delete case study", sys_of (db_one_file "processing"))
  /\ fst (deleteCaseStudy world_bob (show_uuid 0%N)
            (sys_of (db_one_file "processing")))
     = Returns true
  /\ ~ In study
         (caseStudies
            (db (snd (deleteCaseStudy world_bob (show_uuid 0%N)
                        (sys_of (db_one_file "processing")))))).
Proof.
  split.
  - exact (proj1 (proj2 (deleteCaseStudy_any_signed_in_caller
                           world_bob world_ok ""
                           (sys_of (db_one_file "processing"))
                           eq_refl eq_refl)) eq_refl).
  - destruct (deleteCaseStudy_any_signed_in_caller world_bob world_ok
                (show_uuid 0%N) (sys_of (db_one_file "processing"))
                eq_refl eq_refl) as (_ & _ & _ & Hdel).
    apply (Hdel 0%N study).
    + reflexivity.
    + left; reflexivity.
    + reflexivity.
    + reflexivity.
Defined.

(* ===================================================================== *)
(** ** The summarisation action *)
(* ===================================================================== *)

Lemma createOnePager_run (w : World) (fileContent : string)
    (caseStudyId : Uuid) (s : Sys) :
  truthy (auth_userId w) = true ->
  createOnePager w fileContent caseStudyId s =
  match gemini_text w fileContent with
  | Throws e => (Throws e, s)
  | Returns text =>
      if has_caseStudy (db s) caseStudyId then
        let row := new_summary_row (db s) caseStudyId text in
        (Returns (Some row),
         mkSys (add_summary (db s) row) (bucket s) (trace s))
      else
        (Throws (fk_violation "case_study_summaries"
                   "case_study_summaries_case_study_id_case_studies_id_fk"), s)
  end.
Proof.
  intro Hauth.
  unfold createOnePager, geminiTextCompletion. rewrite Hauth; simpl.
  unfold bind, run_stmt, insert_caseStudySummary, throw, ret.
  destruct (gemini_text w fileContent) as [text|e]; [|reflexivity].
  destruct (has_caseStudy (db s) caseStudyId); simpl; [reflexivity|].
  now rewrite sys_eta.
Qed.

(** X12. [createOnePager] checks that the caller is signed in and nothing
    else: two signed-in callers for whom the language model answers alike
    get the same outcome, whoever owns the case study. When the model call
    throws, that error is thrown and nothing is written. When it returns a
    text and no case study has the given id, the insert is refused by the
    foreign key and nothing is written. Otherwise exactly one summary row
    is appended, holding the text as it came back and the given case-study
    id, and that row is returned; no other table changes. *)
Theorem createOnePager_effect (w1 w2 : World) (fileContent : string)
    (caseStudyId : Uuid) (s : Sys) :
  truthy (auth_userId w1) = true ->
  truthy (auth_userId w2) = true ->
  gemini_text w1 fileContent = gemini_text w2 fileContent ->
  createOnePager w1 fileContent caseStudyId s
  = createOnePager w2 fileContent caseStudyId s
  /\ (forall e,
         gemini_text w1 fileContent = Throws e ->
         createOnePager w1 fileContent caseStudyId s = (Throws e, s))
  /\ (forall text,
         gemini_text w1 fileContent = Returns text ->
         has_caseStudy (db s) caseStudyId = false ->
         createOnePager w1 fileContent caseStudyId s
         = (Throws (fk_violation "case_study_summaries"
                      "case_study_summaries_case_study_id_case_studies_id_fk"),
            s))
  /\ (forall text,
         gemini_text w1 fileContent = Returns text ->
         has_caseStudy (db s) caseStudyId = true ->
         exists s',
           createOnePager w1 fileContent caseStudyId s
           = (Returns (Some (mkSummary (uuid_seed (db s)) caseStudyId text)),
              s')
           /\ caseStudySummaries (db s')
              = (caseStudySummaries (db s)
                 ++ [mkSummary (uuid_seed (db s)) caseStudyId text])%list
           /\ users (db s') = users (db s)
           /\ caseStudies (db s') = caseStudies (db s)
           /\ caseStudyFiles (db s') = caseStudyFiles (db s)
           /\ caseStudyImages (db s') = caseStudyImages (db s)).
Proof.
  intros H1 H2 Hsame.
  rewrite (createOnePager_run w1 fileContent caseStudyId s H1),
          (createOnePager_run w2 fileContent caseStudyId s H2), <- Hsame.
  split; [reflexivity|]. split; [|split].
  - intros e ->. reflexivity.
  - intros text -> ->. reflexivity.
  - intros text -> ->. eexists. split; [reflexivity|].
    repeat split.
Qed.

Lemma createOnePager_effect_witness :
  createOnePager world_bob "notes" 5%N (sys_of (db_one_file "processing"))
  = (Throws (fk_violation "case_study_summaries"
               "case_study_summaries_case_study_id_case_studies_id_fk"),
     sys_of (db_one_file "processing")).
Proof.
  destruct (createOnePager_effect world_bob world_ok "notes" 5%N
              (sys_of (db_one_file "processing")) eq_refl eq_refl eq_refl)
    as (_ & _ & Hfk & _).
  exact (Hfk "Summary of notes" eq_refl eq_refl).
Defined.

(* ===================================================================== *)
(** ** The Clerk webhook *)
(* ===================================================================== *)

Lemma clerk_POST_run (evt : ClerkRoute.ClerkEvent) (s : Sys) :
  ClerkRoute.POST (Returns evt) s =
  if ClerkRoute.evt_type evt =? "user.created" then
    if has_user (db s) (ClerkRoute.clerk_id (ClerkRoute.evt_data evt))
       || email_taken (db s)
            (ClerkRoute.primary_email (ClerkRoute.evt_data evt))
    then (Returns (ClerkRoute.mkClerkResponse
                     (ClerkRoute.ErrorMessage
                        "duplicate key value violates unique constraint")
                     400%N), s)
    else (Returns (ClerkRoute.mkClerkResponse ClerkRoute.SuccessTrue 200%N),
          mkSys (with_users (db s)
                   (users (db s) ++ [profile_of (ClerkRoute.evt_data evt)]))
                (bucket s) (trace s))
  else (Returns (ClerkRoute.mkClerkResponse ClerkRoute.SuccessTrue 200%N), s).
Proof.
  unfold ClerkRoute.POST, try_catch, bind, ret, createUserProfile, run_stmt,
    insert_user, email_taken, profile_of.
  destruct (ClerkRoute.evt_type evt =? "user.created"); [|reflexivity].
  destruct (_ || _); simpl; [now rewrite sys_eta | reflexivity].
Qed.

(** X13. A verified ['user.created'] event whose user id and e-mail
    address are not yet in the user table is answered 200 and adds exactly
    one user row: the Clerk id, the first e-mail address of the event (empty
    when there is none), and as name the first and last name that are
    present, joined by a blank, or the e-mail address when neither is. No
    other table changes. *)
Theorem clerk_user_created_adds_profile (evt : ClerkRoute.ClerkEvent)
    (s : Sys) :
  ClerkRoute.evt_type evt = "user.created" ->
  has_user (db s) (ClerkRoute.clerk_id (ClerkRoute.evt_data evt)) = false ->
  email_taken (db s) (ClerkRoute.primary_email (ClerkRoute.evt_data evt))
  = false ->
  exists s',
    ClerkRoute.POST (Returns evt) s
    = (Returns (ClerkRoute.mkClerkResponse ClerkRoute.SuccessTrue 200%N), s')
    /\ users (db s')
       = (users (db s) ++ [profile_of (ClerkRoute.evt_data evt)])%list
    /\ db s' = with_users (db s) (users (db s'))
    /\ has_user (db s') (ClerkRoute.clerk_id (ClerkRoute.evt_data evt)) = true.
Proof.
  intros Htype Hid Hemail.
  rewrite clerk_POST_run, Htype, Hid, Hemail. simpl.
  eexists. split; [reflexivity|]. simpl.
  split; [reflexivity|]. split; [reflexivity|].
  unfold has_user; simpl. rewrite existsb_app; simpl.
  now rewrite String.eqb_refl, orb_true_r.
Qed.

Lemma clerk_user_created_adds_profile_witness :
  exists s',
    ClerkRoute.POST (Returns ada_created) (sys_of (db_one_file "processing"))
    = (Returns (ClerkRoute.mkClerkResponse ClerkRoute.SuccessTrue 200%N), s')
    /\ users (db s')
       = [alice; mkUser "user_2" "Ada Lovelace" "ada@example.com"].
Proof.
  destruct (clerk_user_created_adds_profile ada_created
              (sys_of (db_one_file "processing")) eq_refl eq_refl eq_refl)
    as (s' & Hrun & Husers & _).
  exists s'. split; [exact Hrun | exact Husers].
Defined.

(** X14. The Clerk route writes nothing in every other case, and says so
    with its status: a request whose verification fails is answered 400 with
    the verification error; a verified event of another type is answered 200;
    a ['user.created'] event whose user id or e-mail address is already in
    the user table (a replayed event, or a second user without any e-mail
    address) is answered 400 with the database's error. *)
Theorem clerk_route_writes_nothing_else (verified : JsResult ClerkRoute.ClerkEvent)
    (s : Sys) :
  (forall e,
      verified = Throws e ->
      ClerkRoute.POST verified s
      = (Returns (ClerkRoute.mkClerkResponse (ClerkRoute.ErrorMessage e) 400%N),
         s))
  /\ (forall evt,
         verified = Returns evt ->
         ClerkRoute.evt_type evt <> "user.created" ->
         ClerkRoute.POST verified s
         = (Returns (ClerkRoute.mkClerkResponse ClerkRoute.SuccessTrue 200%N),
            s))
  /\ (forall evt,
         verified = Returns evt ->
         ClerkRoute.evt_type evt = "user.created" ->
         has_user (db s) (ClerkRoute.clerk_id (ClerkRoute.evt_data evt)) = true
         \/ email_taken (db s)
              (ClerkRoute.primary_email (ClerkRoute.evt_data evt)) = true ->
         exists e,
           ClerkRoute.POST verified s
           = (Returns (ClerkRoute.mkClerkResponse (ClerkRoute.ErrorMessage e)
                         400%N), s)).
Proof.
  split; [|split].
  - intros e ->. reflexivity.
  - intros evt -> Hne. rewrite clerk_POST_run.
    apply String.eqb_neq in Hne. now rewrite Hne.
  - intros evt -> Htype Hdup. rewrite clerk_POST_run, Htype. simpl.
    assert (Hor : has_user (db s) (ClerkRoute.clerk_id (ClerkRoute.evt_data evt))
                  || email_taken (db s)
                       (ClerkRoute.primary_email (ClerkRoute.evt_data evt))
                  = true).
    { destruct Hdup as [-> | ->]; [reflexivity | apply orb_true_r]. }
    rewrite Hor. eauto.
Qed.

Lemma clerk_route_writes_nothing_else_witness :
  exists e,
    ClerkRoute.POST (Returns alice_created) (sys_of (db_one_file "processing"))
    = (Returns (ClerkRoute.mkClerkResponse (ClerkRoute.ErrorMessage e) 400%N),
       sys_of (db_one_file "processing")).
Proof.
  destruct (clerk_route_writes_nothing_else (Returns alice_created)
              (sys_of (db_one_file "processing"))) as (_ & _ & Hdup).
  apply (Hdup alice_created eq_refl eq_refl).
  left; reflexivity.
Defined.

Lemma truthy_value_nonempty (v : option string) :
  truthy v = true -> or_else v "" <> "".
Proof.
  unfold or_else. intro H. rewrite H.
  destruct v as [x|]; [|discriminate]. simpl in H.
  apply negb_true_iff, String.eqb_neq in H. exact H.
Qed.

Lemma append_nonempty_l (a b : string) : a <> "" -> (a ++ b)%string <> "".
Proof. destruct a; [intro H; now elim H | discriminate]. Qed.

Lemma or_else_some_empty_iff (j e : string) :
  or_else (Some j) e = "" <-> j = "" /\ e = "".
Proof.
  unfold or_else, truthy.
  destruct (j =? "") eqn:E; simpl.
  - apply String.eqb_eq in E. subst j. tauto.
  - apply String.eqb_neq in E. tauto.
Qed.

Lemma joined_names_empty_iff (f l : option string) :
  String.concat " " (ClerkRoute.filter_Boolean [f; l]) = ""
  <-> truthy f = false /\ truthy l = false.
Proof.
  simpl.
  destruct (truthy f) eqn:Hf; destruct (truthy l) eqn:Hl; simpl.
  - pose proof (truthy_value_nonempty _ Hf) as Hne.
    split; [|intros (H & _); discriminate].
    intro H. exfalso. revert H. now apply append_nonempty_l.
  - pose proof (truthy_value_nonempty _ Hf) as Hne.
    split; [intro H; now elim Hne | intros (H & _); discriminate].
  - pose proof (truthy_value_nonempty _ Hl) as Hne.
    split; [intro H; now elim Hne | intros (_ & H); discriminate].
  - tauto.
Qed.

(** X15. The name stored for a new user is empty only when the event has
    neither a first name, nor a last name, nor an e-mail address. *)
Theorem display_name_empty_iff (u : ClerkRoute.ClerkUser) (email : string) :
  ClerkRoute.display_name u email = ""
  <-> truthy (ClerkRoute.first_name u) = false
      /\ truthy (ClerkRoute.last_name u) = false
      /\ email = "".
Proof.
  unfold ClerkRoute.display_name.
  rewrite or_else_some_empty_iff, joined_names_empty_iff. tauto.
Qed.

(** X16. Creating case studies depends on the Clerk event having been
    processed. For a user id that has no user row and an e-mail address not
    yet taken: before the ['user.created'] event, [createCaseStudy] by that
    signed-in user is refused and writes nothing; after the route has
    processed the event, the same call returns a case study owned by that
    user, and the row is in the table. *)
Theorem clerk_event_enables_createCaseStudy (w : World)
    (evt : ClerkRoute.ClerkEvent) (caseStudy : NewCaseStudy) (s : Sys) :
  ClerkRoute.evt_type evt = "user.created" ->
  auth_userId w = Some (ClerkRoute.clerk_id (ClerkRoute.evt_data evt)) ->
  ClerkRoute.clerk_id (ClerkRoute.evt_data evt) <> "" ->
  has_user (db s) (ClerkRoute.clerk_id (ClerkRoute.evt_data evt)) = false ->
  email_taken (db s) (ClerkRoute.primary_email (ClerkRoute.evt_data evt))
  = false ->
  (exists e, createCaseStudy w caseStudy s = (Throws e, s))
  /\ exists row,
       let s1 := snd (ClerkRoute.POST (Returns evt) s) in
       fst (createCaseStudy w caseStudy s1) = Returns row
       /\ cs_user_id row = ClerkRoute.clerk_id (ClerkRoute.evt_data evt)
       /\ cs_title row = title caseStudy
       /\ In row (caseStudies (db (snd (createCaseStudy w caseStudy s1)))).
Proof.
  intros Htype Hauth Hne Hid Hemail.
  assert (Htruthy : truthy (auth_userId w) = true).
  { rewrite Hauth. simpl. apply negb_true_iff. now apply String.eqb_neq. }
  assert (Huid : or_else (auth_userId w) ""
                 = ClerkRoute.clerk_id (ClerkRoute.evt_data evt)).
  { unfold or_else. now rewrite Htruthy, Hauth. }
  split.
  - eexists. unfold createCaseStudy. rewrite Htruthy; simpl.
    unfold bind, run_stmt, insert_caseStudy. rewrite Huid, Hid.
    now rewrite sys_eta.
  - rewrite clerk_POST_run, Htype, Hid, Hemail. simpl.
    match goal with
    | |- context [createCaseStudy w caseStudy ?s0] => set (s1 := s0)
    end.
    assert (Huser' : has_user (db s1) (or_else (auth_userId w) "") = true).
    { rewrite Huid. unfold s1, has_user; simpl. rewrite existsb_app; simpl.
      now rewrite String.eqb_refl, orb_true_r. }
    rewrite (createCaseStudy_run w caseStudy s1 Htruthy Huser').
    eexists. cbn [fst snd db]. split; [reflexivity|].
    split; [exact Huid|]. split; [reflexivity|].
    simpl. apply in_or_app. right. now left.
Qed.

Lemma clerk_event_enables_createCaseStudy_witness :
  exists row,
    fst (createCaseStudy world_bob new_study
           (snd (ClerkRoute.POST (Returns ada_created)
                   (sys_of (db_one_file "processing")))))
    = Returns row
    /\ cs_user_id row = "user_2".
Proof.
  destruct (clerk_event_enables_createCaseStudy world_bob ada_created
              new_study (sys_of (db_one_file "processing")))
    as (_ & row & Hrun & Hown & _).
  - reflexivity.
  - reflexivity.
  - discriminate.
  - reflexivity.
  - reflexivity.
  - exists row. split; [exact Hrun | exact Hown].
Defined.

(* ===================================================================== *)
(** ** The upload list of the create page *)
(* ===================================================================== *)

Lemma endsWith_iff (s suffix : string) :
  endsWith s suffix = true <-> exists stem, s = (stem ++ suffix)%string.
Proof.
  split.
  - induction s as [|c s IH]; cbn [endsWith].
    + destruct ("" =? suffix) eqn:E; [|discriminate].
      apply String.eqb_eq in E. exists "". now subst.
    + destruct (String c s =? suffix) eqn:E.
      * apply String.eqb_eq in E. exists "". now subst.
      * intro H. destruct (IH H) as [stem ->]. now exists (String c stem).
  - intros [stem ->]. induction stem as [|c stem IH]; cbn [append].
    + destruct suffix as [|a t]; [reflexivity|].
      cbn [endsWith]. now rewrite String.eqb_refl.
    + cbn [endsWith]. rewrite IH. now destruct (_ =? _).
Qed.

Lemma toLowerCase_app (a b : string) :
  toLowerCase (a ++ b) = (toLowerCase a ++ toLowerCase b)%string.
Proof. induction a as [|c a IH]; simpl; [reflexivity | now rewrite IH]. Qed.

Lemma toLowerCase_split (a b : string) :
  forall s,
    toLowerCase s = (a ++ b)%string ->
    exists s1 s2,
      s = (s1 ++ s2)%string /\ toLowerCase s1 = a /\ toLowerCase s2 = b.
Proof.
  induction a as [|c a IH]; intros s H.
  - exists "", s. auto.
  - destruct s as [|x s]; [discriminate|].
    simpl in H. injection H as Hc Hrest.
    destruct (IH s Hrest) as (s1 & s2 & -> & H1 & H2).
    exists (String x s1), s2. simpl. rewrite Hc, H1. auto.
Qed.

(** X17. [onFileValidate] accepts a file exactly when the selection holds
    fewer than ten files, no entry of the list has both its name and its
    size, it has at most 104857600 bytes (a file of exactly 100 MB passes),
    and its type starts with [image/], or is [application/pdf], or its name
    ends in [.md] in any mix of upper and lower case, whatever its type. *)
Theorem onFileValidate_accepts_iff (files : list BrowserFile)
    (uploadedFiles : list FileWithStatus) (file : BrowserFile) :
  onFileValidate files uploadedFiles file = None
  <-> (List.length files < 10)%nat
      /\ (forall f, In f uploadedFiles -> fws_name f = bf_name file ->
                    bf_size (fws_content f) <> bf_size file)
      /\ N.le (bf_size file) 104857600
      /\ (startsWith (bf_type file) "image/" = true
          \/ bf_type file = "application/pdf"
          \/ exists stem ext,
               bf_name file = (stem ++ ext)%string
               /\ toLowerCase ext = ".md").
Proof.
  unfold onFileValidate.
  destruct (Nat.leb 10 (List.length files)) eqn:E1.
  { apply Nat.leb_le in E1. split; [discriminate|]. intros (H & _). lia. }
  apply Nat.leb_gt in E1.
  destruct (existsb _ uploadedFiles) eqn:E2.
  { split; [discriminate|]. intros (_ & H & _). exfalso.
    apply existsb_exists in E2 as (f & Hin & Hf).
    apply andb_true_iff in Hf as [Hn Hs].
    apply String.eqb_eq in Hn. apply N.eqb_eq in Hs.
    exact (H f Hin Hn Hs). }
  destruct (N.ltb MAX_SIZE (bf_size file)) eqn:E3.
  { apply N.ltb_lt in E3. change MAX_SIZE with 104857600%N in E3.
    split; [discriminate|]. intros (_ & _ & H & _). lia. }
  apply N.ltb_ge in E3. change MAX_SIZE with 104857600%N in E3.
  assert (Hdup : forall f, In f uploadedFiles -> fws_name f = bf_name file ->
                           bf_size (fws_content f) <> bf_size file).
  { intros f Hin Hn Hs.
    assert (Hex : existsb (fun f => (fws_name f =? bf_name file)
                                    && N.eqb (bf_size (fws_content f))
                                             (bf_size file))
                          uploadedFiles = true).
    { apply existsb_exists. exists f. split; [exact Hin|].
      apply andb_true_iff. split; [now apply String.eqb_eq | now apply N.eqb_eq]. }
    rewrite Hex in E2. discriminate. }
  destruct (startsWith (bf_type file) "image/"
            || (bf_type file =? "application/pdf")
            || endsWith (toLowerCase (bf_name file)) ".md") eqn:E4; simpl.
  - split; [|reflexivity]. intros _.
    split; [exact E1|]. split; [exact Hdup|]. split; [exact E3|].
    apply orb_true_iff in E4 as [E4|E4];
      [apply orb_true_iff in E4 as [E4|E4]|].
    + now left.
    + right; left. now apply String.eqb_eq.
    + right; right. apply endsWith_iff in E4 as [stem Hstem].
      destruct (toLowerCase_split stem ".md" _ Hstem) as (s1 & s2 & H1 & _ & H2).
      now exists s1, s2.
  - split; [discriminate|]. intros (_ & _ & _ & H). exfalso.
    apply orb_false_iff in E4 as [E4 E6].
    apply orb_false_iff in E4 as [E4 E5].
    destruct H as [H | [H | (stem & ext & Hname & Hext)]].
    + rewrite H in E4. discriminate.
    + apply String.eqb_eq in H. rewrite H in E5. discriminate.
    + assert (Hends : endsWith (toLowerCase (bf_name file)) ".md" = true).
      { apply endsWith_iff. exists (toLowerCase stem).
        now rewrite Hname, toLowerCase_app, Hext. }
      rewrite Hends in E6. discriminate.
Qed.

Lemma markSuccess_entry_ok (name url filePath : string)
    (prev : list FileWithStatus) :
  Forall entry_ok prev -> Forall entry_ok (markSuccess name url filePath prev).
Proof.
  intro H. unfold markSuccess. apply Forall_forall. intros f' Hin.
  apply in_map_iff in Hin as (f & <- & Hin).
  pose proof (proj1 (Forall_forall _ _) H f Hin) as Hok.
  destruct ((fws_name f =? name) && status_eqb (fws_status f) uploading)
    eqn:E; [|exact Hok].
  apply andb_true_iff in E as [_ E].
  unfold entry_ok in *. simpl.
  destruct (fws_status f); try discriminate.
  destruct Hok as (_ & He & _). split; [now exists url | exact He].
Qed.

Lemma markError_entry_ok (name message : string)
    (prev : list FileWithStatus) :
  Forall entry_ok prev -> Forall entry_ok (markError name message prev).
Proof.
  intro H. unfold markError. apply Forall_forall. intros f' Hin.
  apply in_map_iff in Hin as (f & <- & Hin).
  pose proof (proj1 (Forall_forall _ _) H f Hin) as Hok.
  destruct ((fws_name f =? name) && status_eqb (fws_status f) uploading)
    eqn:E; [|exact Hok].
  apply andb_true_iff in E as [_ E].
  unfold entry_ok in *. simpl.
  destruct (fws_status f); try discriminate.
  destruct Hok as (Hu & _ & Hp). split; [exact Hu|].
  split; [now exists message | exact Hp].
Qed.

Lemma apply_update_entry_ok (prev : list FileWithStatus) (u : ListUpdate) :
  Forall entry_ok prev -> Forall entry_ok (apply_update prev u).
Proof.
  intro H. destruct u as [file|name url filePath|name message|name]; simpl.
  - unfold addUploading. apply Forall_app. split; [exact H|].
    constructor; [|constructor]. unfold entry_ok; simpl. auto.
  - now apply markSuccess_entry_ok.
  - now apply markError_entry_ok.
  - unfold removeNamed. apply Forall_forall. intros f Hin.
    apply filter_In in Hin as [Hin _].
    exact (proj1 (Forall_forall _ _) H f Hin).
Qed.

Lemma updates_entry_ok (updates : list ListUpdate) :
  forall prev,
    Forall entry_ok prev -> Forall entry_ok (fold_left apply_update updates prev).
Proof.
  induction updates as [|u us IH]; intros prev H; simpl; [exact H|].
  apply IH. now apply apply_update_entry_ok.
Qed.

Lemma submitted_urls_of_ok (l : list FileWithStatus) :
  Forall entry_ok l ->
  List.length (submitted_urls l) = List.length (filter is_success l)
  /\ forall url,
       In url (submitted_urls l)
       <-> exists f, In f l /\ fws_status f = success /\ fws_url f = Some url.
Proof.
  induction 1 as [|f l Hf Hl [IHlen IHin]]; simpl.
  - split; [reflexivity|]. intro url. split; [contradiction|].
    intros (f & [] & _).
  - unfold entry_ok in Hf. unfold is_success at 1.
    destruct (fws_status f) eqn:Hs; simpl; try contradiction.
    + destruct Hf as (Hu & _). rewrite Hu. split; [exact IHlen|].
      intro url. rewrite IHin. split.
      * intros (g & Hin & H1 & H2). exists g. auto.
      * intros (g & [<-|Hin] & H1 & H2); [congruence|]. exists g. auto.
    + destruct Hf as ((u & Hu) & _). rewrite Hu. simpl.
      split; [now rewrite IHlen|].
      intro url. split.
      * intros [<-|Hin].
        -- exists f. auto.
        -- apply IHin in Hin as (g & Hin & H1 & H2). exists g. auto.
      * intros (g & [<-|Hin] & H1 & H2).
        -- left. congruence.
        -- right. apply IHin. exists g. auto.
    + destruct Hf as (Hu & _). rewrite Hu. split; [exact IHlen|].
      intro url. rewrite IHin. split.
      * intros (g & Hin & H1 & H2). exists g. auto.
      * intros (g & [<-|Hin] & H1 & H2); [congruence|]. exists g. auto.
Qed.

(** X18. Whatever sequence of additions, completions, failures and
    removals the create page applies to its list, starting from the empty
    list: an entry has a URL exactly when its status is [success], a failed
    entry has an error message and no URL, an entry still uploading has
    neither; and the URLs handed to [createCaseStudy] are those of the
    successful entries, one for each, so that files still uploading or
    failed are left out of the case study without notice. *)
Theorem upload_list_invariant (updates : list ListUpdate) :
  let l := fold_left apply_update updates [] in
  Forall entry_ok l
  /\ List.length (submitted_urls l) = List.length (filter is_success l)
  /\ forall url,
       In url (submitted_urls l)
       <-> exists f, In f l /\ fws_status f = success /\ fws_url f = Some url.
Proof.
  intro l.
  assert (H : Forall entry_ok l) by (apply updates_entry_ok; constructor).
  split; [exact H|]. now apply submitted_urls_of_ok.
Qed.

Lemma settle_leaves_none_uploading (name : string) (u : ListUpdate)
    (prev : list FileWithStatus) (f : FileWithStatus) :
  settles name u = true ->
  In f (apply_update prev u) -> fws_name f = name ->
  fws_status f <> uploading.
Proof.
  intros Hu Hin Hname.
  destruct u as [file|n url filePath|n message|n]; simpl in Hu;
    try discriminate; apply String.eqb_eq in Hu; subst n; simpl in Hin.
  - unfold markSuccess in Hin. apply in_map_iff in Hin as (g & Hg & _).
    destruct ((fws_name g =? name) && status_eqb (fws_status g) uploading)
      eqn:E; subst f; simpl; [discriminate|].
    intro Hs. rewrite Hs, Hname, String.eqb_refl in E. discriminate.
  - unfold markError in Hin. apply in_map_iff in Hin as (g & Hg & _).
    destruct ((fws_name g =? name) && status_eqb (fws_status g) uploading)
      eqn:E; subst f; simpl; [discriminate|].
    intro Hs. rewrite Hs, Hname, String.eqb_refl in E. discriminate.
Qed.

Lemma settle_without_uploading (name : string) (u : ListUpdate)
    (l : list FileWithStatus) :
  settles name u = true ->
  (forall f, In f l -> fws_name f = name -> fws_status f <> uploading) ->
  apply_update l u = l.
Proof.
  intros Hu Hnone.
  assert (Hcond : forall f, In f l ->
            (fws_name f =? name) && status_eqb (fws_status f) uploading
            = false).
  { intros f Hin. destruct (fws_name f =? name) eqn:E; [|reflexivity].
    apply String.eqb_eq in E. specialize (Hnone f Hin E).
    destruct (fws_status f); simpl; try reflexivity. now elim Hnone. }
  destruct u as [file|n url filePath|n message|n]; simpl in Hu;
    try discriminate; apply String.eqb_eq in Hu; subst n; simpl.
  - unfold markSuccess. rewrite <- (map_id l) at 2. apply map_ext_in.
    intros f Hin. now rewrite (Hcond f Hin).
  - unfold markError. rewrite <- (map_id l) at 2. apply map_ext_in.
    intros f Hin. now rewrite (Hcond f Hin).
Qed.

(** X19. Entries of the upload list are matched by name alone. Two files
    of the same name and different sizes both pass the duplicate check, and
    the first upload of that name to finish settles both entries alike:
    same status, same URL, same error, though each keeps its own file. The
    second upload to finish changes nothing, so its outcome never shows. *)
Theorem same_name_uploads_settle_together (a b : BrowserFile)
    (first second : ListUpdate) (files : list BrowserFile)
    (prev : list FileWithStatus) :
  bf_name a = bf_name b ->
  settles (bf_name a) first = true ->
  settles (bf_name a) second = true ->
  (bf_size a <> bf_size b ->
   onFileValidate files (addUploading a prev) b
   = onFileValidate files prev b)
  /\ fold_left apply_update [Added a; Added b; first; second] prev
     = fold_left apply_update [Added a; Added b; first] prev
  /\ exists rest ea eb,
       fold_left apply_update [Added a; Added b; first] prev
       = (rest ++ [ea; eb])%list
       /\ fws_content ea = a /\ fws_content eb = b
       /\ fws_status ea <> uploading
       /\ fws_status eb = fws_status ea
       /\ fws_url eb = fws_url ea
       /\ fws_error eb = fws_error ea
       /\ fws_filePath eb = fws_filePath ea.
Proof.
  intros Hname H1 H2. split; [|split].
  - intro Hsize. unfold onFileValidate, addUploading.
    rewrite existsb_app. simpl.
    apply N.eqb_neq in Hsize. rewrite Hsize, andb_false_r, !orb_false_r.
    reflexivity.
  - cbn [fold_left].
    apply (settle_without_uploading (bf_name a)); [exact H2|].
    intros f Hin Hf. exact (settle_leaves_none_uploading _ _ _ f H1 Hin Hf).
  - cbn [fold_left].
    change (apply_update (apply_update prev (Added a)) (Added b))
      with (addUploading b (addUploading a prev)).
    unfold addUploading. rewrite <- app_assoc. simpl app.
    destruct first as [file|n url filePath|n message|n]; simpl in H1;
      try discriminate; apply String.eqb_eq in H1; subst n; simpl.
    + unfold markSuccess. rewrite map_app. simpl.
      rewrite <- Hname, String.eqb_refl. simpl.
      eexists _, _, _. split; [reflexivity|]. simpl.
      repeat split; auto. discriminate.
    + unfold markError. rewrite map_app. simpl.
      rewrite <- Hname, String.eqb_refl. simpl.
      eexists _, _, _. split; [reflexivity|]. simpl.
      repeat split; auto. discriminate.
Qed.

Lemma same_name_uploads_settle_together_witness :
  fold_left apply_update
    [Added report_v1; Added report_v2;
     Succeeded "report.pdf" "https://cdn.example/report.pdf"
               "user_1/files/report.pdf";
     Failed "report.pdf" "Failed to upload report.pdf: The resource already exists"]
    []
  = fold_left apply_update
      [Added report_v1; Added report_v2;
       Succeeded "report.pdf" "https://cdn.example/report.pdf"
                 "user_1/files/report.pdf"]
      [].
Proof.
  apply (proj1 (proj2 (same_name_uploads_settle_together report_v1 report_v2
                         (Succeeded "report.pdf" "https://cdn.example/report.pdf"
                                    "user_1/files/report.pdf")
                         (Failed "report.pdf"
                                 "Failed to upload report.pdf: The resource already exists")
                         [] [] eq_refl eq_refl eq_refl))).
Defined.

Lemma signed_in_false (session : option Session) :
  signed_in session = false ->
  negb (truthy (match session with
                | Some sess => session_token sess
                | None => None
                end))
  || negb (truthy (option_map session_user_id session)) = true.
Proof.
  destruct session as [sess|]; simpl; [|reflexivity].
  intro H. apply andb_false_iff in H as [H|H]; simpl in H; rewrite H;
    [reflexivity | apply orb_true_r].
Qed.

Lemma signed_in_true (session : option Session) :
  signed_in session = true ->
  negb (truthy (match session with
                | Some sess => session_token sess
                | None => None
                end))
  || negb (truthy (option_map session_user_id session)) = false
  /\ or_else (option_map session_user_id session) "" = session_user session.
Proof.
  destruct session as [sess|]; simpl; [|discriminate].
  intro H. apply andb_true_iff in H as [H1 H2]. simpl in H2.
  rewrite H1. unfold or_else. simpl. rewrite H2. auto.
Qed.

(** X20. The upload of one file always ends in one update for that file's
    name and never throws, nor touches the database. It is [Succeeded] only
    when the session has a token and a user id and the storage accepts the
    object; the object is then stored at [<user id>/files/<file name>], a
    path that does not depend on the file's content, and the URL is the
    public URL of that path. Without a session nothing is sent to the
    storage. When the storage refuses the object or the call throws, the
    update is [Failed] and the bucket is as before. *)
Theorem settleUpload_outcome (w : World) (session : option Session)
    (file : BrowserFile) (s : Sys) :
  exists u s',
    settleUpload w session file s = (Returns u, s')
    /\ settles (bf_name file) u = true
    /\ db s' = db s
    /\ (signed_in session = false ->
        u = Failed (bf_name file) "No token or user id found" /\ s' = s)
    /\ (signed_in session = true ->
        let o := upload_object (session_user session) file in
        trace s' = (trace s ++ [EvUpload o])%list
        /\ match storage_upload w (bucket s) false o with
           | Uploaded =>
               u = Succeeded (bf_name file)
                             (storage_publicUrl w (obj_path o)) (obj_path o)
               /\ bucket s' = (bucket s ++ [o])%list
           | UploadError e =>
               u = Failed (bf_name file)
                          ("Failed to upload " ++ bf_name file ++ ": " ++ e)
               /\ bucket s' = bucket s
           | UploadThrows e =>
               u = Failed (bf_name file) e /\ bucket s' = bucket s
           end).
Proof.
  destruct (signed_in session) eqn:Hs.
  - destruct (signed_in_true session Hs) as [Hguard Huser].
    unfold settleUpload, try_catch. cbv zeta. rewrite Hguard, Huser.
    unfold bind, uploadFile, bind, storage_from_files_upload, bind, emit,
      ret, throw.
    cbn [db bucket trace fst snd].
    fold (upload_object (session_user session) file).
    destruct (storage_upload w (bucket s) false
                (upload_object (session_user session) file)) eqn:Hup;
      eexists _, _; (split; [reflexivity|]); cbn [settles db bucket trace];
      rewrite String.eqb_refl;
      (split; [reflexivity|]); (split; [reflexivity|]);
      (split; [discriminate|]); intros _; cbv zeta;
      (split; [reflexivity|]); split; reflexivity.
  - pose proof (signed_in_false session Hs) as Hguard.
    unfold settleUpload, try_catch. cbv zeta. rewrite Hguard.
    unfold throw, ret. eexists _, _. split; [reflexivity|].
    cbn [settles]. rewrite String.eqb_refl.
    split; [reflexivity|]. split; [reflexivity|].
    split; [auto | discriminate].
Qed.

(** X21. [onDelete] without a token leaves the list alone. With a token it
    takes every entry of that name off the list, whatever the storage
    answers: when the storage refuses the removal the toast reports the
    failure, but the entry is gone from the list while the object stays in
    the bucket. The database is never touched. *)
Theorem onDelete_effect
    (remove : list StoredObject -> list string -> option string)
    (token : option string) (file : FileWithStatus)
    (prev : list FileWithStatus) (s : Sys) :
  (truthy token = false ->
   onDelete remove token file prev s
   = (Returns (ToastError "No token found", prev), s))
  /\ (truthy token = true ->
      exists toast s',
        onDelete remove token file prev s
        = (Returns (toast, removeNamed (fws_name file) prev), s')
        /\ db s' = db s
        /\ (forall f, In f (removeNamed (fws_name file) prev) ->
                      fws_name f <> fws_name file)
        /\ (forall message,
               remove (bucket s) [fws_filePath file] = Some message ->
               toast = ToastError "Failed to delete file" /\ s' = s)
        /\ (remove (bucket s) [fws_filePath file] = None ->
            toast = ToastSuccess "File deleted successfully"
            /\ forall o, In o (bucket s') ->
                         In o (bucket s) /\ obj_path o <> fws_filePath file)).
Proof.
  split.
  - intro H. unfold onDelete. now rewrite H.
  - intro H. unfold onDelete. rewrite H. cbn [negb].
    unfold try_catch, bind, deleteFiles, ret.
    assert (Hgone : forall f, In f (removeNamed (fws_name file) prev) ->
                              fws_name f <> fws_name file).
    { intros f Hin. apply filter_In in Hin as [_ Hne].
      now apply negb_true_iff, String.eqb_neq in Hne. }
    destruct (remove (bucket s) [fws_filePath file]) as [message|] eqn:Hrm.
    + eexists _, _. split; [reflexivity|]. split; [reflexivity|].
      split; [exact Hgone|]. split; [auto | discriminate].
    + eexists _, _. split; [reflexivity|]. split; [reflexivity|].
      split; [exact Hgone|]. split; [discriminate|].
      intros _. split; [reflexivity|].
      intros o Hin. cbn [bucket] in Hin.
      apply filter_In in Hin as [Hin Hne]. split; [exact Hin|].
      simpl in Hne. rewrite orb_false_r in Hne.
      apply negb_true_iff, String.eqb_neq in Hne. congruence.
Qed.

(* ===================================================================== *)
(** ** Keys are drawn once *)
(* ===================================================================== *)

Lemma step_caseStudies (op : Op) (s : Sys) (c : CaseStudy) :
  In c (caseStudies (db (step s op))) ->
  (exists c0, In c0 (caseStudies (db s)) /\ cs_id c0 = cs_id c)
  \/ (cs_id c = uuid_seed (db s)
      /\ N.lt (uuid_seed (db s)) (uuid_seed (db (step s op)))).
Proof.
  destruct op as [id name email|w caseStudy|w request|w id summary|w id
                  |w fileContent id]; simpl step.
  - unfold createUserProfile, run_stmt, insert_user.
    destruct (_ || _); simpl; intro Hin; left; eauto.
  - destruct (truthy (auth_userId w)) eqn:Hauth.
    + destruct (has_user (db s) (or_else (auth_userId w) "")) eqn:Huser.
      * rewrite (createCaseStudy_run w caseStudy s Hauth Huser). simpl.
        intro Hin. apply in_app_or in Hin as [Hin|[<-|[]]]; [left; eauto|].
        right. simpl. split; [reflexivity | lia].
      * unfold createCaseStudy. rewrite Hauth; simpl.
        unfold bind, run_stmt, insert_caseStudy. rewrite Huser. simpl.
        intro Hin; left; eauto.
    + unfold createCaseStudy. rewrite Hauth; simpl. intro Hin; left; eauto.
  - destruct (POST_db w request s)
      as [-> | (requestId & result & fileId & rows & -> & _)];
      simpl; intro Hin; left; eauto.
  - destruct (saveCaseStudy_cases w id summary s) as [-> | (key & _ & ->)];
      [intro Hin; left; eauto|].
    simpl. unfold described. intro Hin.
    apply in_map_iff in Hin as (c0 & <- & Hin).
    left. exists c0. split; [exact Hin|].
    now destruct (N.eqb (cs_id c0) key).
  - destruct (truthy (auth_userId w)) eqn:Hauth.
    + destruct (parse_uuid id) as [key|] eqn:Hkey.
      * rewrite (deleteCaseStudy_parsed w id key s Hauth Hkey).
        destruct (has_caseStudy (db s) key);
          [destruct (image_references_file_of (db s) key)|]; simpl;
          intro Hin; left; try (apply filter_In in Hin as [Hin _]); eauto.
      * rewrite (deleteCaseStudy_malformed w id s Hauth Hkey).
        intro Hin; left; eauto.
    + unfold deleteCaseStudy. rewrite Hauth; simpl. intro Hin; left; eauto.
  - destruct (truthy (auth_userId w)) eqn:Hauth.
    + rewrite (createOnePager_run w fileContent id s Hauth).
      destruct (gemini_text w fileContent);
        [destruct (has_caseStudy (db s) id)|]; simpl;
        intro Hin; left; eauto.
    + unfold createOnePager. rewrite Hauth; simpl. intro Hin; left; eauto.
Qed.

Lemma step_summaries (op : Op) (s : Sys) (m : CaseStudySummary) :
  In m (caseStudySummaries (db (step s op))) ->
  In m (caseStudySummaries (db s))
  \/ (sum_id m = uuid_seed (db s)
      /\ N.lt (uuid_seed (db s)) (uuid_seed (db (step s op)))).
Proof.
  destruct op as [id name email|w caseStudy|w request|w id summary|w id
                  |w fileContent id]; simpl step.
  - unfold createUserProfile, run_stmt, insert_user.
    destruct (_ || _); simpl; intro Hin; left; eauto.
  - destruct (truthy (auth_userId w)) eqn:Hauth.
    + destruct (has_user (db s) (or_else (auth_userId w) "")) eqn:Huser.
      * rewrite (createCaseStudy_run w caseStudy s Hauth Huser). simpl.
        intro Hin; left; eauto.
      * unfold createCaseStudy. rewrite Hauth; simpl.
        unfold bind, run_stmt, insert_caseStudy. rewrite Huser. simpl.
        intro Hin; left; eauto.
    + unfold createCaseStudy. rewrite Hauth; simpl. intro Hin; left; eauto.
  - destruct (POST_db w request s)
      as [-> | (requestId & result & fileId & rows & -> & _)];
      simpl; intro Hin; left; eauto.
  - destruct (saveCaseStudy_cases w id summary s) as [-> | (key & _ & ->)];
      intro Hin; left; exact Hin.
  - destruct (truthy (auth_userId w)) eqn:Hauth.
    + destruct (parse_uuid id) as [key|] eqn:Hkey.
      * rewrite (deleteCaseStudy_parsed w id key s Hauth Hkey).
        destruct (has_caseStudy (db s) key);
          [destruct (image_references_file_of (db s) key)|]; simpl;
          intro Hin; left; try (apply filter_In in Hin as [Hin _]); eauto.
      * rewrite (deleteCaseStudy_malformed w id s Hauth Hkey).
        intro Hin; left; eauto.
    + unfold deleteCaseStudy. rewrite Hauth; simpl. intro Hin; left; eauto.
  - destruct (truthy (auth_userId w)) eqn:Hauth.
    + rewrite (createOnePager_run w fileContent id s Hauth).
      destruct (gemini_text w fileContent);
        [destruct (has_caseStudy (db s) id)|]; simpl;
        intro Hin; try (left; exact Hin).
      apply in_app_or in Hin as [Hin|[<-|[]]]; [now left|].
      right. simpl. split; [reflexivity | lia].
    + unfold createOnePager. rewrite Hauth; simpl. intro Hin; left; eauto.
Qed.

Lemma step_keys_below_seed (op : Op) (s : Sys) :
  keys_below_seed (db s) -> keys_below_seed (db (step s op)).
Proof.
  intros (Hc & Hf & Hm).
  destruct (step_files_step op s) as [Hseed _].
  split; [|split].
  - intros c Hin.
    destruct (step_caseStudies op s c Hin) as [(c0 & Hin0 & <-) | (-> & Hlt)];
      [|exact Hlt].
    specialize (Hc c0 Hin0). lia.
  - exact (step_ids_below_seed op s Hf).
  - intros m Hin.
    destruct (step_summaries op s m Hin) as [Hin0 | (-> & Hlt)]; [|exact Hlt].
    specialize (Hm m Hin0). lia.
Qed.

Lemma run_keys_below_seed (ops : list Op) :
  forall s, keys_below_seed (db s) -> keys_below_seed (db (run ops s)).
Proof.
  induction ops as [|op ops IH]; intros s H; [exact H|].
  simpl. apply IH. now apply step_keys_below_seed.
Qed.

Lemma initial_keys_below_seed : keys_below_seed (db initial).
Proof. repeat split; intros x []. Qed.

Lemma initial_fk_consistent : fk_consistent (db initial).
Proof. repeat split; intros x []. Qed.

(* ===================================================================== *)
(** ** From the create page to the case-study page *)
(* ===================================================================== *)

Lemma filter_none {A} (p : A -> bool) (l : list A) :
  (forall x, In x l -> p x = false) -> filter p l = [].
Proof.
  induction l as [|x l IH]; intro H; simpl; [reflexivity|].
  rewrite (H x (or_introl eq_refl)). apply IH. intros y Hy. apply H. now right.
Qed.

Lemma filter_all {A} (p : A -> bool) (l : list A) :
  (forall x, In x l -> p x = true) -> filter p l = l.
Proof.
  induction l as [|x l IH]; intro H; simpl; [reflexivity|].
  rewrite (H x (or_introl eq_refl)). f_equal. apply IH.
  intros y Hy. apply H. now right.
Qed.

Lemma has_caseStudy_below (d : Db) (id : Uuid) :
  keys_below_seed d -> has_caseStudy d id = true -> N.lt id (uuid_seed d).
Proof.
  intros (Hc & _) H. apply existsb_exists in H as (c & Hin & Hid).
  apply N.eqb_eq in Hid. subst id. exact (Hc c Hin).
Qed.

Lemma has_file_below (d : Db) (id : Uuid) :
  keys_below_seed d -> has_file d id = true -> N.lt id (uuid_seed d).
Proof.
  intros (_ & Hf & _) H. apply existsb_exists in H as (f & Hin & Hid).
  apply N.eqb_eq in Hid. subst id. exact (Hf f Hin).
Qed.

(** What the case-study page reads right after [createCaseStudy]. *)
Lemma new_caseStudy_tables (w : World) (caseStudy : NewCaseStudy) (d : Db)
    (done : list (string * MarkerApiResponse)) :
  keys_below_seed d -> fk_consistent d ->
  let row := new_caseStudy_row w caseStudy d in
  let rows := file_rows (cs_id row) (N.succ (uuid_seed d)) done in
  let d1 := add_files
              (next_uuid (with_caseStudies d (caseStudies d ++ [row]))) rows in
  caseStudy_with_id d1 (uuid_seed d) = Some row
  /\ files_of d1 (uuid_seed d) = rows
  /\ (forall f, In f rows -> images_of d1 (f_id f) = [])
  /\ summaries_of d1 (uuid_seed d) = [].
Proof.
  intros Hkeys (H1 & H2 & H3 & H4) row rows d1.
  pose proof Hkeys as (Hc & Hf & Hm).
  split; [|split; [|split]].
  - unfold caseStudy_with_id, d1. simpl. rewrite filter_app.
    rewrite filter_none.
    + simpl. now rewrite N.eqb_refl.
    + intros c Hin. apply N.eqb_neq. specialize (Hc c Hin). lia.
  - unfold files_of, d1. simpl. rewrite filter_app.
    rewrite filter_none, filter_all; [reflexivity| |].
    + intros f Hin.
      destruct (file_rows_fields _ _ f _ Hin) as [-> _]. apply N.eqb_refl.
    + intros f Hin. apply N.eqb_neq.
      pose proof (has_caseStudy_below d _ Hkeys (H2 f Hin)). lia.
  - intros f Hin. unfold images_of, d1. simpl.
    apply filter_none. intros i Hi. apply N.eqb_neq.
    pose proof (has_file_below d _ Hkeys (H3 i Hi)).
    destruct (file_rows_ids _ _ f _ Hin) as (Hge & _). lia.
  - unfold summaries_of, d1. simpl.
    apply filter_none. intros m Hin. apply N.eqb_neq.
    pose proof (has_caseStudy_below d _ Hkeys (H4 m Hin)). lia.
Qed.

Lemma file_rows_processing (caseStudyId : Uuid)
    (done : list (string * MarkerApiResponse)) :
  forall seed,
    hasProcessingFiles (file_rows caseStudyId seed done) = nonempty done
    /\ Forall (fun f => f_status f = "processing" /\ f_markdown f = None)
              (file_rows caseStudyId seed done).
Proof.
  induction done as [|[url result] rest IH]; intro seed; simpl.
  - split; [reflexivity | constructor].
  - split; [reflexivity|]. constructor; [simpl; auto|]. apply IH.
Qed.

(** X22. The page a new case study opens on. In a state where the foreign
    keys hold and keys were drawn from the supply (as in every state the
    requests reach from the empty database), after [createCaseStudy] by a
    signed-in user with a user row, mounting the page of the new id, by any
    viewer, loads that case study with one file per URL whose download and
    submission succeeded, each in status "processing", without text or
    images, and without summaries. The page shows its loading state exactly
    when at least one submission succeeded, and starts the timer whatever
    it found. If nothing changes before the timer first fires, that run
    fetches the same case study again, and the timer survives it exactly
    when at least one submission succeeded: when every file failed the page
    fetches twice, then stops, and shows a loaded, empty case study with no
    trace of the failures. *)
Theorem new_caseStudy_page (w viewer : World) (caseStudy : NewCaseStudy)
    (s : Sys) :
  truthy (auth_userId w) = true ->
  has_user (db s) (or_else (auth_userId w) "") = true ->
  keys_below_seed (db s) ->
  fk_consistent (db s) ->
  let done := successes w (task_order w (fileUrls caseStudy)) in
  let s1 := snd (createCaseStudy w caseStudy s) in
  exists data,
    mount viewer (uuid_seed (db s)) s1
    = (Returns (mkPage (Some data) (nonempty done) true [] None), s1)
    /\ tick viewer (uuid_seed (db s))
            (mkPage (Some data) (nonempty done) true [] None) s1
       = (Returns (mkPage (Some data) (nonempty done) (nonempty done) [] None),
          s1)
    /\ cwf_caseStudy data = new_caseStudy_row w caseStudy (db s)
    /\ map (fun p => f_file_url (fst p)) (cwf_files data) = map fst done
    /\ Forall (fun p => f_status (fst p) = "processing"
                        /\ f_markdown (fst p) = None /\ snd p = [])
              (cwf_files data)
    /\ cwf_summaries data = [].
Proof.
  intros Hauth Huser Hkeys Hfk done s1.
  unfold s1. rewrite (createCaseStudy_run w caseStudy s Hauth Huser).
  cbn [snd]. fold done.
  destruct (new_caseStudy_tables w caseStudy (db s) done Hkeys Hfk)
    as (Hc & Hf & Hi & Hm).
  set (row := new_caseStudy_row w caseStudy (db s)) in *.
  set (rows := file_rows (cs_id row) (N.succ (uuid_seed (db s))) done) in *.
  set (d1 := add_files _ rows) in *.
  assert (Hmap : map fst (map (fun f => (f, images_of d1 (f_id f))) rows)
                 = rows).
  { rewrite map_map. simpl. apply map_id. }
  destruct (file_rows_processing (cs_id row) done (N.succ (uuid_seed (db s))))
    as [Hproc Hall]. fold rows in Hproc, Hall.
  set (data := mkCaseStudyWithFiles row
                 (map (fun f => (f, images_of d1 (f_id f))) rows) []).
  assert (Hget : forall st,
             db st = d1 ->
             getCaseStudyById viewer (uuid_seed (db s)) st = (Returns data, st)).
  { intros st Hst. rewrite getCaseStudyById_run, Hst, Hc, Hf, Hm.
    unfold data. now destruct rows. }
  assert (Hstill : hasProcessingFiles (map fst (cwf_files data))
                   = nonempty done).
  { unfold data. cbn [cwf_files]. now rewrite Hmap, Hproc. }
  exists data. split; [|split; [|split; [|split; [|split]]]].
  - unfold mount, fetchCaseStudy, try_catch, bind.
    rewrite Hget by reflexivity. cbn [ret]. rewrite Hstill. reflexivity.
  - unfold tick. cbn [page_interval].
    unfold fetchCaseStudy, try_catch, bind.
    rewrite Hget by reflexivity. cbn [ret page_interval page_toasts page_pushed].
    rewrite Hstill. now destruct (nonempty done).
  - reflexivity.
  - unfold data. cbn [cwf_files]. rewrite map_map. simpl.
    apply (file_rows_urls (cs_id row) done).
  - unfold data. cbn [cwf_files]. apply Forall_forall. intros p Hin.
    apply in_map_iff in Hin as (f & <- & Hin). simpl.
    destruct (proj1 (Forall_forall _ _) Hall f Hin) as [Hs Hmd].
    split; [exact Hs|]. split; [exact Hmd | exact (Hi f Hin)].
  - reflexivity.
Qed.

Lemma new_caseStudy_page_witness :
  exists data,
    mount world_signed_out 2%N
      (snd (createCaseStudy world_ok new_study
              (sys_of (db_one_file "processing"))))
    = (Returns (mkPage (Some data) true true [] None),
       snd (createCaseStudy world_ok new_study
              (sys_of (db_one_file "processing"))))
    /\ cwf_summaries data = [].
Proof.
  destruct (new_caseStudy_page world_ok world_signed_out new_study
              (sys_of (db_one_file "processing")))
    as (data & Hrun & _ & _ & _ & _ & Hsum).
  - reflexivity.
  - reflexivity.
  - split; [|split]; simpl.
    + intros c [<-|[]]. reflexivity.
    + intros f [<-|[]]. reflexivity.
    + intros m [].
  - apply db_one_file_consistent.
  - exists data. split; [exact Hrun | exact Hsum].
Defined.

Lemma or_else_some_empty (x : string) : or_else (Some x) "" = x.
Proof.
  unfold or_else, truthy. destruct (x =? "") eqn:E; simpl; [|reflexivity].
  apply String.eqb_eq in E. now subst.
Qed.

Lemma caseStudy_with_id_has (d : Db) (id : Uuid) (c : CaseStudy) :
  caseStudy_with_id d id = Some c -> has_caseStudy d id = true.
Proof.
  unfold caseStudy_with_id, has_caseStudy. intro H.
  destruct (filter _ (caseStudies d)) as [|c0 rest] eqn:Hf; [discriminate|].
  assert (Hin : In c0 (filter (fun c => N.eqb (cs_id c) id) (caseStudies d)))
    by (rewrite Hf; now left).
  apply filter_In in Hin as [Hin Hid].
  apply existsb_exists. eauto.
Qed.

Lemma find_after_misses {A} (p : A -> bool) (l : list A) (y : A) :
  (forall x, In x l -> p x = false) -> p y = true ->
  find p (l ++ [y]) = Some y.
Proof.
  induction l as [|x l IH]; intros H Hy; simpl.
  - now rewrite Hy.
  - rewrite (H x (or_introl eq_refl)). apply IH; [|exact Hy].
    intros z Hz. apply H. now right.
Qed.

(** X23. The one-pager round trip. The page holds the case study as
    [getCaseStudyById] returned it; its first file has a non-empty text and
    the model answers that text with [text]. Then [handleCreateOnePager]
    summarises the first file only, reports success and appends one summary
    to the page's copy; a later [getCaseStudyById], by any viewer, returns
    the same files and the same list of summaries as the page's copy, and
    the summary page shows [text] for the new summary's id. Keys below the
    seed is what every reachable state satisfies. *)
Theorem one_pager_round_trip (w viewer : World) (id : Uuid)
    (data : CaseStudyWithFiles) (md text : string) (s : Sys) :
  truthy (auth_userId w) = true ->
  getCaseStudyById w id s = (Returns data, s) ->
  first_markdown (Some data) = Some md ->
  md <> "" ->
  gemini_text w md = Returns text ->
  keys_below_seed (db s) ->
  exists m s',
    handleCreateOnePager w (Some data) id s
    = (Returns (ToastSuccess "One pager created successfully",
                Some (mkCaseStudyWithFiles (cwf_caseStudy data)
                        (cwf_files data) (cwf_summaries data ++ [m]))),
       s')
    /\ sum_summary m = text
    /\ sum_case_study_id m = id
    /\ exists again,
         getCaseStudyById viewer id s' = (Returns again, s')
         /\ cwf_caseStudy again = cwf_caseStudy data
         /\ cwf_files again = cwf_files data
         /\ cwf_summaries again = (cwf_summaries data ++ [m])%list
         /\ editor_value again (sum_id m) = text.
Proof.
  intros Hauth Hget Hmd Hne Hgem Hkeys.
  rewrite getCaseStudyById_run in Hget.
  destruct (caseStudy_with_id (db s) id) as [c|] eqn:Hc; [|discriminate].
  pose proof (caseStudy_with_id_has _ _ _ Hc) as Hhas.
  injection Hget as Hdata.
  destruct (files_of (db s) id) as [|f0 fs] eqn:Hfiles.
  { subst data. discriminate. }
  set (m := new_summary_row (db s) id text).
  exists m, (mkSys (add_summary (db s) m) (bucket s) (trace s)).
  assert (Htruthy : truthy (first_markdown (Some data)) = true).
  { rewrite Hmd. simpl. apply negb_true_iff. now apply String.eqb_neq. }
  split; [|split; [reflexivity|split; [reflexivity|]]].
  - unfold handleCreateOnePager. rewrite Htruthy. cbn [negb].
    rewrite Hmd, or_else_some_empty.
    unfold try_catch, bind.
    rewrite (createOnePager_run w md id s Hauth), Hgem, Hhas.
    reflexivity.
  - rewrite getCaseStudyById_run. cbn [db].
    change (caseStudy_with_id (add_summary (db s) m) id)
      with (caseStudy_with_id (db s) id).
    change (files_of (add_summary (db s) m) id) with (files_of (db s) id).
    rewrite Hc, Hfiles.
    assert (Hsum : summaries_of (add_summary (db s) m) id
                   = (summaries_of (db s) id ++ [m])%list).
    { unfold summaries_of. simpl. rewrite filter_app. simpl.
      now rewrite N.eqb_refl. }
    rewrite Hsum. eexists. split; [reflexivity|].
    subst data. cbn [cwf_caseStudy cwf_files cwf_summaries].
    split; [reflexivity|]. split; [reflexivity|]. split; [reflexivity|].
    unfold editor_value. cbn [cwf_summaries].
    rewrite (find_after_misses _ _ m).
    + simpl. apply or_else_some_empty.
    + intros x Hin. apply filter_In in Hin as [Hin _].
      destruct Hkeys as (_ & _ & Hm). specialize (Hm x Hin).
      apply N.eqb_neq. simpl. lia.
    + simpl. apply N.eqb_refl.
Qed.

Lemma one_pager_round_trip_witness :
  exists m s',
    handleCreateOnePager world_ok
      (Some (mkCaseStudyWithFiles study [(file_done, [])] [])) 0%N
      (sys_of db_done)
    = (Returns (ToastSuccess "One pager created successfully",
                Some (mkCaseStudyWithFiles study [(file_done, [])] [m])),
       s')
    /\ exists again,
         getCaseStudyById world_signed_out 0%N s' = (Returns again, s')
         /\ editor_value again (sum_id m) = "Summary of # Report".
Proof.
  destruct (one_pager_round_trip world_ok world_signed_out 0%N
              (mkCaseStudyWithFiles study [(file_done, [])] [])
              "# Report" ("Summary of # Report") (sys_of db_done))
    as (m & s' & Hrun & _ & _ & again & Hget & _ & _ & _ & Hshow).
  - reflexivity.
  - reflexivity.
  - reflexivity.
  - discriminate.
  - reflexivity.
  - split; [|split]; simpl.
    + intros c [<-|[]]. reflexivity.
    + intros f [<-|[]]. reflexivity.
    + intros x [].
  - exists m, s'. split; [exact Hrun|]. exists again. auto.
Defined.

Lemma downloads_app (t1 t2 : list Event) :
  downloads (t1 ++ t2) = (downloads t1 ++ downloads t2)%list.
Proof.
  induction t1 as [|e t1 IH]; simpl; [reflexivity|].
  destruct e; simpl; now rewrite IH.
Qed.

(** X24. Submitting the create form. When nobody is signed in, or the
    signed-in user has no row in the user table, the page stays where it is
    with the toast "Failed to generate case study. Please try again." and
    nothing was written. Otherwise the browser is sent to the page of the
    case study that was just inserted: the row with the pushed id holds the
    project name as title, no description, and the client and industry as
    typed, an empty field being stored as null; the files downloaded are
    the URLs of the list's entries that have one, in the order the tasks
    run. *)
Theorem handleGenerate_outcome (w : World) (projectName : string)
    (clientName industry : option string)
    (uploadedFiles : list FileWithStatus) (s : Sys) :
  (truthy (auth_userId w) = false
   \/ has_user (db s) (or_else (auth_userId w) "") = false ->
   handleGenerate w projectName clientName industry uploadedFiles s
   = (Returns (Stayed (ToastError
                         "Failed to generate case study. Please try again.")),
      s))
  /\ (truthy (auth_userId w) = true ->
      has_user (db s) (or_else (auth_userId w) "") = true ->
      exists s',
        handleGenerate w projectName clientName industry uploadedFiles s
        = (Returns (Pushed ("/dashboard/case-studies/"
                              ++ show_uuid (uuid_seed (db s)))), s')
        /\ In (mkCaseStudy (uuid_seed (db s)) (or_else (auth_userId w) "")
                           projectName None
                           (if truthy clientName then clientName else None)
                           (if truthy industry then industry else None))
              (caseStudies (db s'))
        /\ downloads (trace s')
           = (downloads (trace s)
              ++ task_order w (submitted_urls uploadedFiles))%list).
Proof.
  split.
  - intros Hno. unfold handleGenerate, try_catch, bind.
    destruct (truthy (auth_userId w)) eqn:Hauth.
    + destruct Hno as [Hno|Huser]; [discriminate|].
      unfold createCaseStudy. rewrite Hauth; simpl.
      unfold bind, run_stmt, insert_caseStudy. rewrite Huser. simpl.
      now rewrite sys_eta.
    + unfold createCaseStudy. rewrite Hauth; simpl. reflexivity.
  - intros Hauth Huser. unfold handleGenerate, try_catch, bind.
    rewrite (createCaseStudy_run w _ s Hauth Huser).
    cbn [ret cs_id new_caseStudy_row].
    eexists. split; [reflexivity|]. cbn [db trace]. split.
    + simpl. apply in_or_app. right. now left.
    + cbn [fileUrls]. now rewrite downloads_app, downloads_task_events.
Qed.

Lemma POST_caseStudies (w : World) (request : Request) (s : Sys) :
  caseStudies (db (snd (POST w request s))) = caseStudies (db s).
Proof.
  destruct (POST_db w request s)
    as [-> | (requestId & result & fileId & rows & -> & _)]; reflexivity.
Qed.

Lemma filter_filter_comm {A} (p q : A -> bool) (l : list A) :
  filter p (filter q l) = filter q (filter p l).
Proof.
  induction l as [|x l IH]; simpl; [reflexivity|].
  destruct (p x) eqn:Ep, (q x) eqn:Eq; simpl; rewrite ?Ep, ?Eq, IH;
    reflexivity.
Qed.

(** The files of a case study after the webhook's update: the old ones,
    each rewritten when it carries the request id. *)
Lemma files_of_updated_In (requestId : string) (result : MarkerResponse)
    (d d' : Db) (id : Uuid) (f' : CaseStudyFile) :
  caseStudyFiles d' = updated_files requestId result d ->
  In f' (files_of d' id)
  <-> exists f,
        In f (files_of d id)
        /\ f' = (if f_request_id f =? requestId
                 then updated_row result f else f).
Proof.
  intro H. unfold files_of. rewrite filter_In, H, updated_files_In. split.
  - intros [(f & Hin & ->) Hcs]. exists f. split; [|reflexivity].
    apply filter_In. split; [exact Hin|].
    now destruct (f_request_id f =? requestId).
  - intros (f & Hin & ->). apply filter_In in Hin as [Hin Hcs]. split.
    + exists f. split; [exact Hin | reflexivity].
    + now destruct (f_request_id f =? requestId).
Qed.

Lemma files_of_updated_ids (requestId : string) (result : MarkerResponse)
    (d d' : Db) (id : Uuid) :
  caseStudyFiles d' = updated_files requestId result d ->
  Permutation (map f_id (files_of d' id)) (map f_id (files_of d id)).
Proof.
  intro H. unfold files_of. rewrite H. unfold updated_files, hit_rows.
  rewrite filter_app.
  set (cs := fun f => N.eqb (f_case_study_id f) id).
  set (hit := fun f => f_request_id f =? requestId).
  set (upd := set_result _ _ _ _).
  assert (Hmap : forall l, filter cs (map upd l) = map upd (filter cs l)).
  { induction l as [|x l IH]; simpl; [reflexivity|].
    change (cs (upd x)) with (cs x).
    destruct (cs x); simpl; now rewrite IH. }
  rewrite Hmap, map_app, map_map.
  change (fun x => f_id (upd x)) with f_id.
  rewrite <- map_app. apply Permutation_map.
  rewrite (filter_filter_comm cs (fun f => negb (hit f))),
          (filter_filter_comm cs hit).
  apply (filter_split_perm hit).
Qed.

(** X25. The delivery that ends the polling. A page is polling a case
    study (its timer exists). A delivery passes validation and its result
    is fetched with a status other than "processing"; every file of the
    case study that is still processing carries the delivered request id.
    Then the next firing of the timer, by any viewer, loads the case study
    with no file processing, turns the loading state off and clears the
    timer, after which no firing fetches anything. The files shown are the
    same rows by id, possibly in another order; those of the delivered
    request id show the status of the result and, as text, the markdown of
    the payload when it has the key and the text they had when it has
    not. *)
Theorem delivery_ends_polling (w viewer : World) (body : WebhookBody)
    (requestId url : string) (result : MarkerResponse) (id : Uuid)
    (caseStudy : CaseStudy) (page : Page) (s : Sys) :
  valid_delivery w body requestId url ->
  result_fetched w url result ->
  mr_status result <> "processing" ->
  caseStudy_with_id (db s) id = Some caseStudy ->
  (forall f, In f (files_of (db s) id) -> f_status f = "processing" ->
             f_request_id f = requestId) ->
  page_interval page = true ->
  let s1 := snd (POST w (Parsed body) s) in
  exists data,
    tick viewer id page s1
    = (Returns (mkPage (Some data) false false (page_toasts page)
                       (page_pushed page)), s1)
    /\ (forall viewer' s2,
           tick viewer' id
                (mkPage (Some data) false false (page_toasts page)
                        (page_pushed page)) s2
           = (Returns (mkPage (Some data) false false (page_toasts page)
                              (page_pushed page)), s2))
    /\ cwf_caseStudy data = caseStudy
    /\ Permutation (map (fun p => f_id (fst p)) (cwf_files data))
                   (map f_id (files_of (db s) id))
    /\ forall p, In p (cwf_files data) ->
                 f_request_id (fst p) = requestId ->
                 f_status (fst p) = mr_status result
                 /\ exists f,
                      In f (files_of (db s) id)
                      /\ f_id f = f_id (fst p)
                      /\ f_markdown (fst p)
                         = set_column (mr_markdown result) (f_markdown f).
Proof.
  intros Hv Hf Hstatus Hc Hproc Hint s1.
  pose proof (POST_valid_files w body requestId url result s Hv Hf) as Hfiles.
  pose proof (POST_caseStudies w (Parsed body) s) as Hcs.
  fold s1 in Hfiles, Hcs.
  pose proof (files_of_updated_In requestId result (db s) (db s1) id) as Hof.
  assert (Hstill : hasProcessingFiles
                     (map fst (map (fun f => (f, images_of (db s1) (f_id f)))
                                   (files_of (db s1) id))) = false).
  { rewrite map_map. simpl. rewrite map_id. unfold hasProcessingFiles.
    destruct (existsb _ (files_of (db s1) id)) eqn:E; [|reflexivity].
    exfalso. apply existsb_exists in E as (f' & Hin & Hst).
    apply (Hof f' Hfiles) in Hin as (f & Hin & ->).
    apply String.eqb_eq in Hst.
    destruct (f_request_id f =? requestId) eqn:Hreq.
    + simpl in Hst. contradiction.
    + apply String.eqb_neq in Hreq. exact (Hreq (Hproc f Hin Hst)). }
  set (data := mkCaseStudyWithFiles caseStudy
                 (map (fun f => (f, images_of (db s1) (f_id f)))
                      (files_of (db s1) id))
                 (match files_of (db s1) id with
                  | [] => []
                  | _ :: _ => summaries_of (db s1) id
                  end)).
  exists data. split; [|split; [|split; [|split]]].
  - unfold tick. rewrite Hint.
    unfold fetchCaseStudy, try_catch, bind.
    rewrite getCaseStudyById_run.
    unfold caseStudy_with_id. rewrite Hcs.
    unfold caseStudy_with_id in Hc. rewrite Hc.
    cbn [ret cwf_files]. rewrite Hstill, Hint. reflexivity.
  - intros viewer' s2. reflexivity.
  - reflexivity.
  - unfold data. cbn [cwf_files]. rewrite map_map. simpl.
    exact (files_of_updated_ids requestId result (db s) (db s1) id Hfiles).
  - unfold data. cbn [cwf_files]. intros p Hin Hreq.
    apply in_map_iff in Hin as (f' & <- & Hin). cbn [fst] in *.
    apply (Hof f' Hfiles) in Hin as (f & Hin & ->).
    destruct (f_request_id f =? requestId) eqn:E.
    + split; [reflexivity|]. exists f. split; [exact Hin|].
      split; reflexivity.
    + apply String.eqb_neq in E. contradiction.
Qed.

Lemma delivery_ends_polling_witness :
  exists data,
    tick world_signed_out 0%N (mkPage None true true [] None)
      (snd (POST world_ok (Parsed delivery)
              (sys_of (db_one_file "processing"))))
    = (Returns (mkPage (Some data) false false [] None),
       snd (POST world_ok (Parsed delivery)
              (sys_of (db_one_file "processing"))))
    /\ cwf_caseStudy data = study.
Proof.
  destruct (delivery_ends_polling world_ok world_signed_out delivery
              "req-a.pdf" "https://www.datalab.to/check/1" result_complete
              0%N study (mkPage None true true [] None)
              (sys_of (db_one_file "processing")))
    as (data & Hrun & _ & Hcs & _).
  - repeat split; discriminate.
  - split; [|reflexivity]. now exists "OK", None.
  - discriminate.
  - reflexivity.
  - intros f [<-|[]] _. reflexivity.
  - reflexivity.
  - exists data. split; [exact Hrun | exact Hcs].
Defined.

(* ===================================================================== *)
(** ** What every reachable state satisfies *)
(* ===================================================================== *)

(** X8. Whatever sequence of requests runs (profile creation, case-study
    creation, webhook deliveries, saves, deletions, summarisations), by
    whatever callers and whatever the collaborators answer, a database that
    satisfies the declared foreign keys and whose keys were drawn from the
    supply stays so: no case study without its user, no File or Summary row
    without its case study, no Image row without its file, and no key that a
    later insert could draw again. *)
Theorem requests_preserve_consistency (ops : list Op) (s : Sys) :
  fk_consistent (db s) ->
  keys_below_seed (db s) ->
  fk_consistent (db (run ops s)) /\ keys_below_seed (db (run ops s)).
Proof.
  intros Hfk Hkeys. split.
  - now apply run_fk_consistent.
  - now apply run_keys_below_seed.
Qed.

Lemma requests_preserve_consistency_witness :
  fk_consistent
    (db (run [OpCreateUserProfile "user_1" "Alice" "alice@example.com";
              OpCreateCaseStudy world_ok new_study;
              OpWebhook world_ok (Parsed delivery);
              OpCreateOnePager world_ok "notes" 0%N;
              OpDeleteCaseStudy world_bob (show_uuid 0%N)]
             initial))
  /\ keys_below_seed
       (db (run [OpCreateUserProfile "user_1" "Alice" "alice@example.com";
                 OpCreateCaseStudy world_ok new_study;
                 OpWebhook world_ok (Parsed delivery);
                 OpCreateOnePager world_ok "notes" 0%N;
                 OpDeleteCaseStudy world_bob (show_uuid 0%N)]
                initial)).
Proof.
  apply (requests_preserve_consistency _ initial).
  - exact initial_fk_consistent.
  - exact initial_keys_below_seed.
Defined.

(* ===================================================================== *)
(** ** Saving and reading back *)
(* ===================================================================== *)

Lemma caseStudy_with_id_described (d : Db) (id : Uuid) (text : string)
    (c : CaseStudy) :
  caseStudy_with_id d id = Some c ->
  caseStudy_with_id (with_caseStudies d (described id text d)) id
  = Some (mkCaseStudy (cs_id c) (cs_user_id c) (cs_title c) (Some text)
                      (cs_client c) (cs_industry c)).
Proof.
  unfold caseStudy_with_id, described. simpl.
  induction (caseStudies d) as [|x l IH]; simpl; [discriminate|].
  destruct (N.eqb (cs_id x) id) eqn:E; simpl.
  - rewrite E. simpl. intro H. injection H as <-. reflexivity.
  - rewrite E. exact IH.
Qed.

(** X26. What a save can be read back from. After [saveCaseStudy] by a
    signed-in caller on an existing case study, [getCaseStudyById] returns
    that case study with the saved text as its description and with the
    files, images and summaries it had before; the text does not reach the
    summary table, so [getCaseStudySummary] answers as before the save and
    the summary page shows the same text as before. *)
Theorem saveCaseStudy_read_back (w viewer : World) (id : Uuid)
    (text : string) (caseStudy : CaseStudy) (s : Sys) :
  truthy (auth_userId w) = true ->
  caseStudy_with_id (db s) id = Some caseStudy ->
  let s1 := snd (saveCaseStudy w (show_uuid id) text s) in
  exists before after,
    getCaseStudyById viewer id s = (Returns before, s)
    /\ getCaseStudyById viewer id s1 = (Returns after, s1)
    /\ cs_description (cwf_caseStudy after) = Some text
    /\ cs_id (cwf_caseStudy after) = cs_id caseStudy
    /\ cs_title (cwf_caseStudy after) = cs_title caseStudy
    /\ cwf_files after = cwf_files before
    /\ cwf_summaries after = cwf_summaries before
    /\ (forall summaryId,
           editor_value after summaryId = editor_value before summaryId)
    /\ forall reader,
         fst (getCaseStudySummary reader id s1)
         = fst (getCaseStudySummary reader id s).
Proof.
  intros Hauth Hc s1.
  unfold s1. rewrite (saveCaseStudy_run w id text s Hauth). cbn [snd].
  rewrite !getCaseStudyById_run. cbn [db].
  rewrite (caseStudy_with_id_described _ _ text _ Hc), Hc.
  change (files_of (with_caseStudies (db s) (described id text (db s))) id)
    with (files_of (db s) id).
  change (summaries_of (with_caseStudies (db s) (described id text (db s))) id)
    with (summaries_of (db s) id).
  eexists _, _. split; [reflexivity|]. split; [reflexivity|].
  cbn [cwf_caseStudy cwf_files cwf_summaries cs_description cs_id cs_title].
  split; [reflexivity|]. split; [reflexivity|]. split; [reflexivity|].
  split; [reflexivity|]. split; [reflexivity|]. split; [reflexivity|].
  intro reader. unfold getCaseStudySummary.
  destruct (truthy (auth_userId reader)); simpl; [|reflexivity].
  unfold bind, run_stmt, select_summaries_by_caseStudy. simpl.
  destruct (filter _ (caseStudySummaries (db s))); reflexivity.
Qed.

Lemma saveCaseStudy_read_back_witness :
  exists before after,
    getCaseStudyById world_signed_out 0%N (sys_of db_done)
    = (Returns before, sys_of db_done)
    /\ getCaseStudyById world_signed_out 0%N
         (snd (saveCaseStudy world_bob (show_uuid 0%N) "Edited" (sys_of db_done)))
       = (Returns after,
          snd (saveCaseStudy world_bob (show_uuid 0%N) "Edited" (sys_of db_done)))
    /\ cs_description (cwf_caseStudy after) = Some "Edited"
    /\ cwf_summaries after = cwf_summaries before.
Proof.
  destruct (saveCaseStudy_read_back world_bob world_signed_out 0%N "Edited"
              study (sys_of db_done) eq_refl eq_refl)
    as (before & after & Hb & Ha & Hd & _ & _ & _ & Hs & _).
  exists before, after. auto.
Defined.
